(** * kgnews: batch-aware story cache and refresh cycle

    A shallow embedding of the parts of kgnews that decide how stories are
    cached per (category, batch) and refreshed:

    - [kgnews/models/story.py], [kgnews/models/category.py]: the value types
      and their [from_api_response] constructors;
    - [kgnews/cache/manager.py]: [CacheManager] ([_get_cache_path],
      [get_cached_stories], [save_stories], [clear_old_caches]);
    - [kgnews/api/client.py]: [APIClient.get_categories];
    - [kgnews/ui/screens/main_screen.py]: [MainScreen._load_stories].

    Around them, the code that feeds and uses the cycle:

    - [kgnews/models/config.py], [kgnews/config/manager.py]: [Config] and
      [ConfigManager], and the theme [kgnews/app.py] applies;
    - [kgnews/api/client.py]: [APIClient.get_latest_batch] and
      [APIClient.get_stories] (module [Client]);
    - [kgnews/models/story.py]: [Story.format_display] and
      [Story._format_time] (module [StoryDisplay]);
    - [kgnews/ui/widgets/category_tabs.py]: [CategoryTabs];
    - [kgnews/ui/widgets/story_list.py]: [StoryList];
    - [kgnews/ui/screens/main_screen.py]: [on_mount],
      [on_category_tabs_category_changed], [action_refresh] and
      [_show_config_and_reload] (module [Handlers]).

    Python values are an inductive type of JSON-shaped data, exceptions are
    values of [exn] threaded through an error monad, and the remote service
    is an oracle the refresh cycle queries.  The functions of Python's own
    library that the code calls ([datetime.fromisoformat],
    [datetime.fromtimestamp], [float], [repr]) are the fields of a [Runtime]
    the development is parametric in.

    A string is the sequence of the bytes of its UTF-8 encoding, with a
    surrogate, which a Python string can hold and UTF-8 cannot encode,
    written as the three bytes [surrogatepass] gives it.  Substring tests
    and replacements of ASCII characters are the same on the bytes as on the
    characters; [len] and slices count characters ([StoryDisplay.py_len]),
    and the limit on the name of a file counts bytes.

    The cache directory is a finite map from the keys of files to what
    reading them yields, a directory among its entries included.  What a
    file name leads to is decided by the name where the name decides it (a
    NUL, a surrogate, its length) and by the oracle
    [CacheManager.FileSystem] where pathlib and the OS decide it (a name
    with a slash, the order of a listing).

    What the model takes for granted: one process owns the cache directory,
    which exists (line 29 of [cache/manager.py] creates it), in which files
    can be created and unlinked, and whose files are overwritten when they
    can be opened; the config path, when it is writable, can be created; the file system compares names byte by byte, its
    encoding is UTF-8, and the path of the cache directory leaves room for
    a name of the longest size; no JSON document is nested deeper than the recursion
    limit of the parser, for which [json.load] raises RecursionError;
    [json.dump] followed by [json.load] gives back the strings, [None],
    lists and string-keyed dicts it was given; the batch id of the latest
    batch is a string or [None], as the annotation of [current_batch_id]
    says, and the batch id of a stories response is a string, as the
    annotation of [get_stories] says. *)

From Stdlib Require Import ZArith String Ascii List Bool Lia PrimFloat.
From stdpp Require Import base option list strings gmap fin_maps pretty.

Set Warnings "-register-all".

Local Open Scope string_scope.
Local Open Scope Z_scope.

(** ** Python runtime: exceptions, values, built-in operations *)

Module Py.

(** The exception classes the modelled code raises, catches or lets through. *)
Inductive exn :=
| ValueError
| KeyError
| TypeError
| AttributeError
| OverflowError
| OSError
| JSONDecodeError      (* json.JSONDecodeError, a ValueError *)
| UnicodeDecodeError   (* a ValueError *)
| UnicodeEncodeError   (* a ValueError *)
| APIError             (* kgnews.api.client.APIError *)
| APITimeoutError      (* subclass of APIError *)
| APIResponseError.    (* subclass of APIError *)

Definition exn_eqb (a b : exn) : bool :=
  match a, b with
  | ValueError, ValueError | KeyError, KeyError | TypeError, TypeError
  | AttributeError, AttributeError | OverflowError, OverflowError
  | OSError, OSError | JSONDecodeError, JSONDecodeError
  | UnicodeDecodeError, UnicodeDecodeError
  | UnicodeEncodeError, UnicodeEncodeError | APIError, APIError
  | APITimeoutError, APITimeoutError | APIResponseError, APIResponseError => true
  | _, _ => false
  end.

(** [isinstance e cls]: [e] is an instance of the class [cls], directly or
    through a base class. *)
Definition isinstance (e cls : exn) : bool :=
  exn_eqb e cls ||
  match cls, e with
  | ValueError, (JSONDecodeError | UnicodeDecodeError | UnicodeEncodeError) => true
  | APIError, (APITimeoutError | APIResponseError) => true
  | _, _ => false
  end.

(** The outcome of running a piece of Python: a value or a raised exception. *)
Inductive result (A : Type) :=
| Ok (a : A)
| Raise (e : exn).
Arguments Ok {A} a.
Arguments Raise {A} e.

(** Sequencing: [x ← m; k] runs [k] on the value of [m] and stops at the
    first exception. *)
#[global] Instance result_bind : MBind result := λ A B f m,
  match m with Ok a => f a | Raise e => Raise e end.

(** [try: body  except (c1, ...) as e: h1  except (d1, ...) as e: h2 ...]:
    the first clause one of whose classes the exception is an instance of
    handles it; an exception no clause matches propagates, and so does what
    a handler raises. *)
Fixpoint dispatch {A} (e : exn) (clauses : list (list exn * (exn → result A)))
    : result A :=
  match clauses with
  | [] => Raise e
  | (classes, handler) :: clauses' =>
      if existsb (isinstance e) classes then handler e else dispatch e clauses'
  end.

Definition try_except {A} (body : result A)
    (clauses : list (list exn * (exn → result A))) : result A :=
  match body with
  | Ok a => Ok a
  | Raise e => dispatch e clauses
  end.

(** A number handed to [datetime.fromtimestamp]. *)
Inductive number :=
| NInt (z : Z)
| NFloat (f : float).

(** [needle in hay] for two strings. *)
Fixpoint contains (needle hay : string) : bool :=
  String.prefix needle hay ||
  match hay with
  | EmptyString => false
  | String _ hay' => contains needle hay'
  end.

(** [s.encode("utf-8")] succeeds: no code point of [s] is a surrogate, which
    in the bytes of [s] shows as the byte ED followed by a byte from A0 on. *)
Fixpoint encodable (s : string) : bool :=
  match s with
  | EmptyString => true
  | String c rest =>
      match rest with
      | String c' _ =>
          negb ((nat_of_ascii c =? 237)%nat && (160 <=? nat_of_ascii c')%nat)
      | EmptyString => true
      end && encodable rest
  end.

(** [s.endswith(suffix)]. *)
Fixpoint endswith (s suffix : string) : bool :=
  String.eqb s suffix ||
  match s with
  | EmptyString => false
  | String _ s' => endswith s' suffix
  end.

(** [s.replace('Z', '+00:00')]. *)
Fixpoint replace_Z (s : string) : string :=
  match s with
  | EmptyString => EmptyString
  | String c s' =>
      if Ascii.eqb c "Z"%char then "+00:00" +:+ replace_Z s'
      else String c (replace_Z s')
  end.

Section Values.
Context {datetime : Type}.

(** Python values as the code meets them: what [json.load] returns, plus
    [datetime] objects. A dict keeps its items in insertion order; its keys
    are strings (JSON objects). *)
Inductive value :=
| VNone
| VBool (b : bool)
| VInt (z : Z)
| VFloat (f : float)
| VStr (s : string)
| VList (l : list value)
| VDict (d : list (string * value))
| VDatetime (t : datetime).

(** [d.get(k)] on the items of a dict: the value of the first item with key [k]. *)
Fixpoint dict_get (d : list (string * value)) (k : string) : option value :=
  match d with
  | [] => None
  | (k', v) :: d' => if String.eqb k' k then Some v else dict_get d' k
  end.

(** [isinstance(v, dict)]. *)
Definition is_dict (v : value) : bool :=
  match v with VDict _ => true | _ => false end.

(** [key in container] for a string [key]: membership among the keys of a
    dict, substring of a string, element of a list; any other value is not
    iterable (TypeError). *)
Definition py_contains (container : value) (key : string) : result bool :=
  match container with
  | VDict d => Ok (bool_decide (is_Some (dict_get d key)))
  | VStr s => Ok (contains key s)
  | VList l =>
      Ok (existsb (λ v, match v with VStr s => String.eqb s key | _ => false end) l)
  | _ => Raise TypeError
  end.

(** [container[key]] for a string [key]: a dict item (KeyError when absent);
    strings and lists take integer indices only and other values are not
    subscriptable (TypeError). *)
Definition py_getitem (container : value) (key : string) : result value :=
  match container with
  | VDict d =>
      match dict_get d key with
      | Some v => Ok v
      | None => Raise KeyError
      end
  | _ => Raise TypeError
  end.

(** [obj.get(key, dflt)]: only dicts have a [get] method (AttributeError). *)
Definition py_get (obj : value) (key : string) (dflt : value) : result value :=
  match obj with
  | VDict d => Ok (default dflt (dict_get d key))
  | _ => Raise AttributeError
  end.

(** Truth value of [v] in a condition ([if v: ...]). *)
Definition py_truthy (v : value) : bool :=
  match v with
  | VNone => false
  | VBool b => b
  | VInt z => negb (z =? 0)
  | VFloat f => negb (PrimFloat.eqb f 0%float)
  | VStr s => negb (String.eqb s "")
  | VList l => negb (bool_decide (l = []))
  | VDict d => negb (bool_decide (d = []))
  | VDatetime _ => true
  end.

End Values.
Arguments value : clear implicits.

(** What the code takes from Python's library, left abstract:
    - [fromisoformat s]: [datetime.fromisoformat(s)] on a string, [None] when
      it raises ValueError;
    - [isoformat t]: [t.isoformat()];
    - [float_of_str s]: [float(s)] on a string, [None] when it raises
      ValueError;
    - [fromtimestamp n]: [datetime.fromtimestamp(n)], which may raise
      (ValueError for a year out of range, OverflowError when the timestamp
      does not fit the platform's time_t, OSError when localtime fails);
    - [py_repr v]: [str(v)] for the values whose text the model does not
      spell out (floats, lists, dicts, datetimes). *)
Class Runtime (datetime : Type) := {
  fromisoformat : string → option datetime;
  isoformat : datetime → string;
  float_of_str : string → option float;
  fromtimestamp : number → result datetime;
  py_repr : value datetime → string;
}.

(** What Python's documentation says of these functions and the proofs rely
    on: [fromisoformat] inverts [isoformat], whose text has no letter Z
    (the offset is written +HH:MM), and the text of a value is never empty. *)
Class RuntimeLaws (datetime : Type) `{!Runtime datetime} : Prop := {
  fromisoformat_isoformat (t : datetime) : fromisoformat (isoformat t) = Some t;
  isoformat_no_Z (t : datetime) : contains "Z" (isoformat t) = false;
  py_repr_nonempty (v : value datetime) : py_repr v ≠ "";
}.

Section Builtins.
Context {datetime : Type} `{!Runtime datetime}.

(** [str(v)]. *)
Definition py_str (v : value datetime) : string :=
  match v with
  | VStr s => s
  | VNone => "None"
  | VBool true => "True"
  | VBool false => "False"
  | VInt z => pretty z
  | _ => py_repr v
  end.

End Builtins.
End Py.
Import Py.

(** ** kgnews/models/story.py *)

Module Story.
Section Story.
Context {datetime : Type} `{!Runtime datetime}.

(** The [Story] dataclass. *)
Record t := mk {
  id : string;
  title : string;
  url : string;
  source : string;
  published_at : datetime;
  excerpt : option string;
}.

Definition required_fields : list string :=
  ["id"; "title"; "url"; "source"; "published_at"].

(** [[field for field in fields if field not in data]] (lines 44, 36 of
    category.py): the first membership test that raises ends the
    comprehension. *)
Fixpoint missing_fields (data : value datetime) (fields : list string)
    : result (list string) :=
  match fields with
  | [] => Ok []
  | field :: fields' =>
      present ← py_contains data field;
      rest ← missing_fields data fields';
      Ok (if present : bool then rest else field :: rest)
  end.

(** Lines 50-64: the [published_at] value turned into a datetime. *)
Definition parse_published_at (published_at : value datetime) : result datetime :=
  match published_at with
  | VStr s =>
      (* try: datetime.fromisoformat(published_at.replace('Z', '+00:00')) *)
      match fromisoformat (replace_Z s) with
      | Some t => Ok t
      | None =>
          (* except ValueError: try: datetime.fromtimestamp(float(published_at))
             except (ValueError, TypeError): raise ValueError(...) *)
          try_except
            (match float_of_str s with
             | Some f => fromtimestamp (NFloat f)
             | None => Raise ValueError
             end)
            [([ValueError; TypeError], λ _, Raise ValueError)]
      end
  | VBool b => fromtimestamp (NInt (Z.b2z b))   (* bool is an int *)
  | VInt z => fromtimestamp (NInt z)
  | VFloat f => fromtimestamp (NFloat f)
  | VDatetime t => Ok t
  | _ => Raise ValueError
  end.

(** [Story.from_api_response] (lines 28-78). *)
Definition from_api_response (data : value datetime) : result t :=
  try_except
      (missing ← missing_fields data required_fields;
       if negb (bool_decide (missing = [])) then Raise ValueError
       else
         published ← py_getitem data "published_at";
         published ← parse_published_at published;
         id_v ← py_getitem data "id";
         title_v ← py_getitem data "title";
         url_v ← py_getitem data "url";
         source_v ← py_getitem data "source";
         has_excerpt ← py_contains data "excerpt";
         excerpt_v ←
           (if has_excerpt : bool then
              e ← py_getitem data "excerpt";
              Ok (if py_truthy e then Some (py_str e) else None)
            else Ok None);
         Ok (mk (py_str id_v) (py_str title_v) (py_str url_v) (py_str source_v)
                published excerpt_v))
    [([KeyError], λ _, Raise ValueError);
     ([TypeError; AttributeError], λ _, Raise ValueError)].

End Story.
Arguments t : clear implicits.
End Story.

(** ** kgnews/models/category.py *)

Module Category.
Section Category.
Context {datetime : Type} `{!Runtime datetime}.

(** The [Category] dataclass: [id] is the batch-scoped remote id, [name] the
    stable key. *)
Record t := mk {
  id : string;
  name : string;
  display_name : string;
}.

Definition required_fields : list string := ["id"; "name"; "display_name"].

(** [Category.from_api_response] (lines 20-50). *)
Definition from_api_response (data : value datetime) : result t :=
  try_except
    (missing ← Story.missing_fields data required_fields;
     if negb (bool_decide (missing = [])) then Raise ValueError
     else
       id_v ← py_getitem data "id";
       name_v ← py_getitem data "name";
       display_v ← py_getitem data "display_name";
       Ok (mk (py_str id_v) (py_str name_v) (py_str display_v)))
    [([KeyError], λ _, Raise ValueError);
     ([TypeError; AttributeError], λ _, Raise ValueError)].

End Category.

(** The dataclass's [__eq__]: field-wise equality, decidable. *)
#[global] Instance eq_dec : EqDecision t.
Proof. solve_decision. Defined.

End Category.

(** ** kgnews/api/client.py: [APIClient.get_categories] *)

Module APIClient.
Section APIClient.
Context {datetime : Type} `{!Runtime datetime}.

(** What [client.get(endpoint)], [raise_for_status()] and [response.json()]
    (lines 113-116) come to. *)
Inductive http_outcome :=
| HttpTimeout          (* httpx.TimeoutException *)
| HttpStatusError      (* httpx.HTTPStatusError *)
| HttpRequestError     (* httpx.RequestError *)
| HttpNotJson          (* response.json() raises a ValueError *)
| HttpJson (data : value datetime).

(** Lines 131-137: one element of the [categories] array mapped to the
    model's fields and parsed. *)
Definition parse_category (cat_data : value datetime) : result Category.t :=
  id_v ← py_get cat_data "id" VNone;
  name_v ← py_get cat_data "categoryId" VNone;
  display_v ← py_get cat_data "categoryName" VNone;
  Category.from_api_response
    (VDict [("id", id_v); ("name", name_v); ("display_name", display_v)]).

(** Lines 127-140: the loop over the array; an element whose parse raises
    ValueError or KeyError is skipped, any other exception leaves the loop. *)
Fixpoint parse_categories (categories_data : list (value datetime))
    (categories : list Category.t) : result (list Category.t) :=
  match categories_data with
  | [] => Ok categories
  | cat_data :: rest =>
      categories' ←
        try_except
          (category ← parse_category cat_data; Ok (categories ++ [category])%list)
          [([ValueError; KeyError], λ _, Ok categories)];
      parse_categories rest categories'
  end.

(** [APIClient.get_categories] (lines 99-161). *)
Definition get_categories (response : http_outcome) : result (list Category.t) :=
  match response with
  | HttpTimeout => Raise APITimeoutError
  | HttpStatusError => Raise APIError
  | HttpRequestError => Raise APIError
  | HttpNotJson => Raise APIResponseError
  | HttpJson data =>
      try_except
        (categories_data ← py_get data "categories" (VList []);
         match categories_data with
         | VList l => parse_categories l []
         | _ => Raise APIResponseError
         end)
        [([ValueError; KeyError], λ _, Raise APIResponseError)]
  end.

End APIClient.
Arguments http_outcome : clear implicits.
End APIClient.

(** ** kgnews/cache/manager.py *)

Module CacheManager.

(** The character NUL, which no path may hold. *)
Definition NUL : string := String "000"%char EmptyString.

(** [os.fsencode s] succeeds: every surrogate of [s] is one of the range
    U+DC80..U+DCFF, by which Python stands for a raw byte of a file name. In
    the bytes of [s] a surrogate shows as ED followed by a byte from A0 on,
    and one of that range as ED followed by B2 or B3. *)
Fixpoint fs_encodable (s : string) : bool :=
  match s with
  | EmptyString => true
  | String c rest =>
      match rest with
      | String c' _ =>
          negb ((nat_of_ascii c =? 237)%nat && (160 <=? nat_of_ascii c')%nat
                && negb ((nat_of_ascii c' =? 178)%nat || (nat_of_ascii c' =? 179)%nat))
      | EmptyString => true
      end && fs_encodable rest
  end.

(** The ValueError that [open] and [stat] raise for a file name that is no
    path: one the file system encoding rejects (UnicodeEncodeError), or one
    with a NUL. *)
Definition path_error (name : string) : option exn :=
  if negb (fs_encodable name) then Some UnicodeEncodeError
  else if contains NUL name then Some ValueError
  else None.

(** What the OS makes of a path:
    - [NoAccess]: [stat] fails with an error that [Path.exists] lets
      through, as ENAMETOOLONG and EACCES are, and so does [open];
    - [NoPath]: nothing is there and nothing can be created there (a
      directory on the way is missing): [exists] is false and [open] raises
      an OSError;
    - [Leads key]: the path leads to the file, present or not, that the
      directory map knows as [key]. *)
Inductive path_outcome :=
| NoAccess
| NoPath
| Leads (key : string).

(** What the code takes from the file system, left abstract:
    - [scandir names]: the order in which the entries [names] of the cache
      directory are listed ([Path.glob] lists a directory in the order of
      [os.scandir]);
    - [name_max]: the longest name of an entry, in bytes (NAME_MAX, 255 on
      the usual file systems);
    - [elsewhere name]: what pathlib and the OS make of a file name that
      has a slash, which is a path through other directories, or a
      surrogate, which stands for a raw byte. When such a path leads to a
      file, its key is an entry name when the path comes back into the cache
      directory, as ./x does, and a key with a slash for a file of another
      directory. *)
Class FileSystem := {
  scandir : list string → list string;
  name_max : nat;
  elsewhere : string → path_outcome;
}.

(** A listing holds the entries of the directory, each once. *)
Class FileSystemLaws `{!FileSystem} : Prop := {
  scandir_Permutation (names : list string) : scandir names ≡ₚ names;
}.

(** A key of the directory map that is an entry of the cache directory
    itself: it has no slash. *)
Definition in_directory (key : string) : bool := negb (contains "/" key).

(** A string that names an entry of the cache directory as it stands: it
    has no slash, no NUL and no surrogate, and at most [name_max] bytes. *)
Definition entry_name `{!FileSystem} (name : string) : bool :=
  negb (contains "/" name) && negb (contains NUL name) && encodable name
  && (String.length name <=? name_max)%nat.

(** Where a file name that is a path leads: to the entry of that name, when
    it is the plain name of one; nowhere, when it is plain and too long; and
    to what [elsewhere] says otherwise. *)
Definition locate `{!FileSystem} (name : string) : path_outcome :=
  if negb (contains "/" name) && encodable name then
    if (String.length name <=? name_max)%nat then Leads name else NoAccess
  else elsewhere name.

Section CacheManager.
Context {datetime : Type} `{!Runtime datetime} `{!FileSystem}.

(** What a path leads to, as what [open(path, "r", encoding="utf-8")]
    followed by [json.load] (lines 60-61) makes of it. A document nested
    too deep for the parser is left out. *)
Inductive file :=
| Unreadable                     (* a file that cannot be opened, for reading
                                    or for writing: OSError *)
| NotText                        (* the bytes are not UTF-8: UnicodeDecodeError *)
| NotJson                        (* the text is no JSON document: JSONDecodeError *)
| Json (data : value datetime)   (* a JSON document *)
| Directory.                     (* a directory: [open] and [unlink] raise
                                    IsADirectoryError, an OSError *)

Definition json_load (f : file) : result (value datetime) :=
  match f with
  | Unreadable => Raise OSError
  | NotText => Raise UnicodeDecodeError
  | NotJson => Raise JSONDecodeError
  | Json data => Ok data
  | Directory => Raise OSError
  end.

(** The f-string of line 41. *)
Definition file_name (category_id batch_id : string) : string :=
  category_id +:+ "_" +:+ batch_id +:+ ".json".

(** [_get_cache_path] (lines 31-41), as the key under which the directory
    map holds what the path leads to. *)
Definition _get_cache_path (category_id batch_id : string) : string :=
  let name := file_name category_id batch_id in
  match path_error name, locate name with
  | None, Leads key => key
  | _, _ => name
  end.

(** [for x in v]: the items a loop over [v] visits (the keys of a dict, the
    characters of a string); other values are not iterable (TypeError). *)
Fixpoint chars (s : string) : list string :=
  match s with
  | EmptyString => []
  | String c s' => String c EmptyString :: chars s'
  end.

Definition py_iter (v : value datetime) : result (list (value datetime)) :=
  match v with
  | VList l => Ok l
  | VDict d => Ok (map (λ kv, VStr (fst kv)) d)
  | VStr s => Ok (map VStr (chars s))
  | _ => Raise TypeError
  end.

(** Lines 69-76: the loop over the cached records; a record whose parse
    raises ValueError or KeyError is skipped. *)
Fixpoint parse_cached (stories_data : list (value datetime))
    (stories : list (Story.t datetime)) : result (list (Story.t datetime)) :=
  match stories_data with
  | [] => Ok stories
  | story_data :: rest =>
      stories' ←
        try_except
          (story ← Story.from_api_response story_data;
           Ok (stories ++ [story])%list)
          [([ValueError; KeyError], λ _, Ok stories)];
      parse_cached rest stories'
  end.

(** [get_cached_stories] (lines 43-85): [Ok None] is the Python [None].
    [cache_path.exists()] (line 55) is false when nothing is at the path and
    when the name is no path; it raises the OSError of a path that cannot be
    accessed, outside the [try] of line 59. *)
Definition get_cached_stories (category_id batch_id : string)
    (cache_dir : gmap string file) : result (option (list (Story.t datetime))) :=
  let name := file_name category_id batch_id in
  let cache_path := _get_cache_path category_id batch_id in
  match cache_dir !! cache_path with
  | None =>
      match path_error name, locate name with
      | None, NoAccess => Raise OSError
      | _, _ => Ok None
      end
  | Some f =>
      try_except
        (data ← json_load f;
         if negb (is_dict data) then Ok None
         else
           has_stories ← py_contains data "stories";
           if negb has_stories then Ok None
           else
             stories_v ← py_getitem data "stories";
             stories_data ← py_iter stories_v;
             stories ← parse_cached stories_data [];
             Ok (Some stories))
        [([JSONDecodeError; OSError], λ _, Ok None)]
  end.

(** Lines 103-110: the serialised form of one story. *)
Definition story_dict (story : Story.t datetime) : value datetime :=
  VDict [("id", VStr (Story.id story));
         ("title", VStr (Story.title story));
         ("url", VStr (Story.url story));
         ("source", VStr (Story.source story));
         ("published_at", VStr (isoformat (Story.published_at story)));
         ("excerpt", match Story.excerpt story with
                     | Some e => VStr e
                     | None => VNone
                     end)].

(** Lines 114-118. *)
Definition cache_data (category_id batch_id : string)
    (stories : list (Story.t datetime)) : value datetime :=
  VDict [("batch_id", VStr batch_id);
         ("category_id", VStr category_id);
         ("stories", VList (map story_dict stories))].

(** [save_stories] (lines 87-128): the directory after the call, or the
    exception it raises. The entry holds strings, [None], lists and
    string-keyed dicts only, and [json.dump] escapes what is not ASCII, so
    the document is written and [json.load] reads it back unchanged.
    [open(cache_path, "w")] raises a ValueError for a name that is no path,
    which the handler of line 127 does not take; it raises an OSError, which
    the handler logs, when the path cannot be opened or leads to a
    directory or to a file that cannot be opened; otherwise the file is
    created or overwritten. *)
Definition save_stories (category_id batch_id : string)
    (stories : list (Story.t datetime)) (cache_dir : gmap string file)
    : result (gmap string file) :=
  let name := file_name category_id batch_id in
  match path_error name with
  | Some e => Raise e
  | None =>
      match locate name with
      | Leads cache_path =>
          match cache_dir !! cache_path with
          | Some Directory | Some Unreadable => Ok cache_dir
          | _ =>
              Ok (<[cache_path := Json (cache_data category_id batch_id stories)]>
                    cache_dir)
          end
      | _ => Ok cache_dir
      end
  end.

(** [self.cache_dir.glob("*.json")] (line 141): the entries of the
    directory whose name ends in [.json], hidden ones included, in the order
    the directory lists them. A key with a slash stands for a file of
    another directory, which the glob does not see. *)
Definition glob_json (cache_dir : gmap string file) : list string :=
  filter (λ name, in_directory name && endswith name ".json" = true)
         (scandir (map_to_list cache_dir).*1).

(** The loop of lines 141-145 over the globbed names: an entry whose name
    does not contain the current batch id is unlinked; when [unlink] raises,
    as it does for a directory, the handler of lines 150-151 ends the loop
    with the entries after it left in place. *)
Fixpoint unlink_old (current_batch_id : string) (cache_files : list string)
    (cache_dir : gmap string file) : gmap string file :=
  match cache_files with
  | [] => cache_dir
  | cache_file :: rest =>
      if negb (contains current_batch_id cache_file) then
        match cache_dir !! cache_file with
        | Some Directory => cache_dir
        | _ => unlink_old current_batch_id rest (delete cache_file cache_dir)
        end
      else unlink_old current_batch_id rest cache_dir
  end.

(** [clear_old_caches] (lines 130-151). The cache directory exists, so the
    guard of line 136 is not met. *)
Definition clear_old_caches (current_batch_id : string)
    (cache_dir : gmap string file) : gmap string file :=
  unlink_old current_batch_id (glob_json cache_dir) cache_dir.

End CacheManager.
Arguments file : clear implicits.
End CacheManager.

(** ** kgnews/ui/screens/main_screen.py: [MainScreen._load_stories] *)

Module MainScreen.
Section MainScreen.
Context {datetime : Type} `{!Runtime datetime} `{!CacheManager.FileSystem}.

(** The remote service during one refresh cycle, as the two calls of
    [_load_stories] see it:
    - [latest_batch_id]: [(await api_client.get_latest_batch()).get("id")]
      (lines 77-78), the batch id or [None], or the exception the call raises;
    - [get_stories remote_id]: [await api_client.get_stories(remote_id)], the
      parsed stories with the batch id of the response, or the exception. *)
Record remote := {
  latest_batch_id : result (option string);
  get_stories : string → result (list (Story.t datetime) * string);
}.

(** The fields of [MainScreen] the cycle reads and writes, with the cache
    directory its [CacheManager] works on. *)
Record screen := {
  categories : list Category.t;
  stories_by_category : gmap string (list (Story.t datetime));
  current_batch_id : option string;
  cache_dir : gmap string (CacheManager.file datetime);
}.

(** Lines 89-102: the loop that takes cache hits into [stories_by_category]
    and collects the other categories in [categories_to_fetch]. *)
Fixpoint classify (batch_id : string) (cache : gmap string (CacheManager.file datetime))
    (cats : list Category.t)
    (stories : gmap string (list (Story.t datetime)))
    (categories_to_fetch : list Category.t)
    : result (gmap string (list (Story.t datetime)) * list Category.t) :=
  match cats with
  | [] => Ok (stories, categories_to_fetch)
  | category :: cats' =>
      cached_stories ←
        CacheManager.get_cached_stories (Category.name category) batch_id cache;
      match cached_stories with
      | Some cached =>
          classify batch_id cache cats'
            (<[Category.name category := cached]> stories) categories_to_fetch
      | None =>
          classify batch_id cache cats' stories
            (categories_to_fetch ++ [category])%list
      end
  end.

(** [fetch_category_stories] (lines 110-120). *)
Definition fetch_category_stories (api : remote) (category : Category.t)
    : result (string * list (Story.t datetime) * string) :=
  try_except
    ('(stories, batch_id) ← get_stories api (Category.id category);
     Ok (Category.name category, stories, batch_id))
    [([APIError], λ _, Ok (Category.name category, [], ""))].

(** [asyncio.gather] over the categories to fetch (lines 123-125): the
    results in the order of the categories, or the first exception a fetch
    lets through. The fetches share no state, so their interleaving does not
    show. *)
Fixpoint gather (api : remote) (cats : list Category.t)
    : result (list (string * list (Story.t datetime) * string)) :=
  match cats with
  | [] => Ok []
  | category :: cats' =>
      r ← fetch_category_stories api category;
      rs ← gather api cats';
      Ok (r :: rs)
  end.

(** Lines 129-133: a non-empty result replaces the category's stories and
    is saved to the cache under the batch id that came with it; what
    [save_stories] raises leaves the loop. *)
Definition store_result
    (st : gmap string (list (Story.t datetime)) * gmap string (CacheManager.file datetime))
    (r : string * list (Story.t datetime) * string)
    : result (gmap string (list (Story.t datetime))
              * gmap string (CacheManager.file datetime)) :=
  let '(category_name, stories, batch_id) := r in
  match stories with
  | [] => Ok st
  | _ :: _ =>
      cache ← CacheManager.save_stories category_name batch_id stories (snd st);
      Ok (<[category_name := stories]> (fst st), cache)
  end.

(** The loop of line 128. *)
Fixpoint store_results
    (results : list (string * list (Story.t datetime) * string))
    (st : gmap string (list (Story.t datetime)) * gmap string (CacheManager.file datetime))
    : result (gmap string (list (Story.t datetime))
              * gmap string (CacheManager.file datetime)) :=
  match results with
  | [] => Ok st
  | r :: results' =>
      st' ← store_result st r;
      store_results results' st'
  end.

(** [_load_stories] (lines 63-139). The result is the screen after the cycle
    together with the remote ids [get_stories] was called with, in order; a
    cycle that raises is [Raise]. *)
Definition _load_stories (api : remote) (s : screen)
    : result (screen * list string) :=
  match categories s with
  | [] => Ok (s, [])
  | _ :: _ =>
      batch ← latest_batch_id api;
      match batch with
      | None =>
          Ok ({| categories := categories s;
                 stories_by_category := stories_by_category s;
                 current_batch_id := None;
                 cache_dir := cache_dir s |}, [])
      | Some batch_id =>
          if String.eqb batch_id "" then
            Ok ({| categories := categories s;
                   stories_by_category := stories_by_category s;
                   current_batch_id := Some batch_id;
                   cache_dir := cache_dir s |}, [])
          else
            '(stories, categories_to_fetch) ←
              classify batch_id (cache_dir s) (categories s) (stories_by_category s) [];
            results ← gather api categories_to_fetch;
            '(stories', cache') ← store_results results (stories, cache_dir s);
            Ok ({| categories := categories s;
                   stories_by_category := stories';
                   current_batch_id := Some batch_id;
                   cache_dir := CacheManager.clear_old_caches batch_id cache' |},
                map Category.id categories_to_fetch)
      end
  end.

End MainScreen.
Arguments remote : clear implicits.
Arguments screen : clear implicits.
End MainScreen.

(** ** kgnews/models/config.py *)

Module Config.
Section Config.
Context {datetime : Type} `{!Runtime datetime}.

(** The [Config] dataclass. *)
Record t := mk {
  selected_categories : list string;
  theme : string;
}.

(** [to_dict] (lines 18-27). *)
Definition to_dict (self : t) : value datetime :=
  VDict [("selected_categories", VList (map VStr (selected_categories self)));
         ("theme", VStr (theme self))].

(** [from_dict] (lines 30-60). *)
Definition from_dict (data : value datetime) : result t :=
  try_except
    (selected ← py_get data "selected_categories" (VList []);
     match selected with
     | VList cats =>
         theme_v ← py_get data "theme" (VStr "textual-dark");
         Ok (mk (map py_str cats)
                (match theme_v with VStr s => s | _ => "textual-dark" end))
     | _ => Raise ValueError
     end)
    [([TypeError; AttributeError], λ _, Raise ValueError)].

(** [default] (lines 63-71). *)
Definition default : t := mk [] "textual-dark".

End Config.
End Config.

(** ** kgnews/config/manager.py *)

Module ConfigManager.
Section ConfigManager.
Context {datetime : Type} `{!Runtime datetime}.

(** The file at [config_path]: [content] is [None] when the path does not
    exist and otherwise what opening and parsing it yields; [writable] tells
    whether [mkdir] and opening the file for writing succeed, which the
    latter never does on a directory or on a file that cannot be opened.
    Every manager of the process works on the same file. *)
Record disk := {
  content : option (CacheManager.file datetime);
  writable : bool;
}.

(** A [ConfigManager]: the config it has cached, if any. The cached object
    is the one [load] hands out, so an assignment to a field of a loaded
    config shows in [_config] too. *)
Record t := mk {
  _config : option Config.t;
}.

(** [ConfigManager()] (lines 19-31). *)
Definition init : t := mk None.

(** [load] (lines 33-73): the config and the manager after the call. *)
Definition load (d : disk) (self : t) : result (Config.t * t) :=
  match _config self with
  | Some config => Ok (config, self)
  | None =>
      match content d with
      | None => Ok (Config.default, mk (Some Config.default))
      | Some f =>
          try_except
            (data ← CacheManager.json_load f;
             config ← Config.from_dict data;
             Ok (config, mk (Some config)))
            [([JSONDecodeError],
              λ _, Ok (Config.default, mk (Some Config.default)));
             ([ValueError; OSError],
              λ _, Ok (Config.default, mk (Some Config.default)))]
      end
  end.

(** [save] (lines 75-97): the file and the manager after the call, and
    whether the call returned or raised. When the path cannot be opened for
    writing (it is not writable, a directory, or a file that cannot be
    opened) the OSError is logged and
    raised again, with the file and the cached config left as they were.
    Opening truncates the file; [json.dump] is called with
    [ensure_ascii=False], so a string with a surrogate reaches the file
    object, whose UTF-8 encoder raises UnicodeEncodeError: the handler of
    line 95 does not take it, the file is left with the part of the document
    written so far and the cached config is not updated. Otherwise the file
    holds the document, which [json.load] reads back unchanged. *)
Definition save (config : Config.t) (d : disk) (self : t)
    : disk * t * result unit :=
  if writable d && match content d with
                   | Some CacheManager.Directory
                   | Some CacheManager.Unreadable => false
                   | _ => true
                   end then
    if forallb encodable (Config.theme config :: Config.selected_categories config)
    then
      ({| content := Some (CacheManager.Json (Config.to_dict config));
          writable := true |},
       mk (Some config), Ok tt)
    else
      ({| content := Some CacheManager.NotJson; writable := true |},
       self, Raise UnicodeEncodeError)
  else (d, self, Raise OSError).

(** [get_selected_categories] (lines 99-106). *)
Definition get_selected_categories (d : disk) (self : t)
    : result (list string * t) :=
  '(config, self') ← load d self;
  Ok (Config.selected_categories config, self').

(** [set_selected_categories] (lines 108-116). The config [load] returns is
    the cached object, so line 115 changes the cached config before [save]
    runs, whether or not [save] then raises. *)
Definition set_selected_categories (categories : list string) (d : disk) (self : t)
    : disk * t * result unit :=
  match load d self with
  | Raise e => (d, self, Raise e)
  | Ok (config, _) =>
      let config' := Config.mk categories (Config.theme config) in
      save config' d (mk (Some config'))
  end.

(** [get_theme] (lines 118-125). *)
Definition get_theme (d : disk) (self : t) : result (string * t) :=
  '(config, self') ← load d self;
  Ok (Config.theme config, self').

(** [set_theme] (lines 127-135). *)
Definition set_theme (theme : string) (d : disk) (self : t)
    : disk * t * result unit :=
  match load d self with
  | Raise e => (d, self, Raise e)
  | Ok (config, _) =>
      let config' := Config.mk (Config.selected_categories config) theme in
      save config' d (mk (Some config'))
  end.

End ConfigManager.
Arguments disk : clear implicits.
End ConfigManager.

(** ** kgnews/app.py: the theme the application applies *)

Module KagiNewsApp.
Section KagiNewsApp.
Context {datetime : Type} `{!Runtime datetime}.

Definition AVAILABLE_THEMES : list string :=
  ["textual-dark"; "textual-light"; "nord"; "gruvbox"; "monokai"; "dracula";
   "catppuccin-mocha"; "catppuccin-latte"; "solarized-light"; "tokyo-night";
   "flexoki"; "textual-ansi"].

(** [_apply_theme] (lines 61-72): the theme the application ends up with. *)
Definition _apply_theme (theme_name : string) : string :=
  if bool_decide (theme_name ∈ AVAILABLE_THEMES) then theme_name
  else "textual-dark".

(** [on_mount] (lines 49-59), as far as the theme goes: a fresh manager
    loads the config and its theme is applied. *)
Definition on_mount (d : ConfigManager.disk datetime) : result string :=
  '(config, _) ← ConfigManager.load d ConfigManager.init;
  Ok (_apply_theme (Config.theme config)).

End KagiNewsApp.
End KagiNewsApp.

(** ** kgnews/api/client.py: [APIClient.get_latest_batch], [APIClient.get_stories] *)

Module Client.
Section Client.
Context {datetime : Type} `{!Runtime datetime}.

(** [get_latest_batch] (lines 50-97). The f-string of line 78 calls
    [data.get], which only a dict has. *)
Definition get_latest_batch (response : APIClient.http_outcome datetime)
    : result (value datetime) :=
  match response with
  | APIClient.HttpTimeout => Raise APITimeoutError
  | APIClient.HttpStatusError => Raise APIError
  | APIClient.HttpRequestError => Raise APIError
  | APIClient.HttpNotJson => Raise APIResponseError
  | APIClient.HttpJson data =>
      try_except
        (has_id ← py_contains data "id";
         if negb has_id then Raise APIResponseError
         else
           _ ← py_get data "id" VNone;
           Ok data)
        [([ValueError; KeyError], λ _, Raise APIResponseError)]
  end.

(** Lines 207-212: [None] stands for the [continue] of line 210, taken when
    [articles] is falsy; otherwise [articles[0]] is the first element of a
    list or the first character of a string, a dict has no key [0]
    (KeyError), and the other truthy values cannot be subscripted
    (TypeError). *)
Definition first_article (articles : value datetime)
    : result (option (value datetime)) :=
  if negb (py_truthy articles) then Ok None
  else
    match articles with
    | VList (article :: _) => Ok (Some article)
    | VStr (String c _) => Ok (Some (VStr (String c EmptyString)))
    | VDict _ => Raise KeyError
    | _ => Raise TypeError
    end.

(** Lines 207-227: one story cluster mapped to the model's fields, taking
    the link, domain and date of its first article, and parsed; [None] when
    the cluster is skipped for having no articles. *)
Definition parse_story (story_data : value datetime)
    : result (option (Story.t datetime)) :=
  articles ← py_get story_data "articles" (VList []);
  first ← first_article articles;
  match first with
  | None => Ok None
  | Some article =>
      cluster_number ← py_get story_data "cluster_number" (VStr "unknown");
      id_v ← py_get story_data "id" (VStr (py_str cluster_number));
      title_v ← py_get story_data "title" VNone;
      url_v ← py_get article "link" VNone;
      source_v ← py_get article "domain" VNone;
      date_v ← py_get article "date" VNone;
      excerpt_v ← py_get story_data "short_summary" VNone;
      story ← Story.from_api_response
                (VDict [("id", id_v); ("title", title_v); ("url", url_v);
                        ("source", source_v); ("published_at", date_v);
                        ("excerpt", excerpt_v)]);
      Ok (Some story)
  end.

(** Lines 202-231: the loop over the clusters; a cluster whose parse raises
    ValueError or KeyError is skipped, any other exception leaves the loop. *)
Fixpoint parse_stories (stories_data : list (value datetime))
    (stories : list (Story.t datetime)) : result (list (Story.t datetime)) :=
  match stories_data with
  | [] => Ok stories
  | story_data :: rest =>
      stories' ←
        try_except
          (story ← parse_story story_data;
           Ok (match story with
               | Some story => (stories ++ [story])%list
               | None => stories
               end))
          [([ValueError; KeyError], λ _, Ok stories)];
      parse_stories rest stories'
  end.

(** [get_stories] (lines 163-254). [http category_id limit] is what the
    request for the stories of [category_id] with the query parameter
    [limit] comes to; the result carries the [batchId] of the response as
    it is. *)
Definition get_stories (http : string → Z → APIClient.http_outcome datetime)
    (category_id : string) (limit : Z)
    : result (list (Story.t datetime) * value datetime) :=
  let limit := Z.max 1 (Z.min 100 limit) in
  match http category_id limit with
  | APIClient.HttpTimeout => Raise APITimeoutError
  | APIClient.HttpStatusError => Raise APIError
  | APIClient.HttpRequestError => Raise APIError
  | APIClient.HttpNotJson => Raise APIResponseError
  | APIClient.HttpJson data =>
      try_except
        (batch_id ← py_get data "batchId" (VStr "");
         stories_data ← py_get data "stories" (VList []);
         match stories_data with
         | VList clusters =>
             stories ← parse_stories clusters [];
             Ok (stories, batch_id)
         | _ => Raise APIResponseError
         end)
        [([ValueError; KeyError], λ _, Raise APIResponseError)]
  end.

End Client.
End Client.

(** ** kgnews/models/story.py: [Story.format_display], [Story._format_time] *)

(** What [_format_time] takes from the clock and from [datetime] at the
    moment of the call: [diff_days dt] and [diff_seconds dt] are the [days]
    and [seconds] of the timedelta [now - dt], and [strftime_date dt] is
    [dt.strftime("%Y-%m-%d")]. *)
Class Clock (datetime : Type) := {
  diff_days : datetime → Z;
  diff_seconds : datetime → Z;
  strftime_date : datetime → string;
}.

Module StoryDisplay.
Section StoryDisplay.
Context {datetime : Type} `{!Runtime datetime} `{!Clock datetime}.

(** [_format_time] (lines 97-125). *)
Definition _format_time (dt : datetime) : string :=
  if diff_days dt =? 0 then
    let hours := diff_seconds dt / 3600 in
    let minutes := (diff_seconds dt mod 3600) / 60 in
    if hours =? 0 then
      if minutes =? 0 then "just now" else pretty minutes +:+ "m ago"
    else pretty hours +:+ "h ago"
  else if diff_days dt =? 1 then "yesterday"
  else if diff_days dt <? 7 then pretty (diff_days dt) +:+ "d ago"
  else strftime_date dt.

(** A byte that continues a character in UTF-8. *)
Definition is_continuation (c : ascii) : bool :=
  (128 <=? nat_of_ascii c)%nat && (nat_of_ascii c <? 192)%nat.

(** [len(s)]: the number of characters of the text, whose bytes [s] holds. *)
Fixpoint py_len (s : string) : nat :=
  match s with
  | EmptyString => 0%nat
  | String c s' => if is_continuation c then py_len s' else S (py_len s')
  end.

(** [s[:n]]: the first [n] characters of the text. *)
Fixpoint py_prefix (n : nat) (s : string) : string :=
  match s with
  | EmptyString => EmptyString
  | String c s' =>
      if is_continuation c then String c (py_prefix n s')
      else
        match n with
        | O => EmptyString
        | S n' => String c (py_prefix n' s')
        end
  end.

(** Lines 90-93: the title as displayed. *)
Definition display_title (title : string) : string :=
  if (80 <? py_len title)%nat
  then py_prefix (80 - 3) title +:+ "..."
  else title.

(** [format_display] (lines 80-95). *)
Definition format_display (self : Story.t datetime) : string :=
  let time_str := _format_time (Story.published_at self) in
  display_title (Story.title self) +:+ " | " +:+ Story.source self +:+ " | "
    +:+ time_str.

End StoryDisplay.
End StoryDisplay.

(** ** kgnews/ui/widgets/category_tabs.py *)

Module CategoryTabs.

(** [s.replace(old, "_")] for a one-character [old]. *)
Fixpoint replace_char (old : ascii) (s : string) : string :=
  match s with
  | EmptyString => EmptyString
  | String c s' =>
      String (if Ascii.eqb c old then "_"%char else c) (replace_char old s')
  end.

(** Lines 54-59: the category name made fit for a widget id. *)
Definition safe_name (name : string) : string :=
  replace_char " " (replace_char ")" (replace_char "(" (replace_char "|" name))).

(** The widget's own state; the panes and the [active] attribute belong to
    Textual's [TabbedContent] and are passed in where they are read. *)
Record t := mk {
  _tab_ids : list string;
  _tab_to_category : gmap string string;
}.

(** [__init__] (lines 38-44). *)
Definition init : t := mk [] ∅.

(** [add_tab] (lines 46-72), as far as the widget's own state goes. *)
Definition add_tab (category : Category.t) (self : t) : t :=
  let tab_id := "tab-" +:+ safe_name (Category.name category) in
  mk (_tab_ids self ++ [tab_id])
     (<[tab_id := Category.name category]> (_tab_to_category self)).

(** [l.index(x)]: the position of the first element equal to [x]; [None]
    stands for the ValueError. *)
Fixpoint index (l : list string) (x : string) : option nat :=
  match l with
  | [] => None
  | y :: l' => if String.eqb y x then Some 0%nat else S <$> index l' x
  end.

(** [action_next_tab] (lines 74-97): the tab made active and the category
    name posted in [CategoryChanged]; [None] when there are no tabs and
    nothing happens. The index of line 90 is in range, so the lookup of line
    91 finds an element. *)
Definition action_next_tab (self : t) (active : string) : option (string * string) :=
  match _tab_ids self with
  | [] => None
  | _ :: _ =>
      let current_index :=
        match index (_tab_ids self) active with
        | Some i => Z.of_nat i
        | None => -1
        end in
      let next_index := (current_index + 1) mod Z.of_nat (length (_tab_ids self)) in
      next_id ← _tab_ids self !! Z.to_nat next_index;
      Some (next_id, default next_id (_tab_to_category self !! next_id))
  end.

(** [action_previous_tab] (lines 99-122). *)
Definition action_previous_tab (self : t) (active : string)
    : option (string * string) :=
  match _tab_ids self with
  | [] => None
  | _ :: _ =>
      let current_index :=
        match index (_tab_ids self) active with
        | Some i => Z.of_nat i
        | None => 0
        end in
      let prev_index := (current_index - 1) mod Z.of_nat (length (_tab_ids self)) in
      prev_id ← _tab_ids self !! Z.to_nat prev_index;
      Some (prev_id, default prev_id (_tab_to_category self !! prev_id))
  end.

End CategoryTabs.

(** ** kgnews/ui/screens/main_screen.py: the handlers around [_load_stories] *)

Module Handlers.
Section Handlers.
Context {datetime : Type} `{!Runtime datetime} `{!CacheManager.FileSystem}.

(** Lines 160-162 (and 338-340): the categories of the API whose name is
    among the selected ones. *)
Definition select_categories (all_categories : list Category.t)
    (selected_category_ids : list string) : list Category.t :=
  filter (λ cat, Category.name cat ∈ selected_category_ids) all_categories.

(** How [on_mount] ends: with [_show_empty_state] and its message, with
    [_show_error], or with the screen loaded, its tabs created and
    [set_stories] called with [shown]. *)
Inductive mounted :=
| EmptyState (message : string)
| ShowError
| Loaded (s : MainScreen.screen datetime) (tabs : CategoryTabs.t)
         (shown : list (Story.t datetime)).

(** [on_mount] (lines 141-189) of a screen just created: its manager has
    loaded nothing, it has no categories and no stories. [d] is the config
    file, [response] what the categories request comes to, [api] the
    service as [_load_stories] sees it and [cache] the cache directory. Both
    handlers end in [_show_error]; every exception of the model is an
    [Exception]. *)
Definition on_mount (d : ConfigManager.disk datetime)
    (response : APIClient.http_outcome datetime)
    (api : MainScreen.remote datetime)
    (cache : gmap string (CacheManager.file datetime)) : mounted :=
  let body :=
    '(config, _) ← ConfigManager.load d ConfigManager.init;
    let selected_category_ids := Config.selected_categories config in
    match selected_category_ids with
    | [] => Ok (EmptyState "No categories configured. Press 'c' to configure.")
    | _ :: _ =>
        all_categories ← APIClient.get_categories response;
        let categories := select_categories all_categories selected_category_ids in
        match categories with
        | [] =>
            Ok (EmptyState "Selected categories not found. Press 'c' to reconfigure.")
        | first_category :: _ =>
            let tabs := foldl (λ tabs category, CategoryTabs.add_tab category tabs)
                              CategoryTabs.init categories in
            '(s, _) ← MainScreen._load_stories api
                        {| MainScreen.categories := categories;
                           MainScreen.stories_by_category := ∅;
                           MainScreen.current_batch_id := None;
                           MainScreen.cache_dir := cache |};
            Ok (Loaded s tabs
                  (default [] (MainScreen.stories_by_category s
                                 !! Category.name first_category)))
        end
    end in
  match body with
  | Ok m => m
  | Raise _ => ShowError
  end.

(** [on_category_tabs_category_changed] (lines 191-207): the list
    [set_stories] is called with, [None] when it is not called. [story_list]
    is the truth value of [self._story_list] at line 205. *)
Definition on_category_tabs_category_changed (category_id : string)
    (story_list : bool) (s : MainScreen.screen datetime)
    : option (list (Story.t datetime)) :=
  match find (λ category, String.eqb (Category.name category) category_id)
             (MainScreen.categories s) with
  | Some category =>
      let stories :=
        default [] (MainScreen.stories_by_category s !! Category.name category) in
      if story_list then Some stories else None
  | None => None
  end.

(** [s.replace(old, new, 1)]: the first occurrence of [old] replaced. *)
Fixpoint replace_first (old new s : string) : string :=
  if String.prefix old s
  then new +:+ String.substring (String.length old)
                 (String.length s - String.length old) s
  else
    match s with
    | EmptyString => EmptyString
    | String c s' => String c (replace_first old new s')
    end.

(** Lines 275-279: the category the active tab is taken to stand for. *)
Definition active_category_id (active_tab_id : string) : string :=
  if String.prefix "tab-" active_tab_id
  then replace_first "tab-" "" active_tab_id
  else active_tab_id.

(** How [action_refresh] ends: with the screen after the cycle and the list
    line 282 calls [set_stories] with, if it is reached, or with the
    [_show_error] of a handler. *)
Inductive refreshed :=
| Refreshed (s : MainScreen.screen datetime)
            (shown : option (list (Story.t datetime)))
| RefreshError.

(** [action_refresh] (lines 264-289). [active] is the id of the active tab
    when the condition of line 273 holds and the empty string when it does
    not; [story_list] is the truth value of [self._story_list] at line 281. *)
Definition action_refresh (api : MainScreen.remote datetime) (active : string)
    (story_list : bool) (s : MainScreen.screen datetime) : refreshed :=
  match MainScreen._load_stories api s with
  | Ok (s', _) =>
      if negb (String.eqb active "") then
        let stories :=
          default [] (MainScreen.stories_by_category s'
                        !! active_category_id active) in
        Refreshed s' (if story_list then Some stories else None)
      else Refreshed s' None
  | Raise _ => RefreshError
  end.

(** [_show_config_and_reload] (lines 296-369). [saved] is the result the
    configuration screen was dismissed with and [manager] the screen's own
    [ConfigManager]; unless the config was saved nothing is done ([None]).
    The categories, the stories and the tabs are reset, and lines 324-369
    then do what [on_mount] does, over the batch id and the cache directory
    the screen has. *)
Definition _show_config_and_reload (saved : bool)
    (d : ConfigManager.disk datetime) (manager : ConfigManager.t)
    (response : APIClient.http_outcome datetime)
    (api : MainScreen.remote datetime) (s : MainScreen.screen datetime)
    : result (option mounted) :=
  if negb saved then Ok None
  else
    '(config, _) ← ConfigManager.load d manager;
    let selected_category_ids := Config.selected_categories config in
    let body :=
      match selected_category_ids with
      | [] => Ok (EmptyState "No categories configured. Press 'c' to configure.")
      | _ :: _ =>
          all_categories ← APIClient.get_categories response;
          let categories :=
            select_categories all_categories selected_category_ids in
          match categories with
          | [] =>
              Ok (EmptyState
                    "Selected categories not found. Press 'c' to reconfigure.")
          | first_category :: _ =>
              let tabs :=
                foldl (λ tabs category, CategoryTabs.add_tab category tabs)
                      CategoryTabs.init categories in
              '(s', _) ← MainScreen._load_stories api
                           {| MainScreen.categories := categories;
                              MainScreen.stories_by_category := ∅;
                              MainScreen.current_batch_id :=
                                MainScreen.current_batch_id s;
                              MainScreen.cache_dir := MainScreen.cache_dir s |};
              Ok (Loaded s' tabs
                    (default [] (MainScreen.stories_by_category s'
                                   !! Category.name first_category)))
          end
      end in
    Ok (Some (match body with
              | Ok m => m
              | Raise _ => ShowError
              end)).

End Handlers.
Arguments mounted : clear implicits.
Arguments refreshed : clear implicits.
End Handlers.

(** ** kgnews/ui/widgets/story_list.py *)

Module StoryList.
Section StoryList.
Context {datetime : Type} `{!Runtime datetime} `{!Clock datetime}.

(** An item of the list view: the placeholder shown for an empty list, or
    the item [_create_story_item] builds, with the text of its [Static] and
    the two attributes set on it. *)
Inductive list_item :=
| NoStories
| StoryItem (content : string) (story_data : Story.t datetime) (story_index : nat).

(** The widget's own state and the items it has appended since the last
    [clear]. *)
Record t := mk {
  _stories : list (Story.t datetime);
  _expanded_stories : gset string;
  children : list list_item;
}.

(** The text of ["\n".join(lines)]. *)
Fixpoint join_lines (lines : list string) : string :=
  match lines with
  | [] => ""
  | line :: lines' =>
      match lines' with
      | [] => line
      | _ :: _ => line +:+ String "010"%char (join_lines lines')
      end
  end.

(** [_create_expanded_content] (lines 76-106): the text of the widget. *)
Definition _create_expanded_content (story : Story.t datetime) : string :=
  let time_str := StoryDisplay._format_time (Story.published_at story) in
  let lines :=
    ["[bold]" +:+ Story.title story +:+ "[/bold]";
     "[dim]Source: " +:+ Story.source story +:+ " | " +:+ time_str +:+ "[/dim]";
     "[dim]URL: " +:+ Story.url story +:+ "[/dim]"] in
  let lines :=
    match Story.excerpt story with
    | Some excerpt =>
        if negb (String.eqb excerpt "")
        then (lines ++ [""; "[italic]" +:+ excerpt +:+ "[/italic]"])%list
        else lines
    | None => lines
    end in
  join_lines (lines ++ [""; "[dim]Press Enter to collapse[/dim]"])%list.

(** [_create_story_item] (lines 50-74). *)
Definition _create_story_item (self : t) (story : Story.t datetime) (index : nat)
    : list_item :=
  let is_expanded := bool_decide (Story.id story ∈ _expanded_stories self) in
  StoryItem (if is_expanded then _create_expanded_content story
             else StoryDisplay.format_display story)
            story index.

(** The loop over [enumerate(stories)] of lines 45-47 and 142-144. *)
Definition story_items (self : t) (stories : list (Story.t datetime))
    : list list_item :=
  imap (λ i story, _create_story_item self story i) stories.

(** [set_stories] (lines 27-48). *)
Definition set_stories (stories : list (Story.t datetime)) (self : t) : t :=
  let self := mk stories ∅ [] in
  match stories with
  | [] => mk stories ∅ [NoStories]
  | _ :: _ => mk stories ∅ (story_items self stories)
  end.

(** [action_toggle_story] (lines 108-127) with the [_refresh_story_item] it
    ends in (lines 129-148); [index] is the [index] of the list view, the
    highlighted item if any. *)
Definition action_toggle_story (index : option nat) (self : t) : t :=
  match _stories self with
  | [] => self
  | _ :: _ =>
      match index with
      | None => self
      | Some selected_index =>
          match _stories self !! selected_index with
          | None => self
          | Some story =>
              let expanded :=
                if bool_decide (Story.id story ∈ _expanded_stories self)
                then _expanded_stories self ∖ {[Story.id story]}
                else _expanded_stories self ∪ {[Story.id story]} in
              let self := mk (_stories self) expanded [] in
              mk (_stories self) expanded (story_items self (_stories self))
          end
      end
  end.

End StoryList.
Arguments t : clear implicits.
Arguments list_item : clear implicits.
End StoryList.

(** ** Notions the statements below use *)

Module Spec.
Section Spec.
Context {datetime : Type} `{!Runtime datetime} `{!CacheManager.FileSystem}.

(** A story the program built: one that [Story.from_api_response], the
    only place the program builds stories, returns for some input. Such a
    story never has the empty string as excerpt. *)
Definition valid_story (story : Story.t datetime) : Prop :=
  ∃ data, Story.from_api_response data = Ok story.

(** The category an element of the [categories] array is turned into when
    it is a dict: a key the element lacks reads as [None]. *)
Definition category_of_items (d : list (string * value datetime)) : Category.t :=
  Category.mk (py_str (default VNone (dict_get d "id")))
              (py_str (default VNone (dict_get d "categoryId")))
              (py_str (default VNone (dict_get d "categoryName"))).

(** A cached story record whose [published_at] is the integer [z]. *)
Definition record_with_timestamp (z : Z) : value datetime :=
  VDict [("id", VStr "1"); ("title", VStr "t"); ("url", VStr "u");
         ("source", VStr "s"); ("published_at", VInt z); ("excerpt", VNone)].

(** The lookup of line 91 for a category, and whether it is a miss. *)
Definition lookup_category (batch_id : string)
    (cache : gmap string (CacheManager.file datetime)) (category : Category.t)
    : result (option (list (Story.t datetime))) :=
  CacheManager.get_cached_stories (Category.name category) batch_id cache.

Definition is_miss (r : result (option (list (Story.t datetime)))) : bool :=
  match r with Ok None => true | _ => false end.

(** A fetch result that line 129 takes: its story list is not empty. *)
Definition taken (r : string * list (Story.t datetime) * string) : bool :=
  match r.1.2 with [] => false | _ :: _ => true end.

(** The name of the cache file a fetch result is saved to (line 133). *)
Definition result_path (r : string * list (Story.t datetime) * string) : string :=
  CacheManager.file_name r.1.1 r.2.

(** The path [name] can be opened for writing: nothing is there, or a file
    that can be opened. *)
Definition writable_entry (dir : gmap string (CacheManager.file datetime))
    (name : string) : Prop :=
  dir !! name ≠ Some CacheManager.Directory ∧
  dir !! name ≠ Some CacheManager.Unreadable.

(** A cache directory that holds only regular files that can be opened. *)
Definition regular_files (dir : gmap string (CacheManager.file datetime)) : Prop :=
  ∀ name, writable_entry dir name.

(** The name of a cache file of batch [batch_id]: the file of some category
    key and that batch id. *)
Definition batch_file (batch_id name : string) : Prop :=
  ∃ category_id, name = CacheManager.file_name category_id batch_id.

(** A fetch result that, when taken, goes to a file of the cache directory
    itself: its file name is the plain name of an entry. *)
Definition plain_result (r : string * list (Story.t datetime) * string) : Prop :=
  taken r = true →
  CacheManager.entry_name (CacheManager.file_name r.1.1 r.2) = true.

(** The directory after the write of lines 120-121 when it succeeds on a
    file of the cache directory itself. *)
Definition written (category_id batch_id : string)
    (stories : list (Story.t datetime))
    (dir : gmap string (CacheManager.file datetime))
    : gmap string (CacheManager.file datetime) :=
  <[CacheManager.file_name category_id batch_id :=
      CacheManager.Json (CacheManager.cache_data category_id batch_id stories)]> dir.

(** What the loop of lines 128-133 comes to when every write succeeds. *)
Definition stored_result
    (st : gmap string (list (Story.t datetime)) * gmap string (CacheManager.file datetime))
    (r : string * list (Story.t datetime) * string)
    : gmap string (list (Story.t datetime)) * gmap string (CacheManager.file datetime) :=
  let '(category_name, stories, batch_id) := r in
  match stories with
  | [] => st
  | _ :: _ =>
      (<[category_name := stories]> (fst st),
       written category_name batch_id stories (snd st))
  end.

Definition stored_results
    (results : list (string * list (Story.t datetime) * string))
    (st : gmap string (list (Story.t datetime)) * gmap string (CacheManager.file datetime))
    : gmap string (list (Story.t datetime)) * gmap string (CacheManager.file datetime) :=
  foldl stored_result st results.

(** The entry of a category in [stories_by_category] after a cycle that
    resolved [batch_id]: the cached list on a hit; otherwise the fetched
    list when the fetch returned a non-empty one; otherwise what the mapping
    held before the cycle. *)
Definition entry_after (api : MainScreen.remote datetime) (batch_id : string)
    (s : MainScreen.screen datetime) (category : Category.t)
    : option (list (Story.t datetime)) :=
  match lookup_category batch_id (MainScreen.cache_dir s) category with
  | Ok (Some cached) => Some cached
  | _ =>
      match MainScreen.get_stories api (Category.id category) with
      | Ok (story :: stories, _) => Some (story :: stories)
      | _ => MainScreen.stories_by_category s !! Category.name category
      end
  end.

End Spec.
End Spec.

(** ** A small runtime to evaluate the model on concrete inputs *)

Module Sample.

(** Two instants stand for the datetimes. *)
Inductive instant :=
| Morning
| Evening.

Definition sample_isoformat (t : instant) : string :=
  match t with
  | Morning => "2024-05-01T08:00:00"
  | Evening => "2024-05-01T20:00:00"
  end.

Definition sample_fromisoformat (s : string) : option instant :=
  if String.eqb s "2024-05-01T08:00:00" then Some Morning
  else if String.eqb s "2024-05-01T08:00:00+00:00" then Some Morning
  else if String.eqb s "2024-05-01T20:00:00" then Some Evening
  else if String.eqb s "2024-05-01T20:00:00+00:00" then Some Evening
  else None.

(** Timestamps of the years 1 to 9999 fall on one of the two instants. For
    the others CPython raises: OverflowError when the number does not fit a
    64-bit time_t, ValueError (year out of range, or a NaN) when it does. *)
Definition sample_fromtimestamp (n : number) : result instant :=
  match n with
  | NInt z =>
      if (z <? - 2 ^ 63) || (2 ^ 63 <=? z) then Raise OverflowError
      else if (z <? -62135596800) || (253402300799 <? z) then Raise ValueError
      else Ok (if z <? 1714593600 then Morning else Evening)
  | NFloat f =>
      if negb (PrimFloat.eqb f f) then Raise ValueError
      else if PrimFloat.ltb f (-9223372036854775808)%float
              || PrimFloat.leb 9223372036854775808%float f
      then Raise OverflowError
      else if PrimFloat.ltb f (-62135596800)%float
              || PrimFloat.ltb 253402300799%float f
      then Raise ValueError
      else Ok (if PrimFloat.ltb f 1714593600%float then Morning else Evening)
  end.

Definition sample_float_of_str (s : string) : option float :=
  if String.eqb s "0" then Some 0%float
  else if String.eqb s "1714593600" then Some 1714593600%float
  else None.

(** A file system that lists a directory in the order of the map, takes
    names of up to 255 bytes, and in which the cache directory has no
    subdirectory: a path that goes through one (as the file of the category
    sci/tech does) cannot be opened. No sample below has a name with a
    surrogate or with a component . or .. in it. *)
#[export] Instance filesystem : CacheManager.FileSystem := {|
  CacheManager.scandir := λ names, names;
  CacheManager.name_max := 255;
  CacheManager.elsewhere := λ _, CacheManager.NoPath;
|}.

#[export] Instance runtime : Runtime instant := {|
  fromisoformat := sample_fromisoformat;
  isoformat := sample_isoformat;
  float_of_str := sample_float_of_str;
  fromtimestamp := sample_fromtimestamp;
  py_repr := λ _, "<object>";
|}.

(** Sample data: three categories, a few stories, and remotes. *)
Definition tech : Category.t := Category.mk "c-tech" "tech" "Technology".
Definition science : Category.t := Category.mk "c-sci" "science" "Science".
Definition world : Category.t := Category.mk "c-world" "world" "World".

Definition old_story : Story.t instant :=
  Story.mk "s0" "Old headline" "https://example.org/old" "example.org" Morning None.
Definition new_story : Story.t instant :=
  Story.mk "s1" "New headline" "https://example.org/new" "example.org" Evening
    (Some "summary").
Definition science_story : Story.t instant :=
  Story.mk "s2" "Lab result" "https://example.org/lab" "example.org" Evening None.
Definition world_story : Story.t instant :=
  Story.mk "s3" "Summit" "https://example.org/summit" "example.org" Morning None.

(** A screen that shows an old list for science, with a cache holding the
    current batch b2 for world and a previous batch b1 for tech. *)
Definition screen0 : MainScreen.screen instant :=
  {| MainScreen.categories := [tech; science; world];
     MainScreen.stories_by_category := {[ "science" := [old_story] ]};
     MainScreen.current_batch_id := Some "b1";
     MainScreen.cache_dir :=
       {[ "world_b2.json" := CacheManager.Json (CacheManager.cache_data "world" "b2" [world_story]);
          "tech_b1.json" := CacheManager.Json (CacheManager.cache_data "tech" "b1" [old_story]) ]} |}.

(** The remote publishes batch b2; the fetch for science times out. *)
Definition api_science_down : MainScreen.remote instant :=
  {| MainScreen.latest_batch_id := Ok (Some "b2");
     MainScreen.get_stories := λ remote_id,
       if String.eqb remote_id "c-tech" then Ok ([new_story], "b2")
       else if String.eqb remote_id "c-sci" then Raise APITimeoutError
       else Raise APIError |}.

(** The remote publishes batch b2 and every fetch returns. *)
Definition api_up : MainScreen.remote instant :=
  {| MainScreen.latest_batch_id := Ok (Some "b2");
     MainScreen.get_stories := λ remote_id,
       if String.eqb remote_id "c-tech" then Ok ([new_story], "b2")
       else if String.eqb remote_id "c-sci" then Ok ([science_story], "b2")
       else Raise APIError |}.

(** The remote resolved batch b2, but the fetch response carries b3. *)
Definition api_race : MainScreen.remote instant :=
  {| MainScreen.latest_batch_id := Ok (Some "b2");
     MainScreen.get_stories := λ _, Ok ([new_story], "b3") |}.

(** The remote publishes batch b1 and every fetch times out. *)
Definition api_down : MainScreen.remote instant :=
  {| MainScreen.latest_batch_id := Ok (Some "b1");
     MainScreen.get_stories := λ _, Raise APITimeoutError |}.

(** A screen with the single category tech and nothing cached or shown. *)
Definition screen_empty : MainScreen.screen instant :=
  {| MainScreen.categories := [tech];
     MainScreen.stories_by_category := ∅;
     MainScreen.current_batch_id := None;
     MainScreen.cache_dir := ∅ |}.

(** A screen showing tech stories of batch b10, cached under that batch. *)
Definition screen_b10 : MainScreen.screen instant :=
  {| MainScreen.categories := [tech];
     MainScreen.stories_by_category := {[ "tech" := [old_story] ]};
     MainScreen.current_batch_id := Some "b10";
     MainScreen.cache_dir :=
       {[ "tech_b10.json" := CacheManager.Json (CacheManager.cache_data "tech" "b10" [old_story]) ]} |}.

(** [screen0] after a cycle against [api_science_down]: tech was fetched,
    science keeps its old list, world came from the cache, and the b1 file
    is gone. *)
Definition screen0_science_down : MainScreen.screen instant :=
  {| MainScreen.categories := [tech; science; world];
     MainScreen.stories_by_category :=
       {[ "science" := [old_story]; "tech" := [new_story]; "world" := [world_story] ]};
     MainScreen.current_batch_id := Some "b2";
     MainScreen.cache_dir :=
       {[ "world_b2.json" := CacheManager.Json (CacheManager.cache_data "world" "b2" [world_story]);
          "tech_b2.json" := CacheManager.Json (CacheManager.cache_data "tech" "b2" [new_story]) ]} |}.

(** [screen0] after a cycle against [api_up]. *)
Definition screen0_up : MainScreen.screen instant :=
  {| MainScreen.categories := [tech; science; world];
     MainScreen.stories_by_category :=
       {[ "science" := [science_story]; "tech" := [new_story]; "world" := [world_story] ]};
     MainScreen.current_batch_id := Some "b2";
     MainScreen.cache_dir :=
       {[ "world_b2.json" := CacheManager.Json (CacheManager.cache_data "world" "b2" [world_story]);
          "tech_b2.json" := CacheManager.Json (CacheManager.cache_data "tech" "b2" [new_story]);
          "science_b2.json" :=
            CacheManager.Json (CacheManager.cache_data "science" "b2" [science_story]) ]} |}.

(** [screen_empty] after a cycle against [api_down]: only the batch id
    changed. *)
Definition screen_empty_down : MainScreen.screen instant :=
  {| MainScreen.categories := [tech];
     MainScreen.stories_by_category := ∅;
     MainScreen.current_batch_id := Some "b1";
     MainScreen.cache_dir := ∅ |}.

(** [screen_empty] after a cycle against [api_race]: the fetched stories are
    shown, and the cache directory is empty again. *)
Definition screen_empty_race : MainScreen.screen instant :=
  {| MainScreen.categories := [tech];
     MainScreen.stories_by_category := {[ "tech" := [new_story] ]};
     MainScreen.current_batch_id := Some "b2";
     MainScreen.cache_dir := ∅ |}.

(** [screen_b10] after a cycle against [api_down]. *)
Definition screen_b10_down : MainScreen.screen instant :=
  {| MainScreen.categories := [tech];
     MainScreen.stories_by_category := {[ "tech" := [old_story] ]};
     MainScreen.current_batch_id := Some "b1";
     MainScreen.cache_dir :=
       {[ "tech_b10.json" := CacheManager.Json (CacheManager.cache_data "tech" "b10" [old_story]) ]} |}.

(** The remote publishes batch b1 and every fetch returns no story. *)
Definition api_empty : MainScreen.remote instant :=
  {| MainScreen.latest_batch_id := Ok (Some "b1");
     MainScreen.get_stories := λ _, Ok ([], "b1") |}.

(** A category whose key has a slash, a screen that selects it with nothing
    cached or shown, and that screen after a cycle against [api_up_all]:
    the fetched stories are shown and nothing has been written. *)
Definition sci_tech : Category.t :=
  Category.mk "c-st" "sci/tech" "Science and technology".

Definition api_up_all : MainScreen.remote instant :=
  {| MainScreen.latest_batch_id := Ok (Some "b2");
     MainScreen.get_stories := λ _, Ok ([new_story], "b2") |}.

Definition screen_slash : MainScreen.screen instant :=
  {| MainScreen.categories := [sci_tech];
     MainScreen.stories_by_category := ∅;
     MainScreen.current_batch_id := None;
     MainScreen.cache_dir := ∅ |}.

Definition screen_slash_up : MainScreen.screen instant :=
  {| MainScreen.categories := [sci_tech];
     MainScreen.stories_by_category := {[ "sci/tech" := [new_story] ]};
     MainScreen.current_batch_id := Some "b2";
     MainScreen.cache_dir := ∅ |}.

(** A story whose excerpt is the empty string, and what it is read back
    as. *)
Definition blank_story : Story.t instant :=
  Story.mk "s4" "No summary" "https://example.org/blank" "example.org" Morning
    (Some "").
Definition blank_story_read : Story.t instant :=
  Story.mk "s4" "No summary" "https://example.org/blank" "example.org" Morning
    None.

(** The clock reads 2024-05-01 09:30: the morning instant lies an hour and a
    half back, the evening instant ten and a half hours ahead. *)
#[export] Instance clock : Clock instant := {|
  diff_days := λ t, match t with Morning => 0 | Evening => -1 end;
  diff_seconds := λ t, match t with Morning => 5400 | Evening => 48600 end;
  strftime_date := λ _, "2024-05-01";
|}.

(** A stories response: one cluster with an article, one without. *)
Definition first_article_new : list (string * value instant) :=
  [("link", VStr "https://example.org/new"); ("domain", VStr "example.org");
   ("date", VStr "2024-05-01T20:00:00Z")].

Definition cluster_new_items : list (string * value instant) :=
  [("id", VStr "s1"); ("title", VStr "New headline");
   ("short_summary", VStr "summary");
   ("articles",
    VList [VDict first_article_new;
           VDict [("link", VStr "https://example.com/other");
                  ("domain", VStr "example.com");
                  ("date", VStr "2024-05-01T08:00:00Z")]])].

Definition cluster_new : value instant := VDict cluster_new_items.

Definition cluster_without_articles : list (string * value instant) :=
  [("id", VStr "s9"); ("title", VStr "Nothing to read"); ("articles", VList [])].

Definition stories_response : list (string * value instant) :=
  [("batchId", VStr "b2");
   ("stories", VList [cluster_new; VDict cluster_without_articles])].

(** A stories response whose second element is a string. *)
Definition malformed_response : list (string * value instant) :=
  [("batchId", VStr "b2"); ("stories", VList [cluster_new; VStr "oops"])].

(** Services: one that answers every request with [stories_response], one
    that rejects limits outside 1..100, one that answers with
    [malformed_response]. *)
Definition http_up : string → Z → APIClient.http_outcome instant :=
  λ _ _, APIClient.HttpJson (VDict stories_response).

Definition http_strict : string → Z → APIClient.http_outcome instant :=
  λ _ limit,
    if (limit <? 1) || (100 <? limit) then APIClient.HttpStatusError
    else APIClient.HttpJson (VDict stories_response).

Definition http_malformed : string → Z → APIClient.http_outcome instant :=
  λ _ _, APIClient.HttpJson (VDict malformed_response).

(** A category whose name has a space, and a screen that shows it beside
    tech, both cached under batch b1. *)
Definition us_news : Category.t := Category.mk "c-us" "us news" "US News".

Definition screen_us : MainScreen.screen instant :=
  {| MainScreen.categories := [tech; us_news];
     MainScreen.stories_by_category :=
       {[ "tech" := [new_story]; "us news" := [old_story] ]};
     MainScreen.current_batch_id := Some "b1";
     MainScreen.cache_dir :=
       {[ "tech_b1.json" := CacheManager.Json (CacheManager.cache_data "tech" "b1" [new_story]);
          "us news_b1.json" :=
            CacheManager.Json (CacheManager.cache_data "us news" "b1" [old_story]) ]} |}.

(** The remote publishes batch b2; the fetch for tech fails with an
    AttributeError, as a malformed response makes it. *)
Definition api_malformed : MainScreen.remote instant :=
  {| MainScreen.latest_batch_id := Ok (Some "b2");
     MainScreen.get_stories := λ remote_id,
       if String.eqb remote_id "c-tech" then Raise AttributeError
       else Ok ([science_story], "b2") |}.

(** Config files: none, and one that selects tech and science. *)
Definition no_config : ConfigManager.disk instant :=
  {| ConfigManager.content := None; ConfigManager.writable := true |}.

Definition config_tech_science : ConfigManager.disk instant :=
  {| ConfigManager.content :=
       Some (CacheManager.Json
               (VDict [("selected_categories", VList [VStr "science"; VStr "tech"]);
                       ("theme", VStr "nord")]));
     ConfigManager.writable := true |}.

(** The categories response of the service: tech, world and science. *)
Definition categories_response : APIClient.http_outcome instant :=
  APIClient.HttpJson
    (VDict [("categories",
             VList [VDict [("id", VStr "c-tech"); ("categoryId", VStr "tech");
                           ("categoryName", VStr "Technology")];
                    VDict [("id", VStr "c-world"); ("categoryId", VStr "world");
                           ("categoryName", VStr "World")];
                    VDict [("id", VStr "c-sci"); ("categoryId", VStr "science");
                           ("categoryName", VStr "Science")]])]).

(** The screen [on_mount] builds from [config_tech_science],
    [categories_response] and [api_up] over an empty cache. *)
Definition screen_mounted : MainScreen.screen instant :=
  {| MainScreen.categories := [tech; science];
     MainScreen.stories_by_category :=
       {[ "science" := [science_story]; "tech" := [new_story] ]};
     MainScreen.current_batch_id := Some "b2";
     MainScreen.cache_dir :=
       {[ "tech_b2.json" := CacheManager.Json (CacheManager.cache_data "tech" "b2" [new_story]);
          "science_b2.json" :=
            CacheManager.Json (CacheManager.cache_data "science" "b2" [science_story]) ]} |}.

Definition tabs_mounted : CategoryTabs.t :=
  {| CategoryTabs._tab_ids := ["tab-tech"; "tab-science"];
     CategoryTabs._tab_to_category :=
       {[ "tab-tech" := "tech"; "tab-science" := "science" ]} |}.

(** Two stories of clusters that had neither an id nor a cluster number,
    and a story list that shows nothing yet. *)
Definition unknown_one : Story.t instant :=
  Story.mk "unknown" "First" "https://example.org/1" "example.org" Morning None.
Definition unknown_two : Story.t instant :=
  Story.mk "unknown" "Second" "https://example.org/2" "example.org" Morning None.

Definition story_list_new : StoryList.t instant := StoryList.mk [] ∅ [].

End Sample.

Import Spec.
(** * Properties *)

Section Facts.
Context {datetime : Type} `{!Runtime datetime} `{!CacheManager.FileSystem}.

Lemma prefix_app (n b : string) : String.prefix n (n +:+ b) = true.
Proof.
  induction n as [|c n IH]; simpl.
  - by destruct b.
  - destruct (ascii_dec c c); [done | congruence].
Qed.

Lemma contains_unfold (n h : string) :
  contains n h =
  String.prefix n h || match h with EmptyString => false | String _ h' => contains n h' end.
Proof. by destruct h. Qed.

Lemma contains_cons (n : string) (c : ascii) (h : string) :
  contains n (String c h) = String.prefix n (String c h) || contains n h.
Proof. done. Qed.

Lemma contains_here (n b : string) : contains n (n +:+ b) = true.
Proof. by rewrite contains_unfold, prefix_app. Qed.

Lemma contains_app (a n b : string) : contains n (a +:+ n +:+ b) = true.
Proof.
  induction a as [|c a IH].
  - exact (contains_here n b).
  - change (String c a +:+ n +:+ b) with (String c (a +:+ n +:+ b)).
    rewrite contains_cons, IH. apply orb_true_r.
Qed.

Lemma replace_Z_id (s : string) : contains "Z" s = false → replace_Z s = s.
Proof.
  induction s as [|c s IH]; [done|].
  rewrite contains_cons. intros [Hp Hc]%orb_false_elim. simpl in *.
  destruct (ascii_dec "Z" c) as [<-|Hne].
  - by destruct s.
  - destruct (Ascii.eqb_spec c "Z"%char) as [->|_]; [done|].
    by rewrite IH.
Qed.

Lemma from_api_response_dict (d : list (string * value datetime)) :
  Story.from_api_response (VDict d) =
  match dict_get d "id", dict_get d "title", dict_get d "url",
        dict_get d "source", dict_get d "published_at" with
  | Some id_v, Some title_v, Some url_v, Some source_v, Some published_v =>
      match Story.parse_published_at published_v with
      | Ok t =>
          Ok (Story.mk (py_str id_v) (py_str title_v) (py_str url_v)
                (py_str source_v) t
                match dict_get d "excerpt" with
                | Some e => if py_truthy e then Some (py_str e) else None
                | None => None
                end)
      | Raise e =>
          if existsb (isinstance e) [KeyError; TypeError; AttributeError]
          then Raise ValueError else Raise e
      end
  | _, _, _, _, _ => Raise ValueError
  end.
Proof.
  unfold Story.from_api_response. simpl.
  destruct (dict_get d "id") as [id_v|] eqn:Hid;
  destruct (dict_get d "title") as [title_v|] eqn:Ht;
  destruct (dict_get d "url") as [url_v|] eqn:Hu;
  destruct (dict_get d "source") as [source_v|] eqn:Hs;
  destruct (dict_get d "published_at") as [published_v|] eqn:Hp; simpl; try done.
  destruct (Story.parse_published_at published_v) as [t|e]; simpl.
  - by destruct (dict_get d "excerpt").
  - by destruct e.
Qed.

Lemma from_api_response_not_dict (data : value datetime) :
  is_dict data = false → Story.from_api_response data = Raise ValueError.
Proof.
  destruct data as [| | | |s|l| |]; try done; intros _;
    unfold Story.from_api_response; simpl.
  - destruct (contains "id" s), (contains "title" s), (contains "url" s),
      (contains "source" s), (contains "published_at" s); done.
  - repeat match goal with |- context [existsb ?f l] => destruct (existsb f l) end; done.
Qed.

(** C8 (as amended): constructing a Story succeeds exactly when the input is
    a dictionary that holds the keys id, title, url, source and published_at
    and whose published_at converts to a datetime. The id, title, url and
    source of the story are then the text ([str]) of the values given, which
    is empty when the value is the empty string: nothing checks that a field
    is non-empty. *)
Theorem from_api_response_ok_iff (data : value datetime) (s : Story.t datetime) :
  Story.from_api_response data = Ok s ↔
  ∃ d id_v title_v url_v source_v published_v,
    data = VDict d ∧
    dict_get d "id" = Some id_v ∧ dict_get d "title" = Some title_v ∧
    dict_get d "url" = Some url_v ∧ dict_get d "source" = Some source_v ∧
    dict_get d "published_at" = Some published_v ∧
    Story.parse_published_at published_v = Ok (Story.published_at s) ∧
    Story.id s = py_str id_v ∧ Story.title s = py_str title_v ∧
    Story.url s = py_str url_v ∧ Story.source s = py_str source_v ∧
    Story.excerpt s =
      match dict_get d "excerpt" with
      | Some e => if py_truthy e then Some (py_str e) else None
      | None => None
      end.
Proof.
  split.
  - destruct (is_dict data) eqn:Hd.
    + destruct data as [| | | | | |d|]; try done.
      rewrite from_api_response_dict.
      destruct (dict_get d "id") as [id_v|] eqn:Hi; [|done].
      destruct (dict_get d "title") as [title_v|] eqn:Ht; [|done].
      destruct (dict_get d "url") as [url_v|] eqn:Hu; [|done].
      destruct (dict_get d "source") as [source_v|] eqn:Hs; [|done].
      destruct (dict_get d "published_at") as [published_v|] eqn:Hpub; [|done].
      destruct (Story.parse_published_at published_v) as [t|e] eqn:Hp.
      * intros [= <-]. exists d, id_v, title_v, url_v, source_v, published_v.
        repeat split; done.
      * by destruct (existsb _ _).
    + by rewrite from_api_response_not_dict.
  - intros (d & id_v & title_v & url_v & source_v & published_v & -> & Hi & Ht
            & Hu & Hs & Hp & Hparse & ? & ? & ? & ? & ?).
    rewrite from_api_response_dict, Hi, Ht, Hu, Hs, Hp, Hparse.
    destruct s; simpl in *; by subst.
Qed.
(** *** Categories *)

Lemma parse_category_dict (d : list (string * value datetime)) :
  APIClient.parse_category (VDict d) = Ok (category_of_items d).
Proof. done. Qed.

Lemma parse_category_not_dict (v : value datetime) :
  is_dict v = false → APIClient.parse_category v = Raise AttributeError.
Proof. by destruct v. Qed.

Lemma parse_categories_dicts (ds : list (list (string * value datetime)))
    (acc : list Category.t) :
  APIClient.parse_categories (map VDict ds) acc
  = Ok (acc ++ map category_of_items ds)%list.
Proof.
  revert acc. induction ds as [|d ds IH]; intros acc; simpl.
  - by rewrite app_nil_r.
  - rewrite IH. by rewrite <- app_assoc.
Qed.

(** Every element that is a dict yields a category: none is dropped. *)
Lemma get_categories_dicts (ds : list (list (string * value datetime))) :
  APIClient.get_categories
    (APIClient.HttpJson (VDict [("categories", VList (map VDict ds))]))
  = Ok (map category_of_items ds).
Proof. simpl. by rewrite parse_categories_dicts. Qed.

(** An element that is not a dict fails the whole call. *)
Lemma get_categories_not_dict (v : value datetime) (rest : list (value datetime)) :
  is_dict v = false →
  APIClient.get_categories
    (APIClient.HttpJson (VDict [("categories", VList (v :: rest))]))
  = Raise AttributeError.
Proof. intros Hv. simpl. by rewrite parse_category_not_dict. Qed.

(** C9 (the code departs from the claim): an element of the categories
    response that lacks the stable key [categoryId] is not dropped;
    [get_categories] returns a category for it whose [name] is the text
    ["None"]. *)
Theorem get_categories_keeps_element_without_key :
  APIClient.get_categories
    (APIClient.HttpJson
       (VDict [("categories",
                VList [VDict [("id", VStr "c1"); ("categoryName", VStr "Tech")];
                       VDict [("id", VStr "c2"); ("categoryId", VStr "science");
                              ("categoryName", VStr "Science")]])]))
  = Ok [Category.mk "c1" "None" "Tech"; Category.mk "c2" "science" "Science"].
Proof.
  exact (get_categories_dicts
           [[("id", VStr "c1"); ("categoryName", VStr "Tech")];
            [("id", VStr "c2"); ("categoryId", VStr "science");
             ("categoryName", VStr "Science")]]).
Qed.

(** *** Cache lookups *)

Lemma get_cached_stories_absent (category_id batch_id : string)
    (dir : gmap string (CacheManager.file datetime)) :
  dir !! CacheManager._get_cache_path category_id batch_id = None →
  CacheManager.get_cached_stories category_id batch_id dir =
  match CacheManager.path_error (CacheManager.file_name category_id batch_id),
        CacheManager.locate (CacheManager.file_name category_id batch_id) with
  | None, CacheManager.NoAccess => Raise OSError
  | _, _ => Ok None
  end.
Proof. unfold CacheManager.get_cached_stories. by intros ->. Qed.

Lemma get_cached_stories_file (category_id batch_id : string)
    (dir : gmap string (CacheManager.file datetime)) (f : CacheManager.file datetime) :
  dir !! CacheManager._get_cache_path category_id batch_id = Some f →
  CacheManager.get_cached_stories category_id batch_id dir =
  match f with
  | CacheManager.Unreadable | CacheManager.NotJson | CacheManager.Directory =>
      Ok None
  | CacheManager.NotText => Raise UnicodeDecodeError
  | CacheManager.Json (VDict d) =>
      match dict_get d "stories" with
      | None => Ok None
      | Some stories_v =>
          try_except
            (stories_data ← CacheManager.py_iter stories_v;
             stories ← CacheManager.parse_cached stories_data [];
             Ok (Some stories))
            [([JSONDecodeError; OSError], λ _, Ok None)]
      end
  | CacheManager.Json _ => Ok None
  end.
Proof.
  unfold CacheManager.get_cached_stories. intros ->.
  destruct f as [| | |data|]; try done.
  destruct data as [| | | | | |d|]; try done.
  simpl. by destruct (dict_get d "stories").
Qed.

(** A lookup whose file is missing (at a path that can be accessed), cannot
    be read, is a directory, is no JSON document, is no JSON object or has
    no [stories] key is a miss. *)
Lemma get_cached_stories_miss (category_id batch_id : string)
    (dir : gmap string (CacheManager.file datetime)) :
  let path := CacheManager._get_cache_path category_id batch_id in
  (dir !! path = None ∧
   CacheManager.locate (CacheManager.file_name category_id batch_id)
     ≠ CacheManager.NoAccess) ∨
  dir !! path = Some CacheManager.Unreadable ∨
  dir !! path = Some CacheManager.Directory ∨
  dir !! path = Some CacheManager.NotJson ∨
  (∃ data, dir !! path = Some (CacheManager.Json data) ∧
           (is_dict data = false ∨
            ∃ d, data = VDict d ∧ dict_get d "stories" = None)) →
  CacheManager.get_cached_stories category_id batch_id dir = Ok None.
Proof.
  intros path [[Hnone Hacc]|[Hf|[Hf|[Hf|(data & Hf & Hdata)]]]].
  - rewrite get_cached_stories_absent by done.
    destruct (CacheManager.path_error _); [done|].
    by destruct (CacheManager.locate _).
  - by rewrite (get_cached_stories_file _ _ _ _ Hf).
  - by rewrite (get_cached_stories_file _ _ _ _ Hf).
  - by rewrite (get_cached_stories_file _ _ _ _ Hf).
  - rewrite (get_cached_stories_file _ _ _ _ Hf).
    destruct Hdata as [Hd|(d & -> & Hs)]; [by destruct data|by rewrite Hs].
Qed.

(** C6 (the code departs from the claim): a cache file whose bytes are not
    UTF-8 text is not valid JSON, yet the lookup does not return [None]:
    reading it raises UnicodeDecodeError, which is neither a JSONDecodeError
    nor an OSError, so [get_cached_stories] lets it through to the caller. *)
Theorem get_cached_stories_not_text_raises (category_id batch_id : string)
    (dir : gmap string (CacheManager.file datetime)) :
  CacheManager.get_cached_stories category_id batch_id
    (<[CacheManager._get_cache_path category_id batch_id := CacheManager.NotText]> dir)
  = Raise UnicodeDecodeError.
Proof.
  by rewrite (get_cached_stories_file _ _ _ CacheManager.NotText)
    by apply lookup_insert_eq.
Qed.

Lemma from_api_response_timestamp_raises (z : Z) (e : exn) :
  fromtimestamp (NInt z) = Raise e →
  existsb (isinstance e) [KeyError; TypeError; AttributeError] = false →
  Story.from_api_response (record_with_timestamp z) = Raise e.
Proof.
  intros Hts He. unfold record_with_timestamp.
  rewrite from_api_response_dict. simpl (dict_get _ _).
  cbn [Story.parse_published_at]. by rewrite Hts, He.
Qed.

(** C10 (the code departs from the claim): the cache file is a JSON object
    with a [stories] list, but its one record carries a timestamp outside
    the platform's time_t, for which [datetime.fromtimestamp] raises
    OverflowError. The record is not skipped: the exception passes the
    handlers of [from_api_response] and of [get_cached_stories], and the
    lookup raises instead of returning a list. *)
Theorem get_cached_stories_overflow_raises (category_id batch_id : string)
    (dir : gmap string (CacheManager.file datetime)) :
  fromtimestamp (NInt (10 ^ 30)) = Raise OverflowError →
  CacheManager.get_cached_stories category_id batch_id
    (<[CacheManager._get_cache_path category_id batch_id :=
         CacheManager.Json
           (VDict [("batch_id", VStr batch_id); ("category_id", VStr category_id);
                   ("stories", VList [record_with_timestamp (10 ^ 30)])])]> dir)
  = Raise OverflowError.
Proof.
  intros Hts.
  rewrite (get_cached_stories_file _ _ _ _ (lookup_insert_eq _ _ _)).
  cbn [dict_get String.eqb Ascii.eqb Bool.eqb CacheManager.py_iter
       CacheManager.parse_cached try_except mbind result_bind].
  by rewrite (from_api_response_timestamp_raises _ _ Hts).
Qed.

(** When [datetime.fromtimestamp] fails with OSError instead, the same file
    reads as a miss. *)
Lemma get_cached_stories_oserror_miss (category_id batch_id : string)
    (dir : gmap string (CacheManager.file datetime)) (z : Z) :
  fromtimestamp (NInt z) = Raise OSError →
  CacheManager.get_cached_stories category_id batch_id
    (<[CacheManager._get_cache_path category_id batch_id :=
         CacheManager.Json (VDict [("stories", VList [record_with_timestamp z])])]> dir)
  = Ok None.
Proof.
  intros Hts.
  rewrite (get_cached_stories_file _ _ _ _ (lookup_insert_eq _ _ _)).
  cbn [dict_get String.eqb Ascii.eqb Bool.eqb CacheManager.py_iter
       CacheManager.parse_cached try_except mbind result_bind].
  by rewrite (from_api_response_timestamp_raises _ _ Hts).
Qed.

(** *** File names *)

Lemma endswith_app (a b : string) : endswith (a +:+ b) b = true.
Proof.
  induction a as [|c a IH].
  - simpl. destruct b; [done|]. simpl. by rewrite Ascii.eqb_refl, String.eqb_refl.
  - change (String c a +:+ b) with (String c (a +:+ b)). simpl.
    rewrite IH. apply orb_true_r.
Qed.

Lemma string_app_assoc (a b c : string) : (a +:+ b) +:+ c = a +:+ b +:+ c.
Proof.
  induction a as [|x a IH]; [done|].
  change ((String x a +:+ b) +:+ c) with (String x ((a +:+ b) +:+ c)).
  by rewrite IH.
Qed.

Lemma file_name_endswith_json (category_id batch_id : string) :
  endswith (CacheManager.file_name category_id batch_id) ".json" = true.
Proof.
  unfold CacheManager.file_name.
  replace (category_id +:+ "_" +:+ batch_id +:+ ".json")
    with ((category_id +:+ "_" +:+ batch_id) +:+ ".json").
  - apply endswith_app.
  - by rewrite !string_app_assoc.
Qed.

Lemma file_name_contains_batch (category_id batch_id : string) :
  contains batch_id (CacheManager.file_name category_id batch_id) = true.
Proof.
  unfold CacheManager.file_name.
  replace (category_id +:+ "_" +:+ batch_id +:+ ".json")
    with ((category_id +:+ "_") +:+ batch_id +:+ ".json").
  - apply contains_app.
  - by rewrite !string_app_assoc.
Qed.

Lemma encodable_fs_encodable (s : string) :
  encodable s = true → CacheManager.fs_encodable s = true.
Proof.
  induction s as [|c s IH]; [done|]. simpl.
  intros [Hc Hs]%andb_true_iff. rewrite (IH Hs), andb_true_r.
  destruct s as [|c' s']; [done|].
  apply negb_true_iff in Hc. apply negb_true_iff.
  by rewrite Hc.
Qed.

(** The plain name of an entry is a path, which leads to the entry. *)
Lemma entry_name_locate (name : string) :
  CacheManager.entry_name name = true →
  CacheManager.path_error name = None ∧
  CacheManager.locate name = CacheManager.Leads name.
Proof.
  unfold CacheManager.entry_name, CacheManager.path_error, CacheManager.locate.
  intros [[[Hslash Hnul]%andb_true_iff Henc]%andb_true_iff Hlen]%andb_true_iff.
  apply negb_true_iff in Hnul.
  by rewrite (encodable_fs_encodable _ Henc), Hnul, Hslash, Henc, Hlen.
Qed.

Lemma entry_name_in_directory (name : string) :
  CacheManager.entry_name name = true → CacheManager.in_directory name = true.
Proof.
  unfold CacheManager.entry_name, CacheManager.in_directory.
  by intros [[[Hslash _]%andb_true_iff _]%andb_true_iff _]%andb_true_iff.
Qed.

(** The file of a category and a batch whose file name is the plain name of
    an entry is kept under that name. *)
Lemma cache_path_plain (category_id batch_id : string) :
  CacheManager.entry_name (CacheManager.file_name category_id batch_id) = true →
  CacheManager._get_cache_path category_id batch_id
  = CacheManager.file_name category_id batch_id.
Proof.
  intros [Herr Hloc]%entry_name_locate.
  unfold CacheManager._get_cache_path. by rewrite Herr, Hloc.
Qed.

(** *** Pruning *)

(** The loop only unlinks names it is given that do not contain the
    current batch id. *)
Lemma lookup_unlink_old_other (current_batch_id : string) (names : list string)
    (dir : gmap string (CacheManager.file datetime)) (name : string) :
  name ∉ names ∨ contains current_batch_id name = true →
  CacheManager.unlink_old current_batch_id names dir !! name = dir !! name.
Proof.
  revert dir. induction names as [|n names IH]; intros dir Hname; [done|].
  simpl. destruct (contains current_batch_id n) eqn:Hn; simpl.
  - apply IH. destruct Hname as [Hname|Hname]; [left|by right].
    by apply not_elem_of_cons in Hname as [_ ?].
  - assert (name ≠ n) as Hne.
    { destruct Hname as [Hname|Hname]; [|congruence].
      by apply not_elem_of_cons in Hname as [? _]. }
    assert (name ∉ names ∨ contains current_batch_id name = true) as Hrest.
    { destruct Hname as [Hname|Hname]; [left|by right].
      by apply not_elem_of_cons in Hname as [_ ?]. }
    destruct (dir !! n) as [[| | | |]|];
      try (rewrite (IH _ Hrest); by apply lookup_delete_ne).
    done.
Qed.

(** When no name to unlink is a directory, the loop runs to its end. *)
Lemma lookup_unlink_old (current_batch_id : string) (names : list string)
    (dir : gmap string (CacheManager.file datetime)) (name : string) :
  (∀ n, n ∈ names → dir !! n ≠ Some CacheManager.Directory) →
  CacheManager.unlink_old current_batch_id names dir !! name =
  if bool_decide (name ∈ names) && negb (contains current_batch_id name)
  then None else dir !! name.
Proof.
  revert dir. induction names as [|n names IH]; intros dir Hreg; simpl; [done|].
  assert (∀ d' : gmap string (CacheManager.file datetime),
            (∀ k, d' !! k = None ∨ d' !! k = dir !! k) →
            ∀ n', n' ∈ names → d' !! n' ≠ Some CacheManager.Directory) as Hsub.
  { intros d' Hd' n' Hn'. destruct (Hd' n') as [->| ->]; [done|].
    apply Hreg. by right. }
  destruct (decide (name = n)) as [->|Hne].
  - rewrite (bool_decide_eq_true_2 (n ∈ n :: names)) by left.
    destruct (contains current_batch_id n) eqn:Hn; simpl.
    + rewrite IH by (apply Hsub; by right). by rewrite ?Hn, andb_false_r.
    + assert (dir !! n ≠ Some CacheManager.Directory) as Hd by (apply Hreg; left).
      assert (CacheManager.unlink_old current_batch_id names (delete n dir) !! n
              = None) as Hgone.
      { rewrite IH.
        - rewrite lookup_delete_eq. by destruct (bool_decide _ && _).
        - apply Hsub. intros k. destruct (decide (k = n)) as [->|Hk].
          + left. apply lookup_delete_eq.
          + right. by apply lookup_delete_ne. }
      by destruct (dir !! n) as [[| | | |]|].
  - assert (bool_decide (name ∈ n :: names) = bool_decide (name ∈ names)) as ->.
    { apply bool_decide_ext. rewrite elem_of_cons. tauto. }
    destruct (contains current_batch_id n) eqn:Hn; simpl.
    + apply IH. apply Hsub. by right.
    + assert (dir !! n ≠ Some CacheManager.Directory) as Hd by (apply Hreg; left).
      assert (CacheManager.unlink_old current_batch_id names (delete n dir) !! name
              = if bool_decide (name ∈ names) && negb (contains current_batch_id name)
                then None else dir !! name) as Hrest.
      { rewrite IH.
        - by rewrite lookup_delete_ne.
        - apply Hsub. intros k. destruct (decide (k = n)) as [->|Hk].
          + left. apply lookup_delete_eq.
          + right. by apply lookup_delete_ne. }
      by destruct (dir !! n) as [[| | | |]|].
Qed.

Lemma elem_of_glob_json `{!CacheManager.FileSystemLaws}
    (dir : gmap string (CacheManager.file datetime)) (name : string) :
  name ∈ CacheManager.glob_json dir ↔
  CacheManager.in_directory name = true ∧ endswith name ".json" = true ∧
  is_Some (dir !! name).
Proof.
  unfold CacheManager.glob_json.
  rewrite list_elem_of_filter, CacheManager.scandir_Permutation, list_elem_of_fmap.
  rewrite andb_true_iff.
  split.
  - intros ([He Hs] & [k f] & -> & Hin). split; [done|]. split; [done|].
    apply elem_of_map_to_list in Hin. by exists f.
  - intros (He & Hs & f & Hf). split; [done|].
    exists (name, f). split; [done|]. by apply elem_of_map_to_list.
Qed.

(** Whatever the directory holds, pruning leaves alone what the glob does
    not list and every name that contains the current batch id. *)
Lemma lookup_clear_old_caches_kept (current_batch_id : string)
    (dir : gmap string (CacheManager.file datetime)) (name : string) :
  contains current_batch_id name = true →
  CacheManager.clear_old_caches current_batch_id dir !! name = dir !! name.
Proof.
  intros Hname. apply lookup_unlink_old_other. by right.
Qed.

(** What [clear_old_caches] leaves of a directory whose entries [*.json]
    are files. *)
Lemma lookup_clear_old_caches `{!CacheManager.FileSystemLaws}
    (current_batch_id : string)
    (dir : gmap string (CacheManager.file datetime)) (name : string) :
  regular_files dir →
  CacheManager.clear_old_caches current_batch_id dir !! name =
  if CacheManager.in_directory name && endswith name ".json"
     && negb (contains current_batch_id name)
  then None else dir !! name.
Proof.
  intros Hreg. unfold CacheManager.clear_old_caches.
  rewrite lookup_unlink_old by (intros n _; apply (Hreg n)).
  destruct (negb (contains current_batch_id name)); [|by rewrite !andb_false_r].
  rewrite !andb_true_r.
  destruct (CacheManager.in_directory name && endswith name ".json") eqn:Hs.
  - apply andb_true_iff in Hs as [He Hs].
    destruct (dir !! name) as [f|] eqn:Hf; [|by destruct (bool_decide _)].
    rewrite bool_decide_eq_true_2; [done|]. apply elem_of_glob_json. eauto.
  - rewrite bool_decide_eq_false_2; [done|].
    rewrite elem_of_glob_json. intros (He & Hs' & _).
    rewrite He, Hs' in Hs. done.
Qed.

(** C5 (the code departs from the claim): pruning does not compare batch
    ids. It keeps every file whose name contains the text of the current
    batch id, so the entry of another batch survives the pruning, and is
    still there to be looked up, whenever its file name happens to contain
    the current id: the entry of batch b10 when the current batch is b1. *)
Theorem clear_old_caches_keeps_stale_batch
    (current_batch_id category_id batch_id : string)
    (dir : gmap string (CacheManager.file datetime))
    (f : CacheManager.file datetime) :
  batch_id ≠ current_batch_id →
  contains current_batch_id (CacheManager._get_cache_path category_id batch_id)
    = true →
  dir !! CacheManager._get_cache_path category_id batch_id = Some f →
  CacheManager.clear_old_caches current_batch_id dir
    !! CacheManager._get_cache_path category_id batch_id = Some f ∧
  CacheManager.get_cached_stories category_id batch_id
    (CacheManager.clear_old_caches current_batch_id dir)
  = CacheManager.get_cached_stories category_id batch_id dir.
Proof.
  intros _ Hname Hf.
  rewrite <- Hf. split; [by apply lookup_clear_old_caches_kept|].
  unfold CacheManager.get_cached_stories.
  by rewrite lookup_clear_old_caches_kept.
Qed.

(** *** Round trip through the cache *)

Lemma pretty_N_go_nonempty (x : N) (s : string) : s ≠ "" → pretty_N_go x s ≠ "".
Proof.
  revert s. induction (N.lt_wf_0 x) as [x _ IH]; intros s Hs.
  destruct (decide (x = 0)%N) as [->|Hx]; [by rewrite pretty_N_go_0|].
  rewrite pretty_N_go_step by lia. apply IH; [apply N.div_lt; lia|done].
Qed.

Lemma pretty_Z_nonempty (z : Z) : pretty z ≠ "".
Proof.
  destruct z as [|p|p]; [done| |done].
  unfold pretty, pretty_Z, pretty, pretty_positive, pretty, pretty_N.
  case_decide; [done|].
  rewrite pretty_N_go_step by lia. by apply pretty_N_go_nonempty.
Qed.

(** The excerpt of a story [Story.from_api_response] built. *)
Lemma from_api_response_ok_excerpt (data : value datetime) (s : Story.t datetime) :
  Story.from_api_response data = Ok s →
  ∃ d, data = VDict d ∧
       Story.excerpt s =
         match dict_get d "excerpt" with
         | Some e => if py_truthy e then Some (py_str e) else None
         | None => None
         end.
Proof.
  destruct (is_dict data) eqn:Hd.
  - destruct data as [| | | | | |d|]; try done.
    rewrite from_api_response_dict.
    destruct (dict_get d "id") as [id_v|]; [|done].
    destruct (dict_get d "title") as [title_v|]; [|done].
    destruct (dict_get d "url") as [url_v|]; [|done].
    destruct (dict_get d "source") as [source_v|]; [|done].
    destruct (dict_get d "published_at") as [published_v|]; [|done].
    destruct (Story.parse_published_at published_v) as [t|e].
    + intros [= <-]. by exists d.
    + by destruct (existsb _ _).
  - by rewrite from_api_response_not_dict.
Qed.

(** What [save_stories] does when the file name is the plain name of an
    entry of the cache directory. *)
Lemma save_stories_entry_name (category_id batch_id : string)
    (stories : list (Story.t datetime))
    (dir : gmap string (CacheManager.file datetime)) :
  CacheManager.entry_name (CacheManager.file_name category_id batch_id) = true →
  CacheManager.save_stories category_id batch_id stories dir =
  match dir !! CacheManager.file_name category_id batch_id with
  | Some CacheManager.Directory | Some CacheManager.Unreadable => Ok dir
  | _ => Ok (written category_id batch_id stories dir)
  end.
Proof.
  intros [Herr Hloc]%entry_name_locate. unfold CacheManager.save_stories.
  by rewrite Herr, Hloc.
Qed.

Lemma save_stories_plain (category_id batch_id : string)
    (stories : list (Story.t datetime))
    (dir : gmap string (CacheManager.file datetime)) :
  CacheManager.entry_name (CacheManager.file_name category_id batch_id) = true →
  writable_entry dir (CacheManager.file_name category_id batch_id) →
  CacheManager.save_stories category_id batch_id stories dir
  = Ok (written category_id batch_id stories dir).
Proof.
  intros Hname [Hdir Hopen]. rewrite save_stories_entry_name by done.
  by destruct (dir !! _) as [[| | | |]|].
Qed.

Section RoundTrip.
Context `{!RuntimeLaws datetime}.

Lemma py_str_truthy_nonempty (v : value datetime) :
  py_truthy v = true → py_str v ≠ "".
Proof.
  destruct v as [|[]| | |s| | |]; simpl; try done;
    try (intros _; apply py_repr_nonempty).
  - intros _. apply pretty_Z_nonempty.
  - intros Hs ->. done.
Qed.

(** A story the program built has no empty excerpt. *)
Lemma valid_story_excerpt (story : Story.t datetime) :
  valid_story story → Story.excerpt story ≠ Some "".
Proof.
  intros [data Hdata].
  apply from_api_response_ok_excerpt in Hdata as (d & _ & ->).
  destruct (dict_get d "excerpt") as [e|]; [|done].
  destruct (py_truthy e) eqn:He; [|done].
  intros [= Hstr]. by apply (py_str_truthy_nonempty e).
Qed.

Lemma from_api_response_story_dict (story : Story.t datetime) :
  Story.excerpt story ≠ Some "" →
  Story.from_api_response (CacheManager.story_dict story) = Ok story.
Proof.
  intros Hex. unfold CacheManager.story_dict.
  rewrite from_api_response_dict. simpl (dict_get _ _).
  cbn [Story.parse_published_at].
  rewrite (replace_Z_id _ (isoformat_no_Z _)), fromisoformat_isoformat.
  destruct story as [i t u s p [e|]]; simpl in *; [|done].
  destruct (String.eqb_spec e "") as [->|_]; [done|done].
Qed.

Lemma parse_cached_story_dicts (stories acc : list (Story.t datetime)) :
  Forall (λ story, Story.excerpt story ≠ Some "") stories →
  CacheManager.parse_cached (map CacheManager.story_dict stories) acc
  = Ok (acc ++ stories)%list.
Proof.
  intros Hall. revert acc.
  induction Hall as [|story stories Hs _ IH]; intros acc; simpl.
  - by rewrite app_nil_r.
  - rewrite (from_api_response_story_dict _ Hs). simpl.
    rewrite IH. by rewrite <- app_assoc.
Qed.

(** Reading back what [save_stories] wrote. *)
Lemma get_cached_stories_saved (category_id batch_id : string)
    (stories : list (Story.t datetime))
    (dir : gmap string (CacheManager.file datetime)) :
  Forall (λ story, Story.excerpt story ≠ Some "") stories →
  dir !! CacheManager._get_cache_path category_id batch_id
    = Some (CacheManager.Json (CacheManager.cache_data category_id batch_id stories)) →
  CacheManager.get_cached_stories category_id batch_id dir = Ok (Some stories).
Proof.
  intros Hall Hf.
  rewrite (get_cached_stories_file _ _ _ _ Hf).
  unfold CacheManager.cache_data. simpl (dict_get _ _).
  cbn [CacheManager.py_iter try_except mbind result_bind].
  by rewrite (parse_cached_story_dicts _ _ Hall).
Qed.


End RoundTrip.

(** *** The refresh cycle *)

Lemma get_cached_stories_same_file (category_id batch_id : string)
    (dir dir' : gmap string (CacheManager.file datetime)) :
  dir' !! CacheManager._get_cache_path category_id batch_id
    = dir !! CacheManager._get_cache_path category_id batch_id →
  CacheManager.get_cached_stories category_id batch_id dir'
    = CacheManager.get_cached_stories category_id batch_id dir.
Proof. unfold CacheManager.get_cached_stories. by intros ->. Qed.

Lemma classify_ok (batch_id : string)
    (cache : gmap string (CacheManager.file datetime)) (cats : list Category.t)
    (m : gmap string (list (Story.t datetime))) (acc : list Category.t)
    (m' : gmap string (list (Story.t datetime))) (to_fetch : list Category.t) :
  MainScreen.classify batch_id cache cats m acc = Ok (m', to_fetch) →
  to_fetch
    = (acc ++ filter (λ c, is_miss (lookup_category batch_id cache c) = true) cats)%list ∧
  ∀ n,
    (n ∈ map Category.name cats →
     ∀ cached, CacheManager.get_cached_stories n batch_id cache = Ok (Some cached) →
               m' !! n = Some cached) ∧
    (n ∉ map Category.name cats
     ∨ CacheManager.get_cached_stories n batch_id cache = Ok None →
     m' !! n = m !! n).
Proof.
  revert m acc. induction cats as [|c cats IH]; intros m acc; simpl.
  - intros [= <- <-]. split; [by rewrite app_nil_r|].
    intros n. split; [by intros ?%elem_of_nil|done].
  - destruct (CacheManager.get_cached_stories (Category.name c) batch_id cache)
      as [[cached|]|e] eqn:Hc; simpl; [| |done].
    + intros Hcl. apply IH in Hcl as [-> Hm].
      rewrite filter_cons_False
        by (unfold lookup_category; rewrite Hc; simpl; congruence).
      split; [done|]. intros n. destruct (Hm n) as [Hhit Hkeep]. split.
      * intros Hin cached' Hn.
        destruct (decide (n ∈ map Category.name cats)) as [Hin'|Hnin]; [by eauto|].
        apply elem_of_cons in Hin as [->|?]; [|done].
        rewrite Hkeep by auto. rewrite lookup_insert_eq. congruence.
      * intros Hn. rewrite Hkeep.
        -- apply lookup_insert_ne. intros <-.
           destruct Hn as [Hn|Hn]; [|congruence]. apply Hn. left.
        -- destruct Hn as [Hn|Hn]; [left|by right].
           intros ?. apply Hn. by right.
    + intros Hcl. apply IH in Hcl as [-> Hm].
      rewrite filter_cons_True by (unfold lookup_category; by rewrite Hc).
      split; [by rewrite <- app_assoc|].
      intros n. destruct (Hm n) as [Hhit Hkeep]. split.
      * intros Hin cached' Hn.
        apply elem_of_cons in Hin as [->|?]; [congruence|by eauto].
      * intros Hn. apply Hkeep.
        destruct Hn as [Hn|Hn]; [left|by right].
        intros ?. apply Hn. by right.
Qed.

(** When every category has a cache hit, nothing is left to fetch. *)
Lemma classify_all_hits (batch_id : string)
    (cache : gmap string (CacheManager.file datetime)) (cats : list Category.t)
    (m : gmap string (list (Story.t datetime))) (acc : list Category.t) :
  Forall (λ c, ∃ cached, lookup_category batch_id cache c = Ok (Some cached)) cats →
  ∃ m', MainScreen.classify batch_id cache cats m acc = Ok (m', acc).
Proof.
  intros Hall. revert m. induction Hall as [|c cats [cached Hc] _ IH]; intros m.
  - by exists m.
  - simpl. unfold lookup_category in Hc. rewrite Hc. simpl. apply IH.
Qed.

Lemma fetch_category_stories_ok (api : MainScreen.remote datetime)
    (c : Category.t) (stories : list (Story.t datetime)) (batch_id : string) :
  MainScreen.get_stories api (Category.id c) = Ok (stories, batch_id) →
  MainScreen.fetch_category_stories api c = Ok (Category.name c, stories, batch_id).
Proof. unfold MainScreen.fetch_category_stories. by intros ->. Qed.

Lemma fetch_category_stories_api_error (api : MainScreen.remote datetime)
    (c : Category.t) (e : exn) :
  MainScreen.get_stories api (Category.id c) = Raise e →
  isinstance e APIError = true →
  MainScreen.fetch_category_stories api c = Ok (Category.name c, [], "").
Proof.
  unfold MainScreen.fetch_category_stories. intros -> He. simpl. by rewrite He.
Qed.

(** The name of a fetch result is the category's, and a taken result
    carries what [get_stories] returned. *)
Lemma fetch_category_stories_inv (api : MainScreen.remote datetime)
    (c : Category.t) (r : string * list (Story.t datetime) * string) :
  MainScreen.fetch_category_stories api c = Ok r →
  r.1.1 = Category.name c ∧
  (taken r = true → MainScreen.get_stories api (Category.id c) = Ok (r.1.2, r.2)) ∧
  (taken r = false →
   match MainScreen.get_stories api (Category.id c) with
   | Ok (_ :: _, _) => False
   | _ => True
   end).
Proof.
  unfold MainScreen.fetch_category_stories.
  destruct (MainScreen.get_stories api (Category.id c)) as [[stories b]|e]; simpl.
  - intros [= <-]. simpl. split; [done|]. split; [done|].
    unfold taken. simpl. by destruct stories.
  - destruct (isinstance e APIError || false); [|done]. intros [= <-]. done.
Qed.

Lemma gather_ok (api : MainScreen.remote datetime) (cats : list Category.t)
    (rs : list (string * list (Story.t datetime) * string)) :
  MainScreen.gather api cats = Ok rs ↔
  Forall2 (λ c r, MainScreen.fetch_category_stories api c = Ok r) cats rs.
Proof.
  revert rs. induction cats as [|c cats IH]; intros rs; simpl.
  - split; [intros [= <-]; constructor|by intros ->%Forall2_nil_inv_l].
  - destruct (MainScreen.fetch_category_stories api c) as [r|e] eqn:Hc; simpl.
    + destruct (MainScreen.gather api cats) as [rs'|e] eqn:Hg; simpl.
      * split.
        -- intros [= <-]. constructor; [done|]. by apply IH.
        -- intros (r' & rs'' & Hr & Hrs & ->)%Forall2_cons_inv_l.
           apply IH in Hrs. congruence.
      * split; [done|].
        intros (r' & rs'' & Hr & Hrs & ->)%Forall2_cons_inv_l.
        apply IH in Hrs. congruence.
    + split; [done|].
      intros (r' & rs'' & Hr & Hrs & ->)%Forall2_cons_inv_l. congruence.
Qed.

Lemma classify_total (batch_id : string)
    (cache : gmap string (CacheManager.file datetime)) (cats : list Category.t)
    (m : gmap string (list (Story.t datetime))) (acc : list Category.t) :
  Forall (λ c, ∃ o, lookup_category batch_id cache c = Ok o) cats →
  ∃ m' to_fetch, MainScreen.classify batch_id cache cats m acc = Ok (m', to_fetch).
Proof.
  intros Hall. revert m acc.
  induction Hall as [|c cats [o Hc] _ IH]; intros m acc; simpl.
  - by exists m, acc.
  - unfold lookup_category in Hc. rewrite Hc. simpl. destruct o; apply IH.
Qed.

Lemma gather_total (api : MainScreen.remote datetime) (cats : list Category.t) :
  Forall (λ c, ∃ r, MainScreen.fetch_category_stories api c = Ok r) cats →
  ∃ rs, MainScreen.gather api cats = Ok rs.
Proof.
  induction 1 as [|c cats [r Hc] _ [rs IH]]; simpl.
  - by exists [].
  - rewrite Hc, IH. simpl. by exists (r :: rs).
Qed.

(** The cycle past its guards: classification, fan-out, write-back, pruning. *)
Lemma load_stories_unfold (api : MainScreen.remote datetime)
    (s : MainScreen.screen datetime) (batch_id : string) :
  MainScreen.categories s ≠ [] →
  MainScreen.latest_batch_id api = Ok (Some batch_id) →
  batch_id ≠ "" →
  MainScreen._load_stories api s =
  match MainScreen.classify batch_id (MainScreen.cache_dir s)
          (MainScreen.categories s) (MainScreen.stories_by_category s) [] with
  | Ok (m1, to_fetch) =>
      match MainScreen.gather api to_fetch with
      | Ok rs =>
          match MainScreen.store_results rs (m1, MainScreen.cache_dir s) with
          | Ok st =>
              Ok ({| MainScreen.categories := MainScreen.categories s;
                     MainScreen.stories_by_category := st.1;
                     MainScreen.current_batch_id := Some batch_id;
                     MainScreen.cache_dir :=
                       CacheManager.clear_old_caches batch_id st.2 |},
                  map Category.id to_fetch)
          | Raise e => Raise e
          end
      | Raise e => Raise e
      end
  | Raise e => Raise e
  end.
Proof.
  intros Hcats Hb Hne. unfold MainScreen._load_stories.
  destruct (MainScreen.categories s) as [|c cats] eqn:Hc; [done|].
  rewrite <- Hc, Hb. cbn [mbind result_bind].
  destruct (String.eqb_spec batch_id "") as [->|_]; [done|].
  destruct (MainScreen.classify _ _ _ _ _) as [[m1 to_fetch]|e]; [|done].
  cbn [mbind result_bind].
  destruct (MainScreen.gather api to_fetch) as [rs|e]; [|done].
  cbn [mbind result_bind].
  by destruct (MainScreen.store_results rs (m1, MainScreen.cache_dir s)) as [[??]|?].
Qed.

(** *** The write-back loop *)

Lemma store_results_cons (r : string * list (Story.t datetime) * string)
    (rs : list (string * list (Story.t datetime) * string))
    (st : gmap string (list (Story.t datetime))
          * gmap string (CacheManager.file datetime)) :
  MainScreen.store_results (r :: rs) st =
  match MainScreen.store_result st r with
  | Ok st' => MainScreen.store_results rs st'
  | Raise e => Raise e
  end.
Proof. simpl. by destruct (MainScreen.store_result st r). Qed.

(** One step of the loop: a result that is not taken changes nothing, a
    taken one goes through [save_stories]. *)
Lemma store_result_unfold (r : string * list (Story.t datetime) * string)
    (st : gmap string (list (Story.t datetime))
          * gmap string (CacheManager.file datetime)) :
  MainScreen.store_result st r =
  if taken r then
    match CacheManager.save_stories r.1.1 r.2 r.1.2 st.2 with
    | Ok dir' => Ok (<[r.1.1 := r.1.2]> st.1, dir')
    | Raise e => Raise e
    end
  else Ok st.
Proof.
  destruct r as [[name stories] b]. unfold taken. simpl.
  destruct stories as [|story stories]; [done|].
  by destruct (CacheManager.save_stories _ _ _ _).
Qed.

Lemma stored_result_unfold (r : string * list (Story.t datetime) * string)
    (st : gmap string (list (Story.t datetime))
          * gmap string (CacheManager.file datetime)) :
  stored_result st r =
  if taken r then (<[r.1.1 := r.1.2]> st.1, written r.1.1 r.2 r.1.2 st.2) else st.
Proof.
  destruct r as [[name stories] b]. unfold taken. simpl.
  by destruct stories.
Qed.

(** A save that returns has left the directory as it was or has put the
    JSON document at the path of the key. *)
Lemma save_stories_cases (category_id batch_id : string)
    (stories : list (Story.t datetime))
    (dir dir' : gmap string (CacheManager.file datetime)) :
  CacheManager.save_stories category_id batch_id stories dir = Ok dir' →
  dir' = dir ∨
  dir' = <[CacheManager._get_cache_path category_id batch_id :=
             CacheManager.Json
               (CacheManager.cache_data category_id batch_id stories)]> dir.
Proof.
  unfold CacheManager.save_stories, CacheManager._get_cache_path.
  destruct (CacheManager.path_error _); [done|].
  destruct (CacheManager.locate _) as [| |key]; try (intros [= <-]; by left).
  destruct (dir !! key) as [[| | | |]|]; intros [= <-]; auto.
Qed.

(** It raises for a file name that is no path only. *)
Lemma save_stories_total (category_id batch_id : string)
    (stories : list (Story.t datetime))
    (dir : gmap string (CacheManager.file datetime)) :
  CacheManager.path_error (CacheManager.file_name category_id batch_id) = None →
  ∃ dir', CacheManager.save_stories category_id batch_id stories dir = Ok dir'.
Proof.
  intros Herr. unfold CacheManager.save_stories. rewrite Herr.
  destruct (CacheManager.locate _) as [| |key]; try by eexists.
  destruct (dir !! key) as [[| | | |]|]; by eexists.
Qed.

Lemma regular_files_insert_json (dir : gmap string (CacheManager.file datetime))
    (path : string) (data : value datetime) :
  regular_files dir → regular_files (<[path := CacheManager.Json data]> dir).
Proof.
  intros Hreg name. unfold writable_entry.
  destruct (decide (name = path)) as [->|Hne].
  - by rewrite lookup_insert_eq.
  - rewrite lookup_insert_ne by done. apply Hreg.
Qed.

Lemma save_stories_regular (category_id batch_id : string)
    (stories : list (Story.t datetime))
    (dir dir' : gmap string (CacheManager.file datetime)) :
  regular_files dir →
  CacheManager.save_stories category_id batch_id stories dir = Ok dir' →
  regular_files dir'.
Proof.
  intros Hreg [->| ->]%save_stories_cases; [done|].
  by apply regular_files_insert_json.
Qed.

(** The mapping the loop leaves does not depend on what the saves did. *)
Lemma store_results_stories
    (rs : list (string * list (Story.t datetime) * string))
    (st st0 st' : gmap string (list (Story.t datetime))
                  * gmap string (CacheManager.file datetime)) :
  st.1 = st0.1 →
  MainScreen.store_results rs st = Ok st' →
  st'.1 = (stored_results rs st0).1.
Proof.
  revert st st0. induction rs as [|r rs IH]; intros st st0 Heq.
  - simpl. by intros [= <-].
  - rewrite store_results_cons.
    destruct (MainScreen.store_result st r) as [st1|e] eqn:Hr; [|done].
    intros Hrs. apply (IH st1 (stored_result st0 r)); [|done].
    rewrite store_result_unfold in Hr. rewrite stored_result_unfold.
    destruct (taken r); [|by injection Hr as <-].
    destruct (CacheManager.save_stories _ _ _ _); [|done].
    injection Hr as <-. simpl. by rewrite Heq.
Qed.

Lemma store_results_regular
    (rs : list (string * list (Story.t datetime) * string))
    (st st' : gmap string (list (Story.t datetime))
              * gmap string (CacheManager.file datetime)) :
  regular_files st.2 →
  MainScreen.store_results rs st = Ok st' →
  regular_files st'.2.
Proof.
  revert st. induction rs as [|r rs IH]; intros st Hreg.
  - simpl. by intros [= <-].
  - rewrite store_results_cons.
    destruct (MainScreen.store_result st r) as [st1|e] eqn:Hr; [|done].
    apply IH. rewrite store_result_unfold in Hr.
    destruct (taken r); [|by injection Hr as <-].
    destruct (CacheManager.save_stories _ _ _ _) as [dir'|] eqn:Hsave; [|done].
    injection Hr as <-. simpl. by apply (save_stories_regular _ _ _ _ _ Hreg Hsave).
Qed.

(** When the file names of the taken results are paths, the loop runs to
    its end. *)
Lemma store_results_total
    (rs : list (string * list (Story.t datetime) * string))
    (st : gmap string (list (Story.t datetime))
          * gmap string (CacheManager.file datetime)) :
  Forall (λ r, taken r = true →
               CacheManager.path_error (CacheManager.file_name r.1.1 r.2) = None) rs →
  ∃ st', MainScreen.store_results rs st = Ok st'.
Proof.
  intros Hall. revert st. induction Hall as [|r rs Hr _ IH]; intros st.
  - by eexists.
  - rewrite store_results_cons, store_result_unfold.
    destruct (taken r); [|apply IH].
    destruct (save_stories_total r.1.1 r.2 r.1.2 st.2 (Hr eq_refl)) as [dir' ->].
    apply IH.
Qed.

(** When the taken results go to files of the cache directory itself and
    the directory holds only regular files that can be opened, every write
    succeeds. *)
Lemma store_results_plain
    (rs : list (string * list (Story.t datetime) * string))
    (st : gmap string (list (Story.t datetime))
          * gmap string (CacheManager.file datetime)) :
  Forall plain_result rs →
  regular_files st.2 →
  MainScreen.store_results rs st = Ok (stored_results rs st).
Proof.
  intros Hall. revert st. induction Hall as [|r rs Hr _ IH]; intros st Hreg; [done|].
  rewrite store_results_cons, store_result_unfold.
  change (stored_results (r :: rs) st) with (stored_results rs (stored_result st r)).
  rewrite stored_result_unfold.
  destruct (taken r) eqn:Ht; [|by apply IH].
  rewrite save_stories_plain by (try apply Hreg; by apply Hr).
  apply IH. simpl. by apply regular_files_insert_json.
Qed.

(** Every file in the directory after the loop was there before it or is at
    the path of a taken result. *)
Lemma store_results_cache_origin
    (rs : list (string * list (Story.t datetime) * string))
    (st st' : gmap string (list (Story.t datetime))
              * gmap string (CacheManager.file datetime))
    (p : string) (f : CacheManager.file datetime) :
  MainScreen.store_results rs st = Ok st' →
  st'.2 !! p = Some f →
  st.2 !! p = Some f ∨
  ∃ r, r ∈ rs ∧ taken r = true ∧ CacheManager._get_cache_path r.1.1 r.2 = p.
Proof.
  revert st. induction rs as [|r rs IH]; intros st.
  - simpl. intros [= <-]. by left.
  - rewrite store_results_cons.
    destruct (MainScreen.store_result st r) as [st1|e] eqn:Hr; [|done].
    intros Hrs Hf. destruct (IH _ Hrs Hf) as [Hf1|(r' & Hin & Ht & Hp)].
    + rewrite store_result_unfold in Hr.
      destruct (taken r) eqn:Ht; [|injection Hr as <-; by left].
      destruct (CacheManager.save_stories _ _ _ _) as [dir'|] eqn:Hsave; [|done].
      injection Hr as <-. simpl in Hf1.
      apply save_stories_cases in Hsave as [->| ->]; [by left|].
      destruct (decide (CacheManager._get_cache_path r.1.1 r.2 = p)) as [Hp|Hp].
      * right. exists r. split; [left|done].
      * rewrite lookup_insert_ne in Hf1 by done. by left.
    + right. exists r'. split; [by right|done].
Qed.

(** What the loop leaves under a key of [stories_by_category] when every
    write succeeds: the stories of a taken result of that name, when there
    is one, and what was there before otherwise. *)
Lemma store_results_stories_cases
    (rs : list (string * list (Story.t datetime) * string))
    (st : gmap string (list (Story.t datetime))
          * gmap string (CacheManager.file datetime)) (n : string) :
  ((stored_results rs st).1 !! n = st.1 !! n ∧
   ∀ r, r ∈ rs → taken r = true → r.1.1 ≠ n) ∨
  (∃ r, r ∈ rs ∧ taken r = true ∧ r.1.1 = n ∧
        (stored_results rs st).1 !! n = Some r.1.2).
Proof.
  revert st. induction rs as [|r rs IH]; intros st.
  - left. split; [done|]. by intros r ?%elem_of_nil.
  - change (stored_results (r :: rs) st)
      with (stored_results rs (stored_result st r)).
    destruct (IH (stored_result st r)) as [[Heq Hno]|(r' & Hin & Ht & Hn & Heq)].
    + rewrite Heq. destruct r as [[name stories] b].
      destruct stories as [|story stories].
      * left. split; [done|]. intros r' [->|?]%elem_of_cons; [done|by auto].
      * destruct (decide (name = n)) as [->|Hne].
        -- right. exists (n, story :: stories, b).
           split; [left|]. split; [done|]. split; [done|].
           simpl. by rewrite lookup_insert_eq.
        -- left. split; [simpl; by rewrite lookup_insert_ne|].
           intros r' [->|?]%elem_of_cons; [done|by auto].
    + right. exists r'. split; [by right|done].
Qed.

(** The same for a file of the cache directory. *)
Lemma store_results_cache_cases
    (rs : list (string * list (Story.t datetime) * string))
    (st : gmap string (list (Story.t datetime))
          * gmap string (CacheManager.file datetime)) (p : string) :
  ((stored_results rs st).2 !! p = st.2 !! p ∧
   ∀ r, r ∈ rs → taken r = true → result_path r ≠ p) ∨
  (∃ r, r ∈ rs ∧ taken r = true ∧ result_path r = p ∧
        (stored_results rs st).2 !! p
          = Some (CacheManager.Json (CacheManager.cache_data r.1.1 r.2 r.1.2))).
Proof.
  revert st. induction rs as [|r rs IH]; intros st.
  - left. split; [done|]. by intros r ?%elem_of_nil.
  - change (stored_results (r :: rs) st)
      with (stored_results rs (stored_result st r)).
    destruct (IH (stored_result st r)) as [[Heq Hno]|(r' & Hin & Ht & Hn & Heq)].
    + rewrite Heq. destruct r as [[name stories] b].
      destruct stories as [|story stories].
      * left. split; [done|]. intros r' [->|?]%elem_of_cons; [done|by auto].
      * destruct (decide (CacheManager.file_name name b = p)) as [<-|Hne].
        -- right. exists (name, story :: stories, b).
           split; [left|]. split; [done|]. split; [done|].
           simpl. unfold written. by rewrite lookup_insert_eq.
        -- left. split.
           ++ simpl. unfold written. by rewrite lookup_insert_ne.
           ++ intros r' [->|?]%elem_of_cons; [done|by auto].
    + right. exists r'. split; [by right|done].
Qed.

Lemma classify_ok_lookups (batch_id : string)
    (cache : gmap string (CacheManager.file datetime)) (cats : list Category.t)
    (m : gmap string (list (Story.t datetime))) (acc : list Category.t)
    (m' : gmap string (list (Story.t datetime))) (to_fetch : list Category.t) :
  MainScreen.classify batch_id cache cats m acc = Ok (m', to_fetch) →
  Forall (λ c, ∃ o, lookup_category batch_id cache c = Ok o) cats.
Proof.
  revert m acc. induction cats as [|c cats IH]; intros m acc; simpl; [done|].
  destruct (CacheManager.get_cached_stories (Category.name c) batch_id cache)
    as [o|e] eqn:Hc; simpl; [|done].
  intros Hcl. constructor; [by exists o|]. destruct o; eauto.
Qed.

Lemma elem_of_map_name (c : Category.t) (cats : list Category.t) :
  c ∈ cats → Category.name c ∈ map Category.name cats.
Proof. rewrite !list_elem_of_In. apply in_map. Qed.

Lemma NoDup_map_name_inj (cats : list Category.t) (c c' : Category.t) :
  NoDup (map Category.name cats) → c ∈ cats → c' ∈ cats →
  Category.name c = Category.name c' → c = c'.
Proof.
  induction cats as [|x cats IH]; simpl; [by intros _ ?%elem_of_nil|].
  intros [Hx Hnd]%NoDup_cons [->|Hc]%elem_of_cons [->|Hc']%elem_of_cons Hn;
    [done| | |by auto].
  - destruct Hx. rewrite Hn. by apply elem_of_map_name.
  - destruct Hx. rewrite <- Hn. by apply elem_of_map_name.
Qed.

Lemma Forall2_elem_of_r {A B} (P : A → B → Prop) (l : list A) (k : list B) (y : B) :
  Forall2 P l k → y ∈ k → ∃ x, x ∈ l ∧ P x y.
Proof.
  induction 1 as [|x y' l k Hxy _ IH]; [by intros ?%elem_of_nil|].
  intros [->|Hy]%elem_of_cons.
  - exists x. split; [left|done].
  - destruct (IH Hy) as (x' & ? & ?). exists x'. split; [by right|done].
Qed.

Lemma Forall2_elem_of_l {A B} (P : A → B → Prop) (l : list A) (k : list B) (x : A) :
  Forall2 P l k → x ∈ l → ∃ y, y ∈ k ∧ P x y.
Proof.
  induction 1 as [|x' y l k Hxy _ IH]; [by intros ?%elem_of_nil|].
  intros [->|Hx]%elem_of_cons.
  - exists y. split; [left|done].
  - destruct (IH Hx) as (y' & ? & ?). exists y'. split; [by right|done].
Qed.

(** The pieces of a completed cycle: the categories fetched are those whose
    lookup missed, every result comes from one of them, and the write-back
    loop ran to its end. *)
Lemma load_stories_inv (api : MainScreen.remote datetime)
    (s s' : MainScreen.screen datetime) (fetched : list string) (batch_id : string) :
  MainScreen.categories s ≠ [] →
  MainScreen.latest_batch_id api = Ok (Some batch_id) →
  batch_id ≠ "" →
  MainScreen._load_stories api s = Ok (s', fetched) →
  ∃ m1 rs st,
    let cats := MainScreen.categories s in
    let cache := MainScreen.cache_dir s in
    let to_fetch := filter (λ c, is_miss (lookup_category batch_id cache c) = true) cats in
    MainScreen.classify batch_id cache cats (MainScreen.stories_by_category s) []
      = Ok (m1, to_fetch) ∧
    Forall2 (λ c r, MainScreen.fetch_category_stories api c = Ok r) to_fetch rs ∧
    fetched = map Category.id to_fetch ∧
    MainScreen.store_results rs (m1, cache) = Ok st ∧
    s' = {| MainScreen.categories := cats;
            MainScreen.stories_by_category := st.1;
            MainScreen.current_batch_id := Some batch_id;
            MainScreen.cache_dir := CacheManager.clear_old_caches batch_id st.2 |}.
Proof.
  intros Hcats Hb Hne. rewrite (load_stories_unfold _ _ _ Hcats Hb Hne).
  destruct (MainScreen.classify _ _ _ _ _) as [[m1 to_fetch]|e] eqn:Hcl; [|done].
  destruct (MainScreen.gather api to_fetch) as [rs|e] eqn:Hg; [|done].
  destruct (MainScreen.store_results _ _) as [st|e] eqn:Hst; [|done].
  intros [= <- <-].
  pose proof (classify_ok _ _ _ _ _ _ _ Hcl) as [Htf _]. simpl in Htf. subst to_fetch.
  exists m1, rs, st. cbn zeta. split; [done|]. split; [by apply gather_ok|done].
Qed.

Lemma elem_of_to_fetch (batch_id : string)
    (cache : gmap string (CacheManager.file datetime)) (cats : list Category.t)
    (c : Category.t) :
  c ∈ filter (λ c, is_miss (lookup_category batch_id cache c) = true) cats ↔
  lookup_category batch_id cache c = Ok None ∧ c ∈ cats.
Proof.
  rewrite list_elem_of_filter. unfold is_miss.
  destruct (lookup_category batch_id cache c) as [[?|]|?];
    split; intros [H1 H2]; split; done.
Qed.

(** After a completed cycle, the entry of every selected category is the one
    [entry_after] describes. *)
Lemma load_stories_entry (api : MainScreen.remote datetime)
    (s s' : MainScreen.screen datetime) (fetched : list string) (batch_id : string)
    (c : Category.t) :
  MainScreen.categories s ≠ [] →
  MainScreen.latest_batch_id api = Ok (Some batch_id) →
  batch_id ≠ "" →
  NoDup (map Category.name (MainScreen.categories s)) →
  MainScreen._load_stories api s = Ok (s', fetched) →
  c ∈ MainScreen.categories s →
  MainScreen.stories_by_category s' !! Category.name c = entry_after api batch_id s c.
Proof.
  intros Hcats Hb Hne Hnd Hload Hc.
  destruct (load_stories_inv _ _ _ _ _ Hcats Hb Hne Hload)
    as (m1 & rs & st & Hcl & Hrs & _ & Hst & ->). cbn zeta in *. simpl.
  rewrite (store_results_stories _ _ (m1, MainScreen.cache_dir s) _ eq_refl Hst).
  pose proof (classify_ok _ _ _ _ _ _ _ Hcl) as [_ Hm].
  pose proof (classify_ok_lookups _ _ _ _ _ _ _ Hcl) as Hlook.
  rewrite Forall_forall in Hlook. destruct (Hlook c Hc) as [o Ho].
  destruct (Hm (Category.name c)) as [Hhit Hkeep].
  unfold entry_after. rewrite Ho. unfold lookup_category in Ho.
  destruct (store_results_stories_cases rs (m1, MainScreen.cache_dir s) (Category.name c))
    as [[Heq Hno]|(r & Hr & Ht & Hn & Heq)].
  - rewrite Heq. simpl. destruct o as [cached|].
    + apply Hhit; [by apply elem_of_map_name|done].
    + rewrite Hkeep by auto.
      assert (c ∈ filter (λ c, is_miss (lookup_category batch_id (MainScreen.cache_dir s) c) = true)
                     (MainScreen.categories s)) as Hin by by apply elem_of_to_fetch.
      destruct (Forall2_elem_of_l _ _ _ _ Hrs Hin) as (r & Hr & Hfetch).
      apply fetch_category_stories_inv in Hfetch as (Hname & _ & Hnt).
      destruct (taken r) eqn:Ht; [by destruct (Hno r Hr Ht)|].
      specialize (Hnt eq_refl).
      by destruct (MainScreen.get_stories api (Category.id c)) as [[[|??] ?]|?].
  - rewrite Heq.
    destruct (Forall2_elem_of_r _ _ _ _ Hrs Hr) as (c' & [Hmiss Hc']%elem_of_to_fetch & Hfetch).
    apply fetch_category_stories_inv in Hfetch as (Hname & Hget & _).
    assert (c' = c) as -> by (apply (NoDup_map_name_inj _ _ _ Hnd Hc' Hc); congruence).
    unfold lookup_category in Hmiss. rewrite Ho in Hmiss. injection Hmiss as ->.
    rewrite (Hget Ht). unfold taken in Ht. by destruct (r.1.2).
Qed.

(** Every [*.json] entry that remains after a completed cycle has the
    resolved batch id in its name, and was in the directory before the cycle
    or is at the path a fetched result was saved to. *)
Lemma load_stories_remaining `{!CacheManager.FileSystemLaws}
    (api : MainScreen.remote datetime)
    (s s' : MainScreen.screen datetime) (fetched : list string) (batch_id : string)
    (name : string) :
  MainScreen.categories s ≠ [] →
  MainScreen.latest_batch_id api = Ok (Some batch_id) →
  batch_id ≠ "" →
  regular_files (MainScreen.cache_dir s) →
  MainScreen._load_stories api s = Ok (s', fetched) →
  is_Some (MainScreen.cache_dir s' !! name) →
  CacheManager.in_directory name = true →
  endswith name ".json" = true →
  contains batch_id name = true ∧
  (is_Some (MainScreen.cache_dir s !! name) ∨
   ∃ c stories b, c ∈ MainScreen.categories s ∧
     MainScreen.get_stories api (Category.id c) = Ok (stories, b) ∧
     CacheManager._get_cache_path (Category.name c) b = name).
Proof.
  intros Hcats Hb Hne Hreg Hload.
  destruct (load_stories_inv _ _ _ _ _ Hcats Hb Hne Hload)
    as (m1 & rs & st & _ & Hrs & _ & Hst & ->). cbn zeta in *. simpl.
  assert (regular_files st.2) as Hreg'
    by exact (store_results_regular rs (m1, MainScreen.cache_dir s) st Hreg Hst).
  rewrite lookup_clear_old_caches by done. intros [f Hf] He Hjson.
  rewrite He, Hjson in Hf. simpl in Hf.
  destruct (contains batch_id name); [|done]. split; [done|].
  destruct (store_results_cache_origin _ _ _ _ _ Hst Hf)
    as [Hold|(r & Hr & Ht & Hp)]; [left; by exists f|right].
  destruct (Forall2_elem_of_r _ _ _ _ Hrs Hr)
    as (c & [_ Hc]%elem_of_to_fetch & Hfetch).
  apply fetch_category_stories_inv in Hfetch as (Hname & Hget & _).
  exists c, r.1.2, r.2. split; [done|]. split; [by apply Hget|].
  by rewrite <- Hname.
Qed.


(** A taken result that goes to a file of the cache directory itself is in
    that file after the loop, when no other result of the loop is saved to
    the same path. *)
Lemma store_results_cache_saved
    (rs : list (string * list (Story.t datetime) * string))
    (st st' : gmap string (list (Story.t datetime))
              * gmap string (CacheManager.file datetime))
    (r0 : string * list (Story.t datetime) * string) :
  MainScreen.store_results rs st = Ok st' →
  regular_files st.2 →
  taken r0 = true →
  CacheManager.entry_name (result_path r0) = true →
  (∀ r, r ∈ rs → taken r = true →
        CacheManager._get_cache_path r.1.1 r.2 = result_path r0 → r = r0) →
  st.2 !! result_path r0
    = Some (CacheManager.Json (CacheManager.cache_data r0.1.1 r0.2 r0.1.2))
  ∨ r0 ∈ rs →
  st'.2 !! result_path r0
    = Some (CacheManager.Json (CacheManager.cache_data r0.1.1 r0.2 r0.1.2)).
Proof.
  intros Hst Hreg Ht0 Hn0. revert st Hst Hreg.
  induction rs as [|r rs IH]; intros st Hst Hreg Hsame Hin.
  - simpl in Hst. injection Hst as <-.
    destruct Hin as [Hin|Hin]; [done|by apply elem_of_nil in Hin].
  - rewrite store_results_cons in Hst.
    destruct (MainScreen.store_result st r) as [st1|e] eqn:Hr; [|done].
    assert (∀ r', r' ∈ rs → taken r' = true →
                  CacheManager._get_cache_path r'.1.1 r'.2 = result_path r0 → r' = r0)
      as Hsame' by (intros r' Hr'; apply Hsame; by right).
    rewrite store_result_unfold in Hr.
    destruct (taken r) eqn:Ht.
    + destruct (CacheManager.save_stories _ _ _ _) as [dir'|] eqn:Hsave; [|done].
      injection Hr as <-.
      assert (regular_files dir') as Hreg'
        by exact (save_stories_regular _ _ _ _ _ Hreg Hsave).
      apply (IH _ Hst Hreg' Hsame').
      destruct (decide (CacheManager._get_cache_path r.1.1 r.2 = result_path r0))
        as [Hp|Hp].
      * left. assert (r = r0) as -> by (apply Hsame; [left|done|done]).
        rewrite save_stories_plain in Hsave by (try done; apply Hreg).
        injection Hsave as <-. simpl. unfold written, result_path.
        apply lookup_insert_eq.
      * destruct Hin as [Hin|[->|Hin]%elem_of_cons]; [|by rewrite cache_path_plain in Hp|by right].
        left. simpl.
        apply save_stories_cases in Hsave as [->| ->]; [done|].
        by rewrite lookup_insert_ne.
    + injection Hr as <-. apply (IH _ Hst Hreg Hsame').
      destruct Hin as [Hin|[->|Hin]%elem_of_cons]; [by left|congruence|by right].
Qed.


(** C4 (as amended): the category keys being distinct, when the lookups of
    the cycle do not raise, the file name of every fetch result is a path
    (it has no NUL and no surrogate that the file system encoding rejects),
    the fetch of category [b] fails with an API error
    and the fetch of every other selected category that is fetched returns,
    the cycle completes; the entry of [b] in [stories_by_category] is left
    as it was before the cycle, and every other category whose lookup missed
    and whose fetch returned a non-empty list holds that list. The failure
    is logged only. *)
Theorem fetch_failure_is_local (api : MainScreen.remote datetime)
    (s : MainScreen.screen datetime) (batch_id : string) (b : Category.t) (e : exn) :
  MainScreen.latest_batch_id api = Ok (Some batch_id) →
  batch_id ≠ "" →
  NoDup (map Category.name (MainScreen.categories s)) →
  b ∈ MainScreen.categories s →
  (∀ c, c ∈ MainScreen.categories s →
        ∃ o, lookup_category batch_id (MainScreen.cache_dir s) c = Ok o) →
  (∀ c stories response_batch_id, c ∈ MainScreen.categories s →
     MainScreen.get_stories api (Category.id c) = Ok (stories, response_batch_id) →
     CacheManager.path_error
       (CacheManager.file_name (Category.name c) response_batch_id) = None) →
  lookup_category batch_id (MainScreen.cache_dir s) b = Ok None →
  MainScreen.get_stories api (Category.id b) = Raise e →
  isinstance e APIError = true →
  (∀ c, c ∈ MainScreen.categories s → c ≠ b →
        lookup_category batch_id (MainScreen.cache_dir s) c = Ok None →
        ∃ r, MainScreen.get_stories api (Category.id c) = Ok r) →
  ∃ s' fetched,
    MainScreen._load_stories api s = Ok (s', fetched) ∧
    MainScreen.stories_by_category s' !! Category.name b
      = MainScreen.stories_by_category s !! Category.name b ∧
    ∀ a stories response_batch_id,
      a ∈ MainScreen.categories s →
      lookup_category batch_id (MainScreen.cache_dir s) a = Ok None →
      MainScreen.get_stories api (Category.id a) = Ok (stories, response_batch_id) →
      stories ≠ [] →
      MainScreen.stories_by_category s' !! Category.name a = Some stories.
Proof.
  intros Hb Hne Hnd Hin Hlook Hnul Hmiss Hfail He Hothers.
  assert (MainScreen.categories s ≠ []) as Hcats
    by (intros Heq; rewrite Heq in Hin; by apply elem_of_nil in Hin).
  assert (∃ s' fetched, MainScreen._load_stories api s = Ok (s', fetched))
    as (s' & fetched & Hload).
  { rewrite (load_stories_unfold _ _ _ Hcats Hb Hne).
    destruct (classify_total batch_id (MainScreen.cache_dir s) (MainScreen.categories s)
                (MainScreen.stories_by_category s) [])
      as (m1 & to_fetch & Hcl); [by apply Forall_forall|].
    rewrite Hcl.
    pose proof (classify_ok _ _ _ _ _ _ _ Hcl) as [Htf _]. simpl in Htf.
    destruct (gather_total api to_fetch) as [rs Hg].
    { apply Forall_forall. intros c Hc. rewrite Htf in Hc.
      apply elem_of_to_fetch in Hc as [Hcmiss Hc].
      destruct (decide (c = b)) as [->|Hcb].
      - eexists. by apply (fetch_category_stories_api_error _ _ e).
      - destruct (Hothers c Hc Hcb Hcmiss) as [[stories rb] Hr].
        eexists. by apply fetch_category_stories_ok. }
    rewrite Hg.
    destruct (store_results_total rs (m1, MainScreen.cache_dir s)) as [st ->];
      [|by eauto].
    apply Forall_forall. intros r Hr Ht.
    apply gather_ok in Hg.
    destruct (Forall2_elem_of_r _ _ _ _ Hg Hr) as (c & Hc & Hfetch).
    rewrite Htf in Hc. apply elem_of_to_fetch in Hc as [_ Hc].
    apply fetch_category_stories_inv in Hfetch as (Hname & Hget & _).
    rewrite Hname. exact (Hnul c _ _ Hc (Hget Ht)). }
  exists s', fetched. split; [done|]. split.
  - rewrite (load_stories_entry _ _ _ _ _ _ Hcats Hb Hne Hnd Hload Hin).
    unfold entry_after. by rewrite Hmiss, Hfail.
  - intros a stories rb Ha Hamiss Hget Hstories.
    rewrite (load_stories_entry _ _ _ _ _ _ Hcats Hb Hne Hnd Hload Ha).
    unfold entry_after. rewrite Hamiss, Hget. by destruct stories.
Qed.

Lemma regular_files_clear_old_caches (current_batch_id : string)
    (dir : gmap string (CacheManager.file datetime)) :
  regular_files dir →
  regular_files (CacheManager.clear_old_caches current_batch_id dir).
Proof.
  intros Hreg name. unfold writable_entry, CacheManager.clear_old_caches.
  rewrite lookup_unlink_old by (intros n _; apply (Hreg n)).
  destruct (_ && _); [done|apply Hreg].
Qed.

(** Pruning twice with the same batch id is pruning once. *)
Lemma clear_old_caches_idempotent `{!CacheManager.FileSystemLaws}
    (current_batch_id : string)
    (dir : gmap string (CacheManager.file datetime)) :
  regular_files dir →
  CacheManager.clear_old_caches current_batch_id
    (CacheManager.clear_old_caches current_batch_id dir)
  = CacheManager.clear_old_caches current_batch_id dir.
Proof.
  intros Hreg. apply map_eq. intros name.
  rewrite !lookup_clear_old_caches
    by (try apply regular_files_clear_old_caches; done).
  by destruct (_ && _ && _).
Qed.

Lemma get_cached_stories_same_name (category_id category_id' batch_id batch_id' : string)
    (dir : gmap string (CacheManager.file datetime)) :
  CacheManager.file_name category_id batch_id
    = CacheManager.file_name category_id' batch_id' →
  CacheManager.get_cached_stories category_id batch_id dir
    = CacheManager.get_cached_stories category_id' batch_id' dir.
Proof.
  unfold CacheManager.get_cached_stories, CacheManager._get_cache_path.
  by intros ->.
Qed.

Section SecondRefresh.
Context `{!RuntimeLaws datetime} `{!CacheManager.FileSystemLaws}.


End SecondRefresh.

(** *** Configuration: [Config] and [ConfigManager] *)

Lemma map_py_str_VStr (l : list string) :
  map py_str (map (λ s, VStr s : value datetime) l) = l.
Proof. induction l as [|s l IH]; [done|]. simpl. by rewrite IH. Qed.

Lemma from_dict_dict (d : list (string * value datetime)) :
  Config.from_dict (VDict d) =
  match default (VList []) (dict_get d "selected_categories") with
  | VList cats =>
      Ok (Config.mk (map py_str cats)
            match dict_get d "theme" with
            | Some (VStr s) => s
            | _ => "textual-dark"
            end)
  | _ => Raise ValueError
  end.
Proof.
  unfold Config.from_dict. simpl.
  destruct (default (VList []) (dict_get d "selected_categories")); try done.
  simpl. by destruct (dict_get d "theme") as [[]|].
Qed.

Lemma from_dict_not_dict (data : value datetime) :
  is_dict data = false → Config.from_dict data = Raise ValueError.
Proof. by destruct data. Qed.

Lemma from_dict_raises (data : value datetime) (e : exn) :
  Config.from_dict data = Raise e → e = ValueError.
Proof.
  destruct (is_dict data) eqn:Hd.
  - destruct data as [| | | | | |d|]; try done. rewrite from_dict_dict.
    destruct (default _ _); congruence.
  - rewrite from_dict_not_dict by done. congruence.
Qed.

(** X1: [Config.from_dict] gives back the config [Config.to_dict] was
    applied to. *)
Theorem from_dict_to_dict (config : Config.t) :
  Config.from_dict (Config.to_dict (datetime:=datetime) config) = Ok config.
Proof.
  destruct config as [cats theme]. unfold Config.to_dict.
  rewrite from_dict_dict. simpl. by rewrite map_py_str_VStr.
Qed.

(** X2: what [Config.from_dict] makes of every value. On a dict whose
    [selected_categories] is absent it returns the config without
    categories, on one where it is a list the config whose categories are
    the text of the list's elements; the theme is the [theme] entry when
    that is a string and textual-dark otherwise. On everything else (a dict
    whose [selected_categories] is not a list, a value that is not a dict)
    it raises ValueError, and it raises nothing else. *)
Theorem from_dict_ok_or_ValueError (data : value datetime) :
  Config.from_dict data =
  match data with
  | VDict d =>
      let theme :=
        match dict_get d "theme" with
        | Some (VStr s) => s
        | _ => "textual-dark"
        end in
      match dict_get d "selected_categories" with
      | None => Ok (Config.mk [] theme)
      | Some (VList cats) => Ok (Config.mk (map py_str cats) theme)
      | Some _ => Raise ValueError
      end
  | _ => Raise ValueError
  end.
Proof.
  destruct data as [| | | | | |d|]; try done. rewrite from_dict_dict.
  destruct (dict_get d "selected_categories") as [sel|]; [|done].
  by destruct sel.
Qed.

Lemma load_cached (d : ConfigManager.disk datetime) (config : Config.t) :
  ConfigManager.load d (ConfigManager.mk (Some config))
  = Ok (config, ConfigManager.mk (Some config)).
Proof. done. Qed.

(** What a manager that has nothing cached makes of the config file. *)
Lemma load_uncached (d : ConfigManager.disk datetime) :
  ConfigManager.load d (ConfigManager.mk None)
  = let config :=
      match ConfigManager.content d with
      | Some (CacheManager.Json data) =>
          match Config.from_dict data with
          | Ok config => config
          | Raise _ => Config.default
          end
      | _ => Config.default
      end in
    Ok (config, ConfigManager.mk (Some config)).
Proof.
  unfold ConfigManager.load. simpl.
  destruct (ConfigManager.content d) as [[| | |data|]|]; try done.
  simpl. destruct (Config.from_dict data) as [config|e] eqn:Hfrom; [done|].
  apply from_dict_raises in Hfrom as ->. done.
Qed.

Lemma load_ok (d : ConfigManager.disk datetime) (self : ConfigManager.t) :
  ∃ config, ConfigManager.load d self = Ok (config, ConfigManager.mk (Some config)).
Proof.
  destruct self as [[config|]].
  - exists config. apply load_cached.
  - eexists. rewrite load_uncached. reflexivity.
Qed.

(** X3: what [ConfigManager.load] returns on a manager that has not loaded
    yet, by what is at the config path. When [json.load] returns a value
    that [Config.from_dict] accepts, it is the config made of that value; in
    every other case (nothing at the path, a directory or a file that cannot
    be read, bytes that are not UTF-8, text that is not JSON, a value
    [Config.from_dict] rejects) it is the default config, without categories
    and with theme textual-dark. The manager caches what it returns. *)
Theorem load_falls_back_to_default (d : ConfigManager.disk datetime) :
  ConfigManager.load d ConfigManager.init =
  match ConfigManager.content d with
  | Some (CacheManager.Json data) =>
      match Config.from_dict data with
      | Ok config => Ok (config, ConfigManager.mk (Some config))
      | Raise _ => Ok (Config.default, ConfigManager.mk (Some Config.default))
      end
  | _ => Ok (Config.default, ConfigManager.mk (Some Config.default))
  end.
Proof.
  unfold ConfigManager.init. rewrite load_uncached.
  destruct (ConfigManager.content d) as [[| | |data|]|]; try done.
  by destruct (Config.from_dict data).
Qed.

(** X4: a manager reads the file at most once. The config a [load] returned
    is what every later [load] of the manager it left returns, whatever the
    file has become in between: a config another manager saved afterwards
    is not seen. *)
Theorem load_is_cached (d : ConfigManager.disk datetime) (self self' : ConfigManager.t)
    (config : Config.t) :
  ConfigManager.load d self = Ok (config, self') →
  ∀ d', ConfigManager.load d' self' = Ok (config, self').
Proof.
  destruct (load_ok d self) as [config' Hload]. rewrite Hload.
  intros [= <- <-] d'. apply load_cached.
Qed.

(** X5: when the config path can be opened for writing (it is writable,
    and nothing or a file that can be opened is there) and the categories
    and the theme of the config have no surrogate, so that UTF-8 can encode
    them, [save] returns normally, and the saved config is what a newly
    created manager loads from the file and what the saving manager itself
    loads from then on. *)
Theorem save_then_load (config : Config.t)
    (f : option (CacheManager.file datetime)) (self : ConfigManager.t) :
  f ≠ Some CacheManager.Directory →
  f ≠ Some CacheManager.Unreadable →
  forallb encodable (Config.theme config :: Config.selected_categories config)
    = true →
  let d := {| ConfigManager.content := f; ConfigManager.writable := true |} in
  ∃ d' self',
    ConfigManager.save config d self = (d', self', Ok tt) ∧
    ConfigManager.load d' ConfigManager.init
      = Ok (config, ConfigManager.mk (Some config)) ∧
    ConfigManager.load d' self' = Ok (config, self').
Proof.
  intros Hf Hopen Henc d.
  assert (ConfigManager.save config d self
          = ({| ConfigManager.content :=
                  Some (CacheManager.Json (Config.to_dict config));
                ConfigManager.writable := true |},
             ConfigManager.mk (Some config), Ok tt)) as Hsave.
  { unfold ConfigManager.save, d. rewrite Henc. simpl.
    by destruct f as [[| | | |]|]. }
  eexists _, _. split; [exact Hsave|]. split; [|done].
  unfold ConfigManager.init. rewrite load_uncached.
  cbn [ConfigManager.content]. unfold Config.to_dict.
  rewrite from_dict_dict. simpl. rewrite map_py_str_VStr. by destruct config.
Qed.

(** X6: after [set_selected_categories categories], whether or not the write
    succeeded, [get_selected_categories] on that manager returns
    [categories] and [get_theme] the theme it returned before. *)
Theorem set_selected_categories_then_get (categories : list string)
    (d : ConfigManager.disk datetime) (self : ConfigManager.t) :
  ∃ d' self' r theme self1,
    ConfigManager.set_selected_categories categories d self = (d', self', r) ∧
    ConfigManager.get_selected_categories d' self' = Ok (categories, self') ∧
    ConfigManager.get_theme d self = Ok (theme, self1) ∧
    ConfigManager.get_theme d' self' = Ok (theme, self').
Proof.
  destruct (load_ok d self) as [config Hload].
  unfold ConfigManager.set_selected_categories, ConfigManager.get_theme,
    ConfigManager.get_selected_categories.
  rewrite Hload. unfold ConfigManager.save.
  destruct (ConfigManager.writable d && _); [destruct (forallb _ _)|];
    eexists _, _, _, _, _; simpl; done.
Qed.

(** X7: after [set_theme theme], whether or not the write succeeded,
    [get_theme] on that manager returns [theme] and
    [get_selected_categories] the categories it returned before. *)
Theorem set_theme_then_get (theme : string)
    (d : ConfigManager.disk datetime) (self : ConfigManager.t) :
  ∃ d' self' r categories self1,
    ConfigManager.set_theme theme d self = (d', self', r) ∧
    ConfigManager.get_theme d' self' = Ok (theme, self') ∧
    ConfigManager.get_selected_categories d self = Ok (categories, self1) ∧
    ConfigManager.get_selected_categories d' self' = Ok (categories, self').
Proof.
  destruct (load_ok d self) as [config Hload].
  unfold ConfigManager.set_theme, ConfigManager.get_theme,
    ConfigManager.get_selected_categories.
  rewrite Hload. unfold ConfigManager.save.
  destruct (ConfigManager.writable d && _); [destruct (forallb _ _)|];
    eexists _, _, _, _, _; simpl; done.
Qed.

(** X8: when the config file cannot be written, [set_selected_categories]
    raises OSError and leaves the file as it was, yet the config the manager
    has cached already carries the new categories: from then on the manager
    answers [categories] while the file still holds the old config. *)
Theorem set_selected_categories_unwritable (categories : list string)
    (f : option (CacheManager.file datetime)) (self : ConfigManager.t) :
  let d := {| ConfigManager.content := f; ConfigManager.writable := false |} in
  ∃ self',
    ConfigManager.set_selected_categories categories d self
      = (d, self', Raise OSError) ∧
    ∀ d', ConfigManager.get_selected_categories d' self' = Ok (categories, self').
Proof.
  intros d. destruct (load_ok d self) as [config Hload].
  unfold ConfigManager.set_selected_categories. rewrite Hload.
  eexists. split; [reflexivity|]. done.
Qed.

(** X9: the theme the application applies when it starts. When the load of
    the config returns, it is the theme of the loaded config if that is one
    of the available themes and textual-dark, which is one of them,
    otherwise. *)
Theorem on_mount_theme_available (d : ConfigManager.disk datetime)
    (config : Config.t) (self' : ConfigManager.t) :
  ConfigManager.load d ConfigManager.init = Ok (config, self') →
  KagiNewsApp.on_mount d
    = Ok (if bool_decide (Config.theme config ∈ KagiNewsApp.AVAILABLE_THEMES)
          then Config.theme config else "textual-dark") ∧
  "textual-dark" ∈ KagiNewsApp.AVAILABLE_THEMES.
Proof.
  intros Hload. unfold KagiNewsApp.on_mount. rewrite Hload. split; [done|].
  unfold KagiNewsApp.AVAILABLE_THEMES. left.
Qed.

(** *** The API client: latest batch and stories *)

(** X10: [get_latest_batch] returns exactly when the response is a JSON
    object that has an [id] key, and then returns that object unchanged; in
    particular the [.get("id")] of its caller never fails on the result. *)
Theorem get_latest_batch_ok_iff (response : APIClient.http_outcome datetime)
    (data : value datetime) :
  Client.get_latest_batch response = Ok data ↔
  ∃ d, response = APIClient.HttpJson (VDict d) ∧ data = VDict d ∧
       is_Some (dict_get d "id").
Proof.
  split.
  - destruct response as [| | | |data']; try done.
    unfold Client.get_latest_batch.
    destruct data' as [| | | |s|l|d|]; try done; simpl.
    + by destruct (contains "id" s).
    + by destruct (existsb _ l).
    + case_bool_decide as Hid; simpl; [|done].
      intros [= <-]. by exists d.
  - intros (d & -> & -> & Hid). unfold Client.get_latest_batch. simpl.
    by rewrite bool_decide_eq_true_2.
Qed.

Lemma parse_stories_app (l1 l2 : list (value datetime))
    (acc : list (Story.t datetime)) :
  Client.parse_stories (l1 ++ l2) acc =
  acc' ← Client.parse_stories l1 acc; Client.parse_stories l2 acc'.
Proof.
  revert acc. induction l1 as [|c l1 IH]; intros acc; [done|].
  simpl.
  destruct (try_except _ _) as [acc'|e]; simpl; [apply IH|done].
Qed.

Lemma parse_story_not_dict (story_data : value datetime) :
  is_dict story_data = false →
  Client.parse_story story_data = Raise AttributeError.
Proof. by destruct story_data. Qed.

(** What the request of [get_stories] is made of a JSON object. *)
Lemma get_stories_json (http : string → Z → APIClient.http_outcome datetime)
    (category_id : string) (limit : Z) (d : list (string * value datetime)) :
  http category_id (Z.max 1 (Z.min 100 limit)) = APIClient.HttpJson (VDict d) →
  Client.get_stories http category_id limit =
  match default (VList []) (dict_get d "stories") with
  | VList clusters =>
      match Client.parse_stories clusters [] with
      | Ok stories => Ok (stories, default (VStr "") (dict_get d "batchId"))
      | Raise e =>
          if existsb (isinstance e) [ValueError; KeyError]
          then Raise APIResponseError else Raise e
      end
  | _ => Raise APIResponseError
  end.
Proof.
  intros Hhttp. unfold Client.get_stories. rewrite Hhttp. simpl.
  destruct (default (VList []) (dict_get d "stories")); try done.
  simpl. destruct (Client.parse_stories _ _) as [stories|e]; [done|].
  simpl. by destruct (isinstance e ValueError || (isinstance e KeyError || false)).
Qed.

(** X11: the stories request never carries a limit outside 1..100: two
    services that answer alike for the limits in that range cannot be told
    apart through [get_stories], whatever limit it is called with. *)
Theorem get_stories_limit_in_range
    (http1 http2 : string → Z → APIClient.http_outcome datetime)
    (category_id : string) (limit : Z) :
  (∀ l, 1 ≤ l ≤ 100 → http1 category_id l = http2 category_id l) →
  Client.get_stories http1 category_id limit
  = Client.get_stories http2 category_id limit.
Proof.
  intros Hagree. unfold Client.get_stories.
  rewrite (Hagree (Z.max 1 (Z.min 100 limit))) by lia. done.
Qed.

(** X12: a cluster without articles (no [articles] key, or a falsy value
    such as the empty list under it) is skipped: the stories parsed from an
    array are those parsed from the array without that cluster. *)
Theorem parse_stories_skips_cluster_without_articles
    (pre post : list (value datetime)) (d : list (string * value datetime))
    (acc : list (Story.t datetime)) :
  py_truthy (default (VList []) (dict_get d "articles")) = false →
  Client.parse_stories (pre ++ VDict d :: post) acc
  = Client.parse_stories (pre ++ post) acc.
Proof.
  intros Hfalsy. rewrite !parse_stories_app.
  destruct (Client.parse_stories pre acc) as [acc'|e]; [|done].
  simpl. unfold Client.parse_story. simpl.
  unfold Client.first_article. by rewrite Hfalsy.
Qed.

(** X13: [parse_stories] keeps the order of the array. Either it returns
    the stories collected so far followed by the story of each cluster that
    has articles and parses, in the order of the array, or it raises an
    exception that is neither a ValueError nor a KeyError. *)
Theorem parse_stories_in_order (clusters : list (value datetime))
    (acc : list (Story.t datetime)) :
  Client.parse_stories clusters acc =
    Ok (acc ++ omap (λ cluster,
                       match Client.parse_story cluster with
                       | Ok (Some story) => Some story
                       | _ => None
                       end) clusters)%list
  ∨ ∃ e, Client.parse_stories clusters acc = Raise e ∧
         existsb (isinstance e) [ValueError; KeyError] = false.
Proof.
  revert acc. induction clusters as [|cluster clusters IH]; intros acc.
  - left. simpl. by rewrite app_nil_r.
  - simpl. destruct (Client.parse_story cluster) as [[story|]|e] eqn:Hc; simpl.
    + destruct (IH (acc ++ [story])%list) as [->|Hr]; [left|by right].
      by rewrite <- app_assoc.
    + apply IH.
    + destruct (existsb (isinstance e) [ValueError; KeyError]) eqn:He.
      * simpl in He. rewrite He. apply IH.
      * simpl in He. rewrite He. right. exists e. split; [done|]. simpl. done.
Qed.

(** X14: an element of the [stories] array that is not a JSON object makes
    [get_stories] raise AttributeError once the elements before it are
    parsed. AttributeError is no APIError: the handler of
    [fetch_category_stories] does not take it. *)
Theorem get_stories_non_dict_cluster
    (http : string → Z → APIClient.http_outcome datetime)
    (category_id : string) (limit : Z) (d : list (string * value datetime))
    (pre post : list (value datetime)) (cluster : value datetime)
    (acc : list (Story.t datetime)) :
  http category_id (Z.max 1 (Z.min 100 limit)) = APIClient.HttpJson (VDict d) →
  dict_get d "stories" = Some (VList (pre ++ cluster :: post)) →
  Client.parse_stories pre [] = Ok acc →
  is_dict cluster = false →
  Client.get_stories http category_id limit = Raise AttributeError ∧
  isinstance AttributeError APIError = false.
Proof.
  intros Hhttp Hstories Hpre Hcluster. split; [|done].
  rewrite (get_stories_json _ _ _ _ Hhttp), Hstories. simpl.
  rewrite parse_stories_app, Hpre. simpl.
  by rewrite (parse_story_not_dict _ Hcluster).
Qed.

(** X15: how a cluster becomes a story. When [parse_story] returns a story
    for a JSON object, the first article of the cluster is itself an object,
    and the story has: as id the cluster's [id], or else the text of its
    [cluster_number], or else unknown; as title the text of the cluster's
    [title]; as url, source and date the [link], [domain] and [date] of the
    first article; as excerpt the cluster's [short_summary] when that is
    truthy. A key that is missing reads as [None], whose text is None. *)
Theorem parse_story_fields (d : list (string * value datetime))
    (story : Story.t datetime) :
  Client.parse_story (VDict d) = Ok (Some story) →
  ∃ a,
    Client.first_article (default (VList []) (dict_get d "articles"))
      = Ok (Some (VDict a)) ∧
    Story.id story =
      py_str (default (VStr (py_str (default (VStr "unknown")
                                       (dict_get d "cluster_number"))))
                (dict_get d "id")) ∧
    Story.title story = py_str (default VNone (dict_get d "title")) ∧
    Story.url story = py_str (default VNone (dict_get a "link")) ∧
    Story.source story = py_str (default VNone (dict_get a "domain")) ∧
    Story.parse_published_at (default VNone (dict_get a "date"))
      = Ok (Story.published_at story) ∧
    Story.excerpt story =
      (if py_truthy (default VNone (dict_get d "short_summary"))
       then Some (py_str (default VNone (dict_get d "short_summary")))
       else None).
Proof.
  unfold Client.parse_story. simpl.
  destruct (Client.first_article _) as [[article|]|e] eqn:Hfirst; simpl; try done.
  destruct article as [| | | | | |a|]; try done. simpl.
  rewrite from_api_response_dict. simpl (dict_get _ _).
  cbv beta iota. match goal with
  | |- context [Story.parse_published_at ?v] =>
      destruct (Story.parse_published_at v) as [t|e] eqn:Hdate
  end; simpl.
  - intros [= <-]. exists a. simpl. repeat split; done.
  - by destruct (isinstance e KeyError || _).
Qed.

Lemma parse_story_valid (cluster : value datetime) (story : Story.t datetime) :
  Client.parse_story cluster = Ok (Some story) → valid_story story.
Proof.
  unfold Client.parse_story.
  destruct (py_get cluster "articles" _) as [articles|]; simpl; [|done].
  destruct (Client.first_article articles) as [[article|]|]; simpl; try done.
  destruct (py_get cluster "cluster_number" _) as [?|]; simpl; [|done].
  destruct (py_get cluster "id" _) as [?|]; simpl; [|done].
  destruct (py_get cluster "title" _) as [?|]; simpl; [|done].
  destruct (py_get article "link" _) as [?|]; simpl; [|done].
  destruct (py_get article "domain" _) as [?|]; simpl; [|done].
  destruct (py_get article "date" _) as [?|]; simpl; [|done].
  destruct (py_get cluster "short_summary" _) as [?|]; simpl; [|done].
  destruct (Story.from_api_response _) as [s|] eqn:Hs; simpl; [|done].
  intros [= <-]. eexists. exact Hs.
Qed.

Lemma parse_stories_valid (clusters : list (value datetime))
    (acc stories : list (Story.t datetime)) :
  Client.parse_stories clusters acc = Ok stories →
  Forall valid_story acc → Forall valid_story stories.
Proof.
  revert acc. induction clusters as [|cluster clusters IH]; intros acc; simpl.
  - by intros [= <-].
  - destruct (Client.parse_story cluster) as [[story|]|e] eqn:Hc; simpl.
    + intros Hrest Hacc. apply (IH _ Hrest).
      apply Forall_app. split; [done|].
      apply Forall_cons_2; [|apply Forall_nil_2].
      by apply (parse_story_valid cluster).
    + apply IH.
    + destruct (isinstance e ValueError || (isinstance e KeyError || false));
        simpl; [apply IH|done].
Qed.

Section FetchThenCache.
Context `{!RuntimeLaws datetime}.


End FetchThenCache.

(** *** Display of a story *)

Lemma length_string_app (a b : string) :
  String.length (a +:+ b) = (String.length a + String.length b)%nat.
Proof.
  induction a as [|c a IH]; [done|].
  change (String c a +:+ b) with (String c (a +:+ b)). simpl. by rewrite IH.
Qed.

Lemma py_len_app (a b : string) :
  StoryDisplay.py_len (a +:+ b)
  = (StoryDisplay.py_len a + StoryDisplay.py_len b)%nat.
Proof.
  induction a as [|c a IH]; [done|].
  change (String c a +:+ b) with (String c (a +:+ b)). simpl.
  rewrite IH. by destruct (StoryDisplay.is_continuation c).
Qed.

Lemma py_len_prefix (n : nat) (s : string) :
  StoryDisplay.py_len (StoryDisplay.py_prefix n s)
  = Nat.min n (StoryDisplay.py_len s).
Proof.
  revert n. induction s as [|c s IH]; intros n; simpl; [lia|].
  destruct (StoryDisplay.is_continuation c) eqn:Hc; simpl.
  - by rewrite Hc, IH.
  - destruct n as [|n]; simpl; [done|]. by rewrite Hc, IH.
Qed.

Section Display.
Context `{!Clock datetime}.

(** X17: the title [format_display] shows is never longer than 80
    characters, the length being what [len] counts, the characters of the
    text and not the bytes that encode them: its length is the smaller of
    80 and the length of the title, and it is the title itself exactly when
    the title has at most 80 characters. *)
Theorem display_title_length (title : string) :
  StoryDisplay.py_len (StoryDisplay.display_title title)
    = Nat.min (StoryDisplay.py_len title) 80 ∧
  (StoryDisplay.display_title title = title ↔
   (StoryDisplay.py_len title ≤ 80)%nat).
Proof.
  unfold StoryDisplay.display_title.
  destruct (Nat.ltb_spec 80 (StoryDisplay.py_len title)) as [Hlong|Hshort].
  - assert (StoryDisplay.py_len (StoryDisplay.py_prefix (80 - 3) title +:+ "...")
            = 80%nat) as Hlen.
    { rewrite py_len_app, py_len_prefix. simpl StoryDisplay.py_len. lia. }
    split; [lia|]. split; [|lia].
    intros Heq. rewrite Heq in Hlen. lia.
  - split; [lia|done].
Qed.

(** X18: for a story published earlier the same day ([diff.days] is 0 and
    [diff.seconds] lies between 0 and 86399, as in every timedelta),
    [_format_time] says just now below one minute, the whole minutes
    elapsed below one hour, and the whole hours elapsed otherwise. *)
Theorem format_time_same_day (dt : datetime) :
  diff_days dt = 0 → 0 ≤ diff_seconds dt < 86400 →
  StoryDisplay._format_time dt =
  if diff_seconds dt <? 60 then "just now"
  else if diff_seconds dt <? 3600 then pretty (diff_seconds dt / 60) +:+ "m ago"
  else pretty (diff_seconds dt / 3600) +:+ "h ago".
Proof.
  intros Hdays Hsecs. unfold StoryDisplay._format_time. rewrite Hdays. simpl.
  destruct (Z.ltb_spec (diff_seconds dt) 3600) as [Hlt|Hge].
  - rewrite (Z.div_small (diff_seconds dt) 3600) by lia. simpl.
    rewrite (Z.mod_small (diff_seconds dt) 3600) by lia.
    destruct (Z.ltb_spec (diff_seconds dt) 60) as [Hmin|Hmin].
    + by rewrite (Z.div_small (diff_seconds dt) 60) by lia.
    + assert (1 ≤ diff_seconds dt / 60) by (apply Z.div_le_lower_bound; lia).
      destruct (Z.eqb_spec (diff_seconds dt / 60) 0); [lia|done].
  - assert (1 ≤ diff_seconds dt / 3600) by (apply Z.div_le_lower_bound; lia).
    destruct (Z.eqb_spec (diff_seconds dt / 3600) 0); [lia|].
    destruct (Z.ltb_spec (diff_seconds dt) 60); [lia|done].
Qed.

(** X19: a story dated in the future ([diff.days] is negative) is shown
    with a negative number of days, as in -1d ago. *)
Theorem format_time_future (dt : datetime) :
  diff_days dt < 0 →
  StoryDisplay._format_time dt = "-" +:+ pretty (- diff_days dt) +:+ "d ago".
Proof.
  intros Hneg. unfold StoryDisplay._format_time.
  destruct (Z.eqb_spec (diff_days dt) 0); [lia|].
  destruct (Z.eqb_spec (diff_days dt) 1); [lia|].
  destruct (Z.ltb_spec (diff_days dt) 7); [|lia].
  destruct (diff_days dt) as [|p|p]; try lia. done.
Qed.

End Display.

(** *** Tabs and the handlers of the main screen *)

Lemma substring_0_length (s : string) :
  String.substring 0 (String.length s) s = s.
Proof. induction s as [|c s IH]; [done|]. simpl. by rewrite IH. Qed.

(** The category id [action_refresh] makes of the id [add_tab] gave a tab. *)
Lemma active_category_id_tab (x : string) :
  Handlers.active_category_id ("tab-" +:+ x) = x.
Proof.
  unfold Handlers.active_category_id.
  change ("tab-" +:+ x) with (String "t" (String "a" (String "b" (String "-" x)))).
  assert (String.prefix "tab-" (String "t" (String "a" (String "b" (String "-" x))))
          = true) as Hp.
  { simpl. by destruct x. }
  rewrite Hp. unfold Handlers.replace_first. rewrite Hp.
  simpl String.length.
  replace (S (S (S (S (String.length x)))) - 4)%nat with (String.length x) by lia.
  change ("" +:+ String.substring 0 (String.length x) x = x).
  apply substring_0_length.
Qed.

(** X20: after a refresh, the story list is given the entry that
    [stories_by_category] holds under the sanitised name of the active
    tab's category (the characters | ( ) and space replaced by _), and the
    empty list when there is none, whereas [_load_stories] files the stories
    under the name itself. *)
Theorem action_refresh_looks_up_sanitised_name
    (api : MainScreen.remote datetime) (s s' : MainScreen.screen datetime)
    (fetched : list string) (category : Category.t) :
  MainScreen._load_stories api s = Ok (s', fetched) →
  Handlers.action_refresh api
    ("tab-" +:+ CategoryTabs.safe_name (Category.name category)) true s
  = Handlers.Refreshed s'
      (Some (default [] (MainScreen.stories_by_category s'
                           !! CategoryTabs.safe_name (Category.name category)))).
Proof.
  intros Hload. unfold Handlers.action_refresh. rewrite Hload.
  rewrite active_category_id_tab.
  change ("tab-" +:+ CategoryTabs.safe_name (Category.name category))
    with (String "t" ("ab-" +:+ CategoryTabs.safe_name (Category.name category))).
  done.
Qed.

Lemma index_lookup (l : list string) (x : string) (i : nat) :
  CategoryTabs.index l x = Some i → l !! i = Some x.
Proof.
  revert i. induction l as [|y l IH]; intros i; simpl; [done|].
  destruct (String.eqb_spec y x) as [->|Hne].
  - by intros [= <-].
  - destruct (CategoryTabs.index l x) as [j|]; simpl; [|done].
    intros [= <-]. by apply IH.
Qed.

Lemma index_NoDup (l : list string) (x : string) (i : nat) :
  NoDup l → l !! i = Some x → CategoryTabs.index l x = Some i.
Proof.
  intros Hnd. revert i. induction Hnd as [|y l Hy Hnd IH]; intros i; [done|].
  destruct i as [|i]; simpl.
  - intros [= ->]. by rewrite String.eqb_refl.
  - intros Hx. destruct (String.eqb_spec y x) as [->|Hne].
    + destruct Hy. by eapply list_elem_of_lookup_2.
    + by rewrite (IH _ Hx).
Qed.

Lemma action_next_tab_unfold (self : CategoryTabs.t) (active : string) :
  CategoryTabs._tab_ids self ≠ [] →
  CategoryTabs.action_next_tab self active =
  next_id ← CategoryTabs._tab_ids self
            !! Z.to_nat ((match CategoryTabs.index (CategoryTabs._tab_ids self) active with
                          | Some i => Z.of_nat i
                          | None => -1
                          end + 1)
                         mod Z.of_nat (length (CategoryTabs._tab_ids self)));
  Some (next_id, default next_id (CategoryTabs._tab_to_category self !! next_id)).
Proof.
  unfold CategoryTabs.action_next_tab.
  by destruct (CategoryTabs._tab_ids self).
Qed.

Lemma action_previous_tab_unfold (self : CategoryTabs.t) (active : string) :
  CategoryTabs._tab_ids self ≠ [] →
  CategoryTabs.action_previous_tab self active =
  prev_id ← CategoryTabs._tab_ids self
            !! Z.to_nat ((match CategoryTabs.index (CategoryTabs._tab_ids self) active with
                          | Some i => Z.of_nat i
                          | None => 0
                          end - 1)
                         mod Z.of_nat (length (CategoryTabs._tab_ids self)));
  Some (prev_id, default prev_id (CategoryTabs._tab_to_category self !! prev_id)).
Proof.
  unfold CategoryTabs.action_previous_tab.
  by destruct (CategoryTabs._tab_ids self).
Qed.

(** X21: with tab ids that are pairwise distinct, moving to the next tab
    and then to the previous one comes back to the tab one started from,
    and so does moving to the previous tab and then to the next one: the
    wrap-around at both ends included. *)
Theorem next_and_previous_tab_are_inverse (self : CategoryTabs.t) (active : string) :
  NoDup (CategoryTabs._tab_ids self) →
  active ∈ CategoryTabs._tab_ids self →
  (∃ next name name',
     CategoryTabs.action_next_tab self active = Some (next, name) ∧
     CategoryTabs.action_previous_tab self next = Some (active, name')) ∧
  (∃ prev name name',
     CategoryTabs.action_previous_tab self active = Some (prev, name) ∧
     CategoryTabs.action_next_tab self prev = Some (active, name')).
Proof.
  intros Hnd Hin.
  apply list_elem_of_lookup in Hin as [i Hi].
  assert (CategoryTabs._tab_ids self ≠ []) as Hne by (by intros Hnil; rewrite Hnil in Hi).
  pose proof (lookup_lt_Some _ _ _ Hi) as Hlt.
  pose proof (index_NoDup _ _ _ Hnd Hi) as Hidx.
  set (l := CategoryTabs._tab_ids self) in *.
  set (n := Z.of_nat (length l)).
  assert (0 < n) as Hn by (unfold n; lia).
  split.
  - pose proof (Z.mod_pos_bound (Z.of_nat i + 1) n Hn) as Hj.
    destruct (lookup_lt_is_Some_2 l (Z.to_nat ((Z.of_nat i + 1) mod n)))
      as [next Hnext]; [unfold n in *; lia|].
    exists next, (default next (CategoryTabs._tab_to_category self !! next)),
      (default active (CategoryTabs._tab_to_category self !! active)).
    rewrite action_next_tab_unfold by done. fold l n.
    rewrite Hidx, Hnext. simpl. split; [done|].
    rewrite action_previous_tab_unfold by done. fold l n.
    rewrite (index_NoDup _ _ _ Hnd Hnext).
    rewrite Z2Nat.id by lia.
    rewrite Zminus_mod_idemp_l.
    replace (Z.of_nat i + 1 - 1) with (Z.of_nat i) by lia.
    rewrite Z.mod_small by (unfold n; lia).
    rewrite Nat2Z.id, Hi. done.
  - pose proof (Z.mod_pos_bound (Z.of_nat i - 1) n Hn) as Hj.
    destruct (lookup_lt_is_Some_2 l (Z.to_nat ((Z.of_nat i - 1) mod n)))
      as [prev Hprev]; [unfold n in *; lia|].
    exists prev, (default prev (CategoryTabs._tab_to_category self !! prev)),
      (default active (CategoryTabs._tab_to_category self !! active)).
    rewrite action_previous_tab_unfold by done. fold l n.
    rewrite Hidx, Hprev. simpl. split; [done|].
    rewrite action_next_tab_unfold by done. fold l n.
    rewrite (index_NoDup _ _ _ Hnd Hprev).
    rewrite Z2Nat.id by lia.
    rewrite Zplus_mod_idemp_l.
    replace (Z.of_nat i - 1 + 1) with (Z.of_nat i) by lia.
    rewrite Z.mod_small by (unfold n; lia).
    rewrite Nat2Z.id, Hi. done.
Qed.

Lemma tab_ids_foldl_add_tab (cats : list Category.t) (tabs : CategoryTabs.t) :
  CategoryTabs._tab_ids
    (foldl (λ tabs category, CategoryTabs.add_tab category tabs) tabs cats)
  = (CategoryTabs._tab_ids tabs
     ++ map (λ c, "tab-" +:+ CategoryTabs.safe_name (Category.name c)) cats)%list.
Proof.
  revert tabs. induction cats as [|c cats IH]; intros tabs; simpl.
  - by rewrite app_nil_r.
  - rewrite IH. simpl. by rewrite <- app_assoc.
Qed.

Lemma tab_to_category_foldl_other (cats : list Category.t) (tabs : CategoryTabs.t)
    (tab_id : string) :
  tab_id ∉ map (λ c, "tab-" +:+ CategoryTabs.safe_name (Category.name c)) cats →
  CategoryTabs._tab_to_category
    (foldl (λ tabs category, CategoryTabs.add_tab category tabs) tabs cats)
    !! tab_id
  = CategoryTabs._tab_to_category tabs !! tab_id.
Proof.
  revert tabs. induction cats as [|c cats IH]; intros tabs Hnot; [done|].
  simpl in *. apply not_elem_of_cons in Hnot as [Hne Hnot].
  rewrite IH by done. simpl.
  by apply lookup_insert_ne.
Qed.

Lemma tab_to_category_foldl (cats : list Category.t) (tabs : CategoryTabs.t)
    (c : Category.t) :
  NoDup (map (λ c, "tab-" +:+ CategoryTabs.safe_name (Category.name c)) cats) →
  c ∈ cats →
  CategoryTabs._tab_to_category
    (foldl (λ tabs category, CategoryTabs.add_tab category tabs) tabs cats)
    !! ("tab-" +:+ CategoryTabs.safe_name (Category.name c))
  = Some (Category.name c).
Proof.
  revert tabs. induction cats as [|c0 cats IH]; intros tabs Hnd Hin.
  - by apply elem_of_nil in Hin.
  - simpl in Hnd. apply NoDup_cons in Hnd as [Hc0 Hnd]. simpl.
    destruct (decide (c ∈ cats)) as [Hc|Hc]; [by apply IH|].
    apply elem_of_cons in Hin as [->|Hin]; [|done].
    rewrite tab_to_category_foldl_other by done. simpl.
    apply lookup_insert_eq.
Qed.

Lemma NoDup_tab_ids (cats : list Category.t) :
  NoDup (map (λ c, CategoryTabs.safe_name (Category.name c)) cats) →
  NoDup (map (λ c, "tab-" +:+ CategoryTabs.safe_name (Category.name c)) cats).
Proof.
  induction cats as [|c cats IH]; simpl; [done|].
  intros [Hc Hnd]%NoDup_cons. apply NoDup_cons. split; [|by apply IH].
  intros Hin. apply Hc. clear -Hin.
  induction cats as [|c' cats IH]; simpl in *; [by apply elem_of_nil in Hin|].
  apply elem_of_cons in Hin as [Heq|Hin].
  - apply elem_of_cons. left.
    change ("tab-" +:+ CategoryTabs.safe_name (Category.name c))
      with (String "t" (String "a" (String "b" (String "-"
              (CategoryTabs.safe_name (Category.name c)))))) in Heq.
    change ("tab-" +:+ CategoryTabs.safe_name (Category.name c'))
      with (String "t" (String "a" (String "b" (String "-"
              (CategoryTabs.safe_name (Category.name c')))))) in Heq.
    congruence.
  - apply elem_of_cons. right. by apply IH.
Qed.

Lemma lookup_map_list {A B} (f : A → B) (l : list A) (i : nat) :
  map f l !! i = f <$> (l !! i).
Proof.
  revert i. induction l as [|x l IH]; intros [|i]; simpl; done.
Qed.

(** The handler of a tab change shows the stories filed under the name
    posted, when a category of the screen has that name. *)
Lemma on_category_tabs_category_changed_name (s : MainScreen.screen datetime)
    (c : Category.t) :
  c ∈ MainScreen.categories s →
  Handlers.on_category_tabs_category_changed (Category.name c) true s
  = Some (default [] (MainScreen.stories_by_category s !! Category.name c)).
Proof.
  intros Hin. unfold Handlers.on_category_tabs_category_changed.
  destruct (find _ _) as [c'|] eqn:Hfind.
  - apply find_some in Hfind as [_ Heq].
    apply String.eqb_eq in Heq. by rewrite Heq.
  - apply list_elem_of_In in Hin.
    pose proof (find_none _ _ Hfind _ Hin) as Hno. simpl in Hno.
    by rewrite String.eqb_refl in Hno.
Qed.

(** X22: tabs and stories stay in step when the sanitised names of the
    screen's categories are pairwise distinct. From the tab of the i-th
    category, [action_next_tab] activates the tab of the category after it
    (the first one after the last) and posts that category's own name, not
    the sanitised one; the handler of the message then gives the story list
    the stories filed under that name. *)
Theorem next_tab_shows_next_category (s : MainScreen.screen datetime)
    (i : nat) (c c' : Category.t) :
  let cats := MainScreen.categories s in
  let tabs := foldl (λ tabs category, CategoryTabs.add_tab category tabs)
                    CategoryTabs.init cats in
  NoDup (map (λ c, CategoryTabs.safe_name (Category.name c)) cats) →
  cats !! i = Some c →
  cats !! ((i + 1) mod length cats)%nat = Some c' →
  CategoryTabs.action_next_tab tabs
    ("tab-" +:+ CategoryTabs.safe_name (Category.name c))
  = Some ("tab-" +:+ CategoryTabs.safe_name (Category.name c'), Category.name c') ∧
  Handlers.on_category_tabs_category_changed (Category.name c') true s
  = Some (default [] (MainScreen.stories_by_category s !! Category.name c')).
Proof.
  intros cats tabs Hnd Hc Hc'.
  pose proof (NoDup_tab_ids _ Hnd) as Hnd'.
  split; [|apply on_category_tabs_category_changed_name;
           by eapply list_elem_of_lookup_2].
  assert (CategoryTabs._tab_ids tabs
          = map (λ c, "tab-" +:+ CategoryTabs.safe_name (Category.name c)) cats)
    as Hids by (unfold tabs; by rewrite tab_ids_foldl_add_tab).
  pose proof (lookup_lt_Some _ _ _ Hc) as Hlt.
  rewrite action_next_tab_unfold
    by (rewrite Hids; destruct cats; [done|discriminate]).
  rewrite Hids.
  rewrite (index_NoDup _ _ i Hnd') by (by rewrite lookup_map_list, Hc).
  rewrite length_map.
  replace (Z.to_nat ((Z.of_nat i + 1) mod Z.of_nat (length cats)))
    with ((i + 1) mod length cats)%nat.
  2:{ rewrite <- (Nat2Z.id ((i + 1) mod length cats)).
      f_equal. rewrite Nat2Z.inj_mod, Nat2Z.inj_add. done. }
  rewrite lookup_map_list, Hc'. simpl.
  unfold tabs. rewrite tab_to_category_foldl; [done|done|].
  by eapply list_elem_of_lookup_2.
Qed.

(** *** Mounting the main screen *)

(** X23: when the config [on_mount] loads selects no category (as the
    default config does, which a missing, unreadable, corrupt or rejected
    file loads as), [on_mount] ends in the empty state that asks to
    configure, whatever the service would answer: no request is made. *)
Theorem on_mount_without_selection (d : ConfigManager.disk datetime)
    (response : APIClient.http_outcome datetime)
    (api : MainScreen.remote datetime)
    (cache : gmap string (CacheManager.file datetime))
    (config : Config.t) (self' : ConfigManager.t) :
  ConfigManager.load d ConfigManager.init = Ok (config, self') →
  Config.selected_categories config = [] →
  Handlers.on_mount d response api cache
  = Handlers.EmptyState "No categories configured. Press 'c' to configure.".
Proof.
  intros Hload Hsel. unfold Handlers.on_mount. rewrite Hload.
  simpl. by rewrite Hsel.
Qed.

Lemma load_stories_categories (api : MainScreen.remote datetime)
    (s s' : MainScreen.screen datetime) (fetched : list string) :
  MainScreen._load_stories api s = Ok (s', fetched) →
  MainScreen.categories s' = MainScreen.categories s.
Proof.
  unfold MainScreen._load_stories.
  destruct (MainScreen.categories s) as [|c cats] eqn:Hcats.
  - intros [= <- _]. done.
  - rewrite <- Hcats.
    destruct (MainScreen.latest_batch_id api) as [[batch_id|]|];
      cbn [mbind result_bind]; [| |done].
    + destruct (String.eqb batch_id ""); [by intros [= <- _]|].
      destruct (MainScreen.classify _ _ _ _ _) as [[m1 to_fetch]|];
        cbn [mbind result_bind]; [|done].
      destruct (MainScreen.gather _ _) as [rs|]; cbn [mbind result_bind]; [|done].
      destruct (MainScreen.store_results _ _) as [[m2 cache2]|];
        cbn [mbind result_bind]; [|done].
      by intros [= <- _].
    + by intros [= <- _].
Qed.

(** X24: when [on_mount] loads the screen, its categories are the
    categories of the service whose name is selected in the config, in the
    order of the service; there is one tab for each, in that order; and the
    story list is given the stories of the first of them, or the empty list
    when none were loaded for it. *)
Theorem on_mount_loaded (d : ConfigManager.disk datetime)
    (response : APIClient.http_outcome datetime)
    (api : MainScreen.remote datetime)
    (cache : gmap string (CacheManager.file datetime))
    (s : MainScreen.screen datetime) (tabs : CategoryTabs.t)
    (shown : list (Story.t datetime)) :
  Handlers.on_mount d response api cache = Handlers.Loaded s tabs shown →
  ∃ config all_categories first_category,
    ConfigManager.load d ConfigManager.init
      = Ok (config, ConfigManager.mk (Some config)) ∧
    APIClient.get_categories response = Ok all_categories ∧
    MainScreen.categories s
      = filter (λ cat, Category.name cat ∈ Config.selected_categories config)
          all_categories ∧
    CategoryTabs._tab_ids tabs
      = map (λ c, "tab-" +:+ CategoryTabs.safe_name (Category.name c))
          (MainScreen.categories s) ∧
    head (MainScreen.categories s) = Some first_category ∧
    shown = default [] (MainScreen.stories_by_category s
                          !! Category.name first_category).
Proof.
  unfold Handlers.on_mount.
  destruct (load_ok d ConfigManager.init) as [config Hload]. rewrite Hload.
  simpl. destruct (Config.selected_categories config) as [|sel sels] eqn:Hsel;
    [done|].
  destruct (APIClient.get_categories response) as [all_categories|] eqn:Hall;
    simpl; [|done].
  unfold Handlers.select_categories.
  destruct (filter _ all_categories) as [|first cats] eqn:Hfilter; [done|].
  destruct (MainScreen._load_stories _ _) as [[s' fetched]|] eqn:Hcycle;
    simpl; [|done].
  intros [= <- <- <-].
  apply load_stories_categories in Hcycle. simpl in Hcycle.
  exists config, all_categories, first. rewrite Hcycle.
  repeat split; try done.
  - by rewrite Hsel, Hfilter.
  - exact (tab_ids_foldl_add_tab (first :: cats) CategoryTabs.init).
Qed.

(** *** A fetch that fails with something else than an APIError *)

Lemma gather_raises (api : MainScreen.remote datetime) (cats : list Category.t)
    (c : Category.t) (e : exn) :
  c ∈ cats →
  MainScreen.fetch_category_stories api c = Raise e →
  ∃ e', MainScreen.gather api cats = Raise e'.
Proof.
  intros Hin Hfetch. induction cats as [|c0 cats IH]; [by apply elem_of_nil in Hin|].
  simpl. destruct (MainScreen.fetch_category_stories api c0) as [r|e0] eqn:H0;
    simpl; [|by eexists].
  apply elem_of_cons in Hin as [->|Hin]; [congruence|].
  destruct (IH Hin) as [e' ->]. simpl. by eexists.
Qed.

(** X25: [fetch_category_stories] absorbs APIErrors only. When the stories
    request of one category that has to be fetched raises anything else (an
    AttributeError from a malformed response, say), the whole cycle raises,
    and [action_refresh] ends in the error display, whatever the other
    categories would have returned. *)
Theorem non_api_error_aborts_refresh (api : MainScreen.remote datetime)
    (s : MainScreen.screen datetime) (batch_id : string) (c : Category.t)
    (e : exn) (active : string) (story_list : bool) :
  MainScreen.latest_batch_id api = Ok (Some batch_id) →
  batch_id ≠ "" →
  c ∈ MainScreen.categories s →
  lookup_category batch_id (MainScreen.cache_dir s) c = Ok None →
  MainScreen.get_stories api (Category.id c) = Raise e →
  isinstance e APIError = false →
  (∃ e', MainScreen._load_stories api s = Raise e') ∧
  Handlers.action_refresh api active story_list s = Handlers.RefreshError.
Proof.
  intros Hbatch Hne Hin Hmiss Hget Hexn.
  assert (∃ e', MainScreen._load_stories api s = Raise e') as [e' Hraise].
  { rewrite (load_stories_unfold api s batch_id); [| |done|done].
    2:{ intros Hnil. rewrite Hnil in Hin. by apply elem_of_nil in Hin. }
    destruct (MainScreen.classify _ _ _ _ _) as [[m1 to_fetch]|e1] eqn:Hclass;
      [|by eexists].
    apply classify_ok in Hclass as [-> _]. simpl.
    destruct (gather_raises api
                (filter (λ c, is_miss (lookup_category batch_id
                                         (MainScreen.cache_dir s) c) = true)
                        (MainScreen.categories s)) c e) as [e2 ->].
    - by apply elem_of_to_fetch.
    - unfold MainScreen.fetch_category_stories. rewrite Hget. simpl.
      by rewrite Hexn.
    - by eexists. }
  split; [by eexists|].
  unfold Handlers.action_refresh. by rewrite Hraise.
Qed.

(** *** More on the cache: what a file name stands for *)

Lemma string_app_inv_tail (a b s : string) : a +:+ s = b +:+ s → a = b.
Proof.
  revert b. induction a as [|x a IH]; intros [|y b] Heq; [done| | |].
  - apply (f_equal String.length) in Heq.
    rewrite !length_string_app in Heq. simpl in Heq. lia.
  - apply (f_equal String.length) in Heq.
    rewrite !length_string_app in Heq. simpl in Heq. lia.
  - change (String x (a +:+ s) = String y (b +:+ s)) in Heq.
    injection Heq as -> Heq. by rewrite (IH _ Heq).
Qed.

(** Category names without an underscore give each (category, batch) a
    file name of its own. *)
Lemma file_name_inj (category_id category_id' batch_id batch_id' : string) :
  contains "_" category_id = false →
  contains "_" category_id' = false →
  CacheManager.file_name category_id batch_id
    = CacheManager.file_name category_id' batch_id' →
  category_id = category_id' ∧ batch_id = batch_id'.
Proof.
  unfold CacheManager.file_name.
  revert category_id'.
  induction category_id as [|x c IH]; intros [|y c'] Hc Hc' Heq.
  - split; [done|].
    change (String "_" (batch_id +:+ ".json") = String "_" (batch_id' +:+ ".json"))
      in Heq.
    injection Heq as Heq. by apply string_app_inv_tail in Heq.
  - change (String "_" (batch_id +:+ ".json")
            = String y (c' +:+ "_" +:+ batch_id' +:+ ".json")) in Heq.
    injection Heq as <- _. rewrite contains_cons in Hc'. simpl in Hc'.
    by destruct c'.
  - change (String x (c +:+ "_" +:+ batch_id +:+ ".json")
            = String "_" (batch_id' +:+ ".json")) in Heq.
    injection Heq as -> _. rewrite contains_cons in Hc. simpl in Hc.
    by destruct c.
  - change (String x (c +:+ "_" +:+ batch_id +:+ ".json")
            = String y (c' +:+ "_" +:+ batch_id' +:+ ".json")) in Heq.
    injection Heq as -> Heq.
    rewrite contains_cons in Hc, Hc'.
    apply orb_false_iff in Hc as [_ Hc]. apply orb_false_iff in Hc' as [_ Hc'].
    destruct (IH c' Hc Hc' Heq) as [-> ->]. done.
Qed.

(** X26: [save_stories] changes one entry only. When the category names
    have no underscore and the file names of the two pairs are plain names
    of entries of the cache directory (no slash, no NUL, no surrogate, not
    too long), a save for (category, batch) that returns leaves the lookup
    of every other (category, batch) as it was. *)
Theorem save_stories_keeps_other_entries
    (category_id category_id' batch_id batch_id' : string)
    (stories : list (Story.t datetime))
    (dir dir' : gmap string (CacheManager.file datetime)) :
  CacheManager.entry_name (CacheManager.file_name category_id batch_id) = true →
  CacheManager.entry_name (CacheManager.file_name category_id' batch_id') = true →
  contains "_" category_id = false →
  contains "_" category_id' = false →
  (category_id, batch_id) ≠ (category_id', batch_id') →
  CacheManager.save_stories category_id batch_id stories dir = Ok dir' →
  CacheManager.get_cached_stories category_id' batch_id' dir'
  = CacheManager.get_cached_stories category_id' batch_id' dir.
Proof.
  intros He He' Hc Hc' Hne Hsave. apply get_cached_stories_same_file.
  apply save_stories_cases in Hsave as [->| ->]; [done|].
  apply lookup_insert_ne. rewrite !cache_path_plain by done.
  intros Heq. apply Hne.
  by destruct (file_name_inj _ _ _ _ Hc Hc' Heq) as [-> ->].
Qed.

Section FileNames.
Context `{!RuntimeLaws datetime}.

(** X27: a hit is decided by the file name alone. The [category_id] and
    [batch_id] recorded inside a cache file are never compared with the
    ones looked up: a file written for one (category, batch) that sits
    under the name of another is served as that other entry. *)
Theorem cache_hit_ignores_recorded_ids
    (category_id batch_id category_id' batch_id' : string)
    (stories : list (Story.t datetime))
    (dir : gmap string (CacheManager.file datetime)) :
  Forall valid_story stories →
  dir !! CacheManager._get_cache_path category_id batch_id
    = Some (CacheManager.Json
              (CacheManager.cache_data category_id' batch_id' stories)) →
  CacheManager.get_cached_stories category_id batch_id dir = Ok (Some stories).
Proof.
  intros Hvalid Hf.
  rewrite (get_cached_stories_file _ _ _ _ Hf).
  unfold CacheManager.cache_data. simpl (dict_get _ _).
  cbn [CacheManager.py_iter try_except mbind result_bind].
  rewrite parse_cached_story_dicts; [done|].
  eapply Forall_impl; [exact Hvalid|]. apply valid_story_excerpt.
Qed.


End FileNames.

(** *** Reloading after the configuration screen *)

(** X29: the reload after the configuration screen does not see what that
    screen saved. The main screen's manager cached the config when the
    screen was mounted, and [_show_config_and_reload] asks that manager: its
    outcome is the same whatever the config file holds by then, so it is
    decided by the selection that was loaded at mount time. *)
Theorem reload_ignores_saved_config (d : ConfigManager.disk datetime)
    (response : APIClient.http_outcome datetime)
    (api : MainScreen.remote datetime) (s : MainScreen.screen datetime) :
  ∃ config manager,
    ConfigManager.load d ConfigManager.init = Ok (config, manager) ∧
    ∀ saved d1 d2,
      Handlers._show_config_and_reload saved d1 manager response api s
      = Handlers._show_config_and_reload saved d2 manager response api s.
Proof.
  destruct (load_ok d ConfigManager.init) as [config Hload].
  exists config, (ConfigManager.mk (Some config)). split; [done|].
  intros saved d1 d2. unfold Handlers._show_config_and_reload.
  by rewrite !load_cached.
Qed.

(** *** The story list *)

Section Expansion.
Context `{!Clock datetime}.

(** X30: expansion goes by story id, not by position. After [set_stories]
    and one [action_toggle_story] on the item at [i], the list has one item
    per story in order, and an item shows the expanded text exactly when its
    story has the id of story [i]: stories that share an id (as the clusters
    that get the id unknown do) expand together. *)
Theorem toggle_expands_stories_with_same_id
    (stories : list (Story.t datetime)) (self : StoryList.t datetime)
    (i : nat) (a : Story.t datetime) :
  stories !! i = Some a →
  StoryList.children
    (StoryList.action_toggle_story (Some i) (StoryList.set_stories stories self))
  = imap (λ j b,
            StoryList.StoryItem
              (if bool_decide (Story.id b = Story.id a)
               then StoryList._create_expanded_content b
               else StoryDisplay.format_display b)
              b j)
         stories.
Proof.
  intros Hi. destruct stories as [|story0 stories0] eqn:Hs; [done|].
  rewrite <- Hs in *. clear Hs.
  assert (StoryList.set_stories stories self
          = StoryList.mk stories ∅
              (StoryList.story_items (StoryList.mk stories ∅ []) stories)) as ->.
  { unfold StoryList.set_stories. by destruct stories. }
  unfold StoryList.action_toggle_story. cbn [StoryList._stories].
  destruct stories as [|story1 stories1] eqn:Hs; [done|].
  rewrite <- Hs in *. clear Hs story1 stories1.
  rewrite Hi. cbn [StoryList._expanded_stories StoryList.children].
  rewrite bool_decide_eq_false_2 by apply not_elem_of_empty.
  unfold StoryList.story_items. apply imap_ext. intros j b Hb.
  unfold StoryList._create_story_item. cbn [StoryList._expanded_stories].
  f_equal.
  rewrite (bool_decide_ext (Story.id b ∈ (∅ : gset string) ∪ {[Story.id a]})
             (Story.id b = Story.id a)); [done|].
  rewrite elem_of_union, elem_of_singleton. split; [|by right].
  intros [Hin|Heq]; [|done]. by apply elem_of_empty in Hin.
Qed.

End Expansion.

End Facts.

(** * The model at concrete inputs *)

Import Sample.

Lemma sample_runtime_laws : RuntimeLaws instant.
Proof. split; [by intros []|by intros []|done]. Qed.

Lemma sample_filesystem_laws : CacheManager.FileSystemLaws.
Proof. split. by intros names. Qed.

Lemma sample_stories_valid :
  Forall valid_story [old_story; new_story; science_story; world_story].
Proof.
  repeat (apply Forall_cons_2;
            [match goal with
             | |- valid_story ?story => exists (CacheManager.story_dict story)
             end; vm_compute; reflexivity|]).
  apply Forall_nil_2.
Qed.

Lemma load_screen0_science_down :
  MainScreen._load_stories api_science_down screen0
  = Ok (screen0_science_down, ["c-tech"; "c-sci"]).
Proof. vm_compute. reflexivity. Qed.

Lemma load_screen0_up :
  MainScreen._load_stories api_up screen0 = Ok (screen0_up, ["c-tech"; "c-sci"]).
Proof. vm_compute. reflexivity. Qed.

Lemma load_screen_b10_down :
  MainScreen._load_stories api_down screen_b10 = Ok (screen_b10_down, ["c-tech"]).
Proof. vm_compute. reflexivity. Qed.

Lemma load_screen_empty_race :
  MainScreen._load_stories api_race screen_empty = Ok (screen_empty_race, ["c-tech"]).
Proof. vm_compute. reflexivity. Qed.

Lemma load_screen_empty_down :
  MainScreen._load_stories api_down screen_empty = Ok (screen_empty_down, ["c-tech"]).
Proof. vm_compute. reflexivity. Qed.

Lemma load_screen_empty_down_again :
  MainScreen._load_stories api_down screen_empty_down
  = Ok (screen_empty_down, ["c-tech"]).
Proof. vm_compute. reflexivity. Qed.

Lemma load_screen_empty_empty :
  MainScreen._load_stories api_empty screen_empty = Ok (screen_empty_down, ["c-tech"]).
Proof. vm_compute. reflexivity. Qed.

Lemma load_screen_empty_empty_again :
  MainScreen._load_stories api_empty screen_empty_down
  = Ok (screen_empty_down, ["c-tech"]).
Proof. vm_compute. reflexivity. Qed.

Lemma load_screen_slash :
  MainScreen._load_stories api_up_all screen_slash = Ok (screen_slash_up, ["c-st"]).
Proof. vm_compute. reflexivity. Qed.

Lemma load_screen_slash_again :
  MainScreen._load_stories api_up_all screen_slash_up
  = Ok (screen_slash_up, ["c-st"]).
Proof. vm_compute. reflexivity. Qed.

Lemma screen0_names_distinct :
  NoDup (map Category.name (MainScreen.categories screen0)).
Proof. apply (bool_decide_unpack _). vm_compute. exact I. Qed.

Lemma screen0_regular : regular_files (MainScreen.cache_dir screen0).
Proof.
  assert (∀ name f, MainScreen.cache_dir screen0 !! name = Some f →
                    ∃ data, f = CacheManager.Json data) as Hjson.
  { intros name f Hf. unfold screen0, MainScreen.cache_dir in Hf.
    apply lookup_insert_Some in Hf as [[_ <-]|[_ Hf]]; [by eexists|].
    apply lookup_singleton_Some in Hf as [_ <-]. by eexists. }
  intros name. split; intros Hf; by destruct (Hjson _ _ Hf).
Qed.

Lemma screen0_entry_names (c : Category.t) :
  c ∈ MainScreen.categories screen0 →
  CacheManager.entry_name (CacheManager.file_name (Category.name c) "b2") = true.
Proof.
  intros Hc.
  apply elem_of_cons in Hc as [->|Hc]; [reflexivity|].
  apply elem_of_cons in Hc as [->|Hc]; [reflexivity|].
  apply elem_of_cons in Hc as [->|Hc]; [reflexivity|by apply elem_of_nil in Hc].
Qed.







(** C4 fails as stated: the fetch for science times out while tech is
    fetched and world is a cache hit; after the cycle science does not map
    to an empty list but to the list the screen showed before, and the
    result of the cycle carries no failure report. *)
Lemma failed_category_keeps_old_list :
  MainScreen._load_stories api_science_down screen0
  = Ok (screen0_science_down, ["c-tech"; "c-sci"]) ∧
  MainScreen.get_stories api_science_down (Category.id science) = Raise APITimeoutError ∧
  MainScreen.stories_by_category screen0_science_down !! Category.name science
  = Some [old_story] ∧
  MainScreen.stories_by_category screen0_science_down !! Category.name tech
  = Some [new_story].
Proof.
  split; [exact load_screen0_science_down|].
  repeat split; vm_compute; reflexivity.
Qed.

(** C4, at a concrete cycle: the fetch for science fails, tech is fetched. *)
Lemma fetch_failure_is_local_witness :
  ∃ s' fetched,
    MainScreen._load_stories api_science_down screen0 = Ok (s', fetched) ∧
    MainScreen.stories_by_category s' !! Category.name science
      = MainScreen.stories_by_category screen0 !! Category.name science ∧
    ∀ a stories response_batch_id,
      a ∈ MainScreen.categories screen0 →
      lookup_category "b2" (MainScreen.cache_dir screen0) a = Ok None →
      MainScreen.get_stories api_science_down (Category.id a)
        = Ok (stories, response_batch_id) →
      stories ≠ [] →
      MainScreen.stories_by_category s' !! Category.name a = Some stories.
Proof.
  apply (fetch_failure_is_local api_science_down screen0 "b2" science APITimeoutError).
  - reflexivity.
  - discriminate.
  - exact screen0_names_distinct.
  - right. left.
  - intros c Hc.
    apply elem_of_cons in Hc as [->|Hc]; [eexists; vm_compute; reflexivity|].
    apply elem_of_cons in Hc as [->|Hc]; [eexists; vm_compute; reflexivity|].
    apply elem_of_cons in Hc as [->|Hc]; [eexists; vm_compute; reflexivity|].
    by apply elem_of_nil in Hc.
  - intros c stories rb Hc Hget.
    apply elem_of_cons in Hc as [->|Hc].
    { vm_compute in Hget. injection Hget as <- <-. reflexivity. }
    apply elem_of_cons in Hc as [->|Hc]; [vm_compute in Hget; discriminate|].
    apply elem_of_cons in Hc as [->|Hc]; [vm_compute in Hget; discriminate|].
    by apply elem_of_nil in Hc.
  - vm_compute. reflexivity.
  - reflexivity.
  - reflexivity.
  - intros c Hc Hne Hmiss.
    apply elem_of_cons in Hc as [->|Hc]; [eexists; reflexivity|].
    apply elem_of_cons in Hc as [->|Hc]; [done|].
    apply elem_of_cons in Hc as [->|Hc]; [|by apply elem_of_nil in Hc].
    vm_compute in Hmiss. discriminate.
Defined.

(** C5, at a concrete directory: the cache entry of (tech, b10) belongs to
    another batch than the current b1, yet pruning with b1 does not delete
    it, for its file name tech_b10.json contains the text b1; the lookup of
    (tech, b10) is served as before. *)
Lemma clear_old_caches_keeps_stale_batch_witness :
  "b10" ≠ "b1" ∧
  CacheManager.clear_old_caches "b1" (MainScreen.cache_dir screen_b10)
    !! CacheManager._get_cache_path "tech" "b10"
  = Some (CacheManager.Json (CacheManager.cache_data "tech" "b10" [old_story])) ∧
  CacheManager.get_cached_stories "tech" "b10"
    (CacheManager.clear_old_caches "b1" (MainScreen.cache_dir screen_b10))
  = CacheManager.get_cached_stories "tech" "b10" (MainScreen.cache_dir screen_b10).
Proof.
  split; [discriminate|].
  apply (clear_old_caches_keeps_stale_batch "b1" "tech" "b10"
           (MainScreen.cache_dir screen_b10)).
  - discriminate.
  - vm_compute. reflexivity.
  - vm_compute. reflexivity.
Defined.



(** C8 fails as stated: a dictionary whose id, title, url and source are
    empty strings is accepted, and the story built has these fields empty. *)
Lemma from_api_response_accepts_empty_fields :
  Story.from_api_response
    (VDict [("id", VStr ""); ("title", VStr ""); ("url", VStr "");
            ("source", VStr ""); ("published_at", VStr "2024-05-01T08:00:00")])
  = Ok (Story.mk "" "" "" "" Morning None).
Proof. vm_compute. reflexivity. Qed.

(** C10, with the sample runtime, whose [fromtimestamp] overflows outside a
    64-bit time_t. *)
Lemma get_cached_stories_overflow_raises_witness :
  @fromtimestamp instant Sample.runtime (NInt (10 ^ 30)) = Raise OverflowError ∧
  CacheManager.get_cached_stories "tech" "b2"
    (<[CacheManager._get_cache_path "tech" "b2" :=
         CacheManager.Json
           (VDict [("batch_id", VStr "b2"); ("category_id", VStr "tech");
                   ("stories", VList [record_with_timestamp (10 ^ 30)])])]> ∅)
  = Raise OverflowError.
Proof.
  split; [vm_compute; reflexivity|].
  apply (get_cached_stories_overflow_raises "tech" "b2" ∅).
  vm_compute. reflexivity.
Defined.

(** ** The added properties at concrete inputs *)

Lemma get_stories_limit_in_range_witness :
  Client.get_stories http_up "c-tech" 500
  = Client.get_stories http_strict "c-tech" 500.
Proof.
  apply (get_stories_limit_in_range http_up http_strict "c-tech" 500).
  intros l Hl. unfold http_up, http_strict.
  destruct (Z.ltb_spec l 1); [lia|]. destruct (Z.ltb_spec 100 l); [lia|].
  reflexivity.
Defined.

Lemma parse_stories_skips_cluster_without_articles_witness :
  Client.parse_stories
    ([cluster_new] ++ VDict cluster_without_articles :: [cluster_new]) []
  = Client.parse_stories ([cluster_new] ++ [cluster_new]) [].
Proof.
  apply (parse_stories_skips_cluster_without_articles
           [cluster_new] [cluster_new] cluster_without_articles []).
  reflexivity.
Defined.

Lemma get_stories_non_dict_cluster_witness :
  Client.get_stories http_malformed "c-tech" 12 = Raise AttributeError ∧
  isinstance AttributeError APIError = false.
Proof.
  apply (get_stories_non_dict_cluster http_malformed "c-tech" 12
           malformed_response [cluster_new] [] (VStr "oops") [new_story]).
  - reflexivity.
  - reflexivity.
  - vm_compute. reflexivity.
  - reflexivity.
Defined.

Lemma parse_story_fields_witness :
  Client.parse_story (VDict cluster_new_items) = Ok (Some new_story) ∧
  ∃ a,
    Story.url new_story = py_str (default VNone (dict_get a "link")) ∧
    Story.source new_story = py_str (default VNone (dict_get a "domain")) ∧
    Story.parse_published_at (default VNone (dict_get a "date"))
      = Ok (Story.published_at new_story).
Proof.
  assert (Client.parse_story (VDict cluster_new_items) = Ok (Some new_story))
    as Hparse by (vm_compute; reflexivity).
  split; [exact Hparse|].
  destruct (parse_story_fields cluster_new_items new_story Hparse)
    as (a & _ & _ & _ & Hurl & Hsource & Hdate & _).
  exists a. split; [exact Hurl|]. split; [exact Hsource|exact Hdate].
Defined.


Lemma format_time_same_day_witness :
  StoryDisplay._format_time Morning = "1h ago".
Proof.
  rewrite (format_time_same_day Morning).
  - vm_compute. reflexivity.
  - reflexivity.
  - simpl. lia.
Defined.

Lemma format_time_future_witness :
  StoryDisplay._format_time Evening = "-1d ago".
Proof.
  rewrite (format_time_future Evening).
  - vm_compute. reflexivity.
  - reflexivity.
Defined.

Lemma load_screen_us_down :
  MainScreen._load_stories api_down screen_us = Ok (screen_us, []).
Proof. vm_compute. reflexivity. Qed.

Lemma action_refresh_looks_up_sanitised_name_witness :
  Handlers.action_refresh api_down "tab-us_news" true screen_us
    = Handlers.Refreshed screen_us (Some []) ∧
  MainScreen.stories_by_category screen_us !! Category.name us_news
    = Some [old_story].
Proof.
  split; [|reflexivity].
  exact (action_refresh_looks_up_sanitised_name api_down screen_us screen_us []
           us_news load_screen_us_down).
Defined.

Lemma next_and_previous_tab_are_inverse_witness :
  (∃ next name name',
     CategoryTabs.action_next_tab tabs_mounted "tab-science" = Some (next, name) ∧
     CategoryTabs.action_previous_tab tabs_mounted next
       = Some ("tab-science", name')) ∧
  (∃ prev name name',
     CategoryTabs.action_previous_tab tabs_mounted "tab-science" = Some (prev, name) ∧
     CategoryTabs.action_next_tab tabs_mounted prev = Some ("tab-science", name')).
Proof.
  apply (next_and_previous_tab_are_inverse tabs_mounted "tab-science").
  - apply (bool_decide_unpack _). vm_compute. exact I.
  - apply (bool_decide_unpack _). vm_compute. exact I.
Defined.

Lemma next_tab_shows_next_category_witness :
  CategoryTabs.action_next_tab
    (foldl (λ tabs category, CategoryTabs.add_tab category tabs)
           CategoryTabs.init (MainScreen.categories screen_mounted))
    "tab-science"
  = Some ("tab-tech", "tech") ∧
  Handlers.on_category_tabs_category_changed "tech" true screen_mounted
  = Some [new_story].
Proof.
  apply (next_tab_shows_next_category screen_mounted 1 science tech).
  - apply (bool_decide_unpack _). vm_compute. exact I.
  - reflexivity.
  - reflexivity.
Defined.

Lemma on_mount_without_selection_witness :
  Handlers.on_mount no_config categories_response api_up ∅
  = Handlers.EmptyState "No categories configured. Press 'c' to configure.".
Proof.
  apply (on_mount_without_selection no_config categories_response api_up ∅
           Config.default (ConfigManager.mk (Some Config.default))).
  - reflexivity.
  - reflexivity.
Defined.

Lemma on_mount_loaded_witness :
  Handlers.on_mount config_tech_science categories_response api_up ∅
    = Handlers.Loaded screen_mounted tabs_mounted [new_story] ∧
  ∃ first_category,
    head (MainScreen.categories screen_mounted) = Some first_category ∧
    [new_story] = default [] (MainScreen.stories_by_category screen_mounted
                                !! Category.name first_category).
Proof.
  assert (Handlers.on_mount config_tech_science categories_response api_up ∅
          = Handlers.Loaded screen_mounted tabs_mounted [new_story])
    as Hmount by (vm_compute; reflexivity).
  split; [exact Hmount|].
  destruct (on_mount_loaded config_tech_science categories_response api_up ∅
              screen_mounted tabs_mounted [new_story] Hmount)
    as (config & all_categories & first_category & _ & _ & _ & _ & Hhead & Hshown).
  exists first_category. split; [exact Hhead|exact Hshown].
Defined.

Lemma non_api_error_aborts_refresh_witness :
  (∃ e', MainScreen._load_stories api_malformed screen0 = Raise e') ∧
  Handlers.action_refresh api_malformed "tab-world" true screen0
  = Handlers.RefreshError.
Proof.
  apply (non_api_error_aborts_refresh api_malformed screen0 "b2" tech
           AttributeError "tab-world" true).
  - reflexivity.
  - discriminate.
  - apply elem_of_cons. left. reflexivity.
  - vm_compute. reflexivity.
  - reflexivity.
  - reflexivity.
Defined.

Lemma save_stories_keeps_other_entries_witness :
  CacheManager.get_cached_stories "world" "b2"
    (<["tech_b2.json" :=
         CacheManager.Json (CacheManager.cache_data "tech" "b2" [new_story])]>
       (MainScreen.cache_dir screen0))
  = CacheManager.get_cached_stories "world" "b2" (MainScreen.cache_dir screen0).
Proof.
  apply (save_stories_keeps_other_entries "tech" "world" "b2" "b2" [new_story]
           (MainScreen.cache_dir screen0)).
  - reflexivity.
  - reflexivity.
  - reflexivity.
  - reflexivity.
  - discriminate.
  - vm_compute. reflexivity.
Defined.

Lemma cache_hit_ignores_recorded_ids_witness :
  CacheManager.get_cached_stories "tech" "b2"
    {[ "tech_b2.json" :=
         CacheManager.Json (CacheManager.cache_data "world" "b1" [world_story]) ]}
  = Ok (Some [world_story]).
Proof.
  apply (@cache_hit_ignores_recorded_ids instant Sample.runtime Sample.filesystem
           sample_runtime_laws "tech" "b2" "world" "b1" [world_story]).
  - apply Forall_cons_2; [|apply Forall_nil_2].
    exists (CacheManager.story_dict world_story). vm_compute. reflexivity.
  - reflexivity.
Defined.


Lemma load_is_cached_witness :
  ConfigManager.load config_tech_science ConfigManager.init
    = Ok (Config.mk ["science"; "tech"] "nord",
          ConfigManager.mk (Some (Config.mk ["science"; "tech"] "nord"))) ∧
  ConfigManager.load no_config
    (ConfigManager.mk (Some (Config.mk ["science"; "tech"] "nord")))
    = Ok (Config.mk ["science"; "tech"] "nord",
          ConfigManager.mk (Some (Config.mk ["science"; "tech"] "nord"))).
Proof.
  assert (ConfigManager.load config_tech_science ConfigManager.init
          = Ok (Config.mk ["science"; "tech"] "nord",
                ConfigManager.mk (Some (Config.mk ["science"; "tech"] "nord"))))
    as Hload by (vm_compute; reflexivity).
  split; [exact Hload|].
  exact (load_is_cached config_tech_science ConfigManager.init _ _ Hload no_config).
Defined.

Lemma save_then_load_witness :
  ∃ d' self',
    ConfigManager.save (Config.mk ["tech"] "nord") no_config ConfigManager.init
      = (d', self', Ok tt) ∧
    ConfigManager.load d' ConfigManager.init
      = Ok (Config.mk ["tech"] "nord",
            ConfigManager.mk (Some (Config.mk ["tech"] "nord"))) ∧
    ConfigManager.load d' self' = Ok (Config.mk ["tech"] "nord", self').
Proof.
  apply (save_then_load (Config.mk ["tech"] "nord") None ConfigManager.init).
  - discriminate.
  - discriminate.
  - reflexivity.
Defined.

Lemma on_mount_theme_available_witness :
  KagiNewsApp.on_mount config_tech_science = Ok "nord" ∧
  "textual-dark" ∈ KagiNewsApp.AVAILABLE_THEMES.
Proof.
  apply (on_mount_theme_available config_tech_science
           (Config.mk ["science"; "tech"] "nord")
           (ConfigManager.mk (Some (Config.mk ["science"; "tech"] "nord")))).
  vm_compute. reflexivity.
Defined.

Lemma toggle_expands_stories_with_same_id_witness :
  StoryList.children
    (StoryList.action_toggle_story (Some 0%nat)
       (StoryList.set_stories [unknown_one; unknown_two; new_story] story_list_new))
  = [StoryList.StoryItem (StoryList._create_expanded_content unknown_one)
       unknown_one 0;
     StoryList.StoryItem (StoryList._create_expanded_content unknown_two)
       unknown_two 1;
     StoryList.StoryItem (StoryDisplay.format_display new_story) new_story 2].
Proof.
  apply (toggle_expands_stories_with_same_id
           [unknown_one; unknown_two; new_story] story_list_new 0 unknown_one).
  reflexivity.
Defined.
